(** * Willer: the "Happy AI Website Builder" service, embedded in Rocq

    The repository holds three variants of one Express service:

    - [src/unnamed/part_001]  chat / deploy / save / history with the
      GitHub publisher that looks up the acting user and adds the later
      files best-effort ([Module Builder]);
    - [src/server.js]         the same handlers, with the full text of
      [generateFallbackTemplate] ([Module Template]);
    - [src/unnamed/part_000]  the older "AI Website Factory" pipeline
      generate -> publish -> deploy ([Module Factory]).

    Handlers are embedded as programs of a small state-and-exception monad
    over a world that records the clock reads, the outbound calls and the
    console, so that a statement about "what the handler answers" and a
    statement about "what it did on the way" are both ordinary equalities. *)

From Stdlib Require Import ZArith NArith Ascii String.
From stdpp Require Import base option list strings pretty gmap.

Set Warnings "-register-all".

Open Scope string_scope.
Open Scope Z_scope.

(** ** JavaScript values *)

Module JS.

(** What [express.json()] and [JSON.parse] can hand to a handler, plus
    [undefined].  Numbers are the integer ones: no handler computes with a
    number it receives, and the only test applied to one is truthiness or a
    comparison with an integer literal.

    A [string] is read as a sequence of UTF-16 code units below 256; the
    fixed texts of the source that hold other characters are stored as their
    UTF-8 bytes, which no handler measures or cuts. *)
Inductive JValue : Type :=
| JUndefined
| JNull
| JBool (b : bool)
| JNum (n : Z)
| JStr (s : string)
| JArr (items : list JValue)
| JObj (props : list (string * JValue)).

(** [!!v] *)
Definition truthy (v : JValue) : bool :=
  match v with
  | JUndefined | JNull => false
  | JBool b => b
  | JNum n => negb (n =? 0)
  | JStr s => negb (String.eqb s "")
  | JArr _ | JObj _ => true
  end.

(** [s ? true : false] for a string, as in [GITHUB_TOKEN ? ... : ...]. *)
Definition nonempty (s : string) : bool := negb (String.eqb s "").

(** Own property of an object literal; the first binding of a key is the
    one the object holds. *)
Fixpoint lookup_key (k : string) (props : list (string * JValue)) : JValue :=
  match props with
  | [] => JUndefined
  | (k', v) :: rest => if String.eqb k k' then v else lookup_key k rest
  end.

(** The double quote, which the texts below splice in where the source has one. *)
Definition dq : string := String (Ascii.ascii_of_nat 34) "".
(** Line feed. *)
Definition nl : string := String (Ascii.ascii_of_nat 10) "".
(** A double-quoted attribute value or string. *)
Definition q (s : string) : string := dq +:+ s +:+ dq.

Fixpoint join (sep : string) (l : list string) : string :=
  match l with
  | [] => ""
  | [s] => s
  | s :: rest => s +:+ sep +:+ join sep rest
  end.

(** [String(v)], as a template literal applies it. *)
Fixpoint ToString (v : JValue) : string :=
  match v with
  | JUndefined => "undefined"
  | JNull => "null"
  | JBool true => "true"
  | JBool false => "false"
  | JNum n => pretty n
  | JStr s => s
  | JArr items =>
      join "," (map (fun x => match x with
                              | JUndefined | JNull => ""
                              | _ => ToString x
                              end) items)
  | JObj _ => "[object Object]"
  end.

(** [typeof]-like wording used by the engine's TypeError messages. *)
Definition describe (v : JValue) : string :=
  match v with
  | JUndefined => "undefined"
  | JNull => "null"
  | _ => ToString v
  end.

(** *** Strings *)

(** White space that [String.prototype.trim] strips, among code units below
    256: TAB, LF, VT, FF, CR, SPACE, NBSP. *)
Definition is_white_space (c : Ascii.ascii) : bool :=
  let n := Ascii.nat_of_ascii c in
  ((9 <=? n) && (n <=? 13) || (n =? 32) || (n =? 160))%nat.

Fixpoint trimStart (s : string) : string :=
  match s with
  | String c rest => if is_white_space c then trimStart rest else s
  | EmptyString => EmptyString
  end.

Definition trimEnd (s : string) : string := String.rev (trimStart (String.rev s)).

(** [s.trim()] *)
Definition trim (s : string) : string := trimEnd (trimStart s).

(** [s.substring(0, n)] *)
Definition substring0 (n : nat) (s : string) : string := String.substring 0 n s.

(** [s.length] *)
Definition strlen (s : string) : Z := Z.of_nat (String.length s).

(** [s.split(sep)] for a one-character separator. *)
Fixpoint split_go (sep : Ascii.ascii) (acc : string) (s : string) : list string :=
  match s with
  | EmptyString => [String.rev acc]
  | String c rest =>
      if Ascii.eqb c sep then String.rev acc :: split_go sep "" rest
      else split_go sep (String c acc) rest
  end.
Definition split (sep : Ascii.ascii) (s : string) : list string := split_go sep "" s.

(** *** Thrown values

    Everything these programs throw or catch is an [Error] object; the three
    properties a handler reads are kept: [message], octokit's [status] and
    axios's [response] (status and data). *)
Record Error : Type := mkError {
  e_message : string;
  e_status : option Z;
  e_response : option (Z * JValue)
}.

(** [new Error(msg)] *)
Definition new_Error (msg : string) : Error := mkError msg None None.

(** A TypeError raised by the engine; the wording is V8's, and nothing
    below depends on it. *)
Definition TypeError (msg : string) : Error := mkError msg None None.

(** How an evaluation ends. *)
Inductive Completion (A : Type) : Type :=
| Normal (a : A)
| Throw (e : Error).
Arguments Normal {A} a.
Arguments Throw {A} e.

(** Sequencing of evaluations that may throw. *)
Definition and_then {A B} (c : Completion A) (k : A -> Completion B) : Completion B :=
  match c with
  | Normal a => k a
  | Throw e => Throw e
  end.

(** [v.k] on a value: a TypeError on [undefined] and [null], [length] on
    strings and arrays, the own property on objects, [undefined] elsewhere
    (none of the keys read by the handlers is a prototype property). *)
Definition member (v : JValue) (k : string) : Completion JValue :=
  match v with
  | JUndefined | JNull =>
      Throw (TypeError ("Cannot read properties of " +:+ describe v
                          +:+ " (reading '" +:+ k +:+ "')"))
  | JObj props => Normal (lookup_key k props)
  | JStr s => Normal (if String.eqb k "length" then JNum (strlen s) else JUndefined)
  | JArr items =>
      Normal (if String.eqb k "length" then JNum (Z.of_nat (List.length items))
              else JUndefined)
  | JBool _ | JNum _ => Normal JUndefined
  end.

(** [v[i]] for an index literal. *)
Definition index (v : JValue) (i : nat) : Completion JValue :=
  match v with
  | JUndefined | JNull =>
      Throw (TypeError ("Cannot read properties of " +:+ describe v
                          +:+ " (reading '" +:+ pretty i +:+ "')"))
  | JArr items => Normal (nth i items JUndefined)
  | JStr s => Normal (match String.get i s with
                      | Some c => JStr (String c "")
                      | None => JUndefined
                      end)
  | JObj props => Normal (lookup_key (pretty i) props)
  | JBool _ | JNum _ => Normal JUndefined
  end.

(** A parameter with a default value: [function f(x = d)]. *)
Definition or_default (x d : JValue) : JValue :=
  match x with
  | JUndefined => d
  | _ => x
  end.

(** [a === b] on primitives, which is also how a [Map] compares keys; two
    objects or arrays that come from different requests are never the same
    object. *)
Definition same_value (a b : JValue) : bool :=
  match a, b with
  | JUndefined, JUndefined | JNull, JNull => true
  | JBool x, JBool y => Bool.eqb x y
  | JNum x, JNum y => x =? y
  | JStr x, JStr y => String.eqb x y
  | _, _ => false
  end.

End JS.
Export JS.

(** ** The world around a handler *)

Module Run.

(** An outbound request.  Each constructor keeps what the program puts into
    the request from its own data; the constants of the payload are named
    in the comment.

    - [ChatCompletions]: [axios.post] to
      https://api.deepseek.com/v1/chat/completions, model deepseek-coder,
      temperature 0.7, JSON response format, bearer [key]; [timeout] in
      milliseconds when the call sets one.
    - [UsersGetAuthenticated], [ReposCreateForAuthenticatedUser] (public,
      auto_init false), [ReposCreateOrUpdateFileContents]: octokit.
    - [DeployGit]: [axios.post] to https://api.vercel.com/v13/deployments
      with a github [gitSource] on ref main, target production.
    - [DeployFiles]: the same endpoint with inline files and the static
      project settings. *)
Inductive Call : Type :=
| ChatCompletions (key : JValue) (system : option string) (user : string)
    (max_tokens : Z) (timeout : option Z)
| UsersGetAuthenticated (auth : JValue)
| ReposCreateForAuthenticatedUser (auth : JValue) (name description : string)
| ReposCreateOrUpdateFileContents (auth owner repo : JValue)
    (path message content : string)
| DeployGit (token : JValue) (name : JValue) (project : option string) (repo : JValue)
| DeployFiles (token : JValue) (name : string) (files : list (string * JValue)).

(** How the other side answers: the promise resolves with a value or
    rejects with an error. *)
Inductive Outcome : Type :=
| Resolve (v : JValue)
| Reject (e : Error).

(** One argument of a [console] call. *)
Inductive LogArg : Type :=
| Text (s : string)
| Value (v : JValue)
| Thrown (e : Error)
| StackOf (e : Error).

Inductive LogLevel : Type := Log | Err.

(** Everything a handler does not decide itself: the process environment,
    the clock, the answers of the remote services, and the library
    functions whose result the embedding leaves to the platform. *)
Record Env : Type := mkEnv {
  process_env : string -> option string;
  (** the [k]-th reading of the clock, in milliseconds *)
  clock : nat -> N;
  (** the answer to the [k]-th outbound call *)
  remote : nat -> Call -> Outcome;
  (** [new Date(t).getFullYear()] *)
  getFullYear : N -> Z;
  (** [new Date(t).toISOString()] *)
  toISOString : N -> string;
  (** [JSON.parse(v)] *)
  JSON_parse : JValue -> Completion JValue;
  (** [Buffer.from(v).toString('base64')] *)
  base64 : JValue -> Completion string;
  (** [a < b] where the operands are not both numbers *)
  coerced_lt : JValue -> JValue -> bool
}.

(** The mutable part: the program's own store [S] and the traces. *)
Record World (S : Type) : Type := mkWorld {
  store : S;
  ticks : nat;
  outbox : list Call;
  console : list (LogLevel * list LogArg)
}.
Arguments mkWorld {S} _ _ _ _.
Arguments store {S} _.
Arguments ticks {S} _.
Arguments outbox {S} _.
Arguments console {S} _.

Definition M (S A : Type) : Type := Env -> World S -> Completion A * World S.

Section Monad.
Context {S : Type}.

Definition ret {A} (a : A) : M S A := fun _ w => (Normal a, w).

Definition bind {A B} (m : M S A) (k : A -> M S B) : M S B :=
  fun env w =>
    match m env w with
    | (Normal a, w') => k a env w'
    | (Throw e, w') => (Throw e, w')
    end.

(** [throw e] *)
Definition throw {A} (e : Error) : M S A := fun _ w => (Throw e, w).

(** [try { m } catch (error) { handler error }] *)
Definition try_catch {A} (m : M S A) (handler : Error -> M S A) : M S A :=
  fun env w =>
    match m env w with
    | (Normal a, w') => (Normal a, w')
    | (Throw e, w') => handler e env w'
    end.

(** A pure evaluation that may throw. *)
Definition lift {A} (c : Completion A) : M S A := fun _ w => (c, w).

Definition ask : M S Env := fun env w => (Normal env, w).

(** [Date.now()], and the instant of [new Date()]. *)
Definition Date_now : M S N :=
  fun env w =>
    (Normal (clock env (ticks w)),
     mkWorld (store w) (Datatypes.S (ticks w)) (outbox w) (console w)).

(** [await] of an outbound call. *)
Definition await (c : Call) : M S JValue :=
  fun env w =>
    let w' := mkWorld (store w) (ticks w) (outbox w ++ [c]) (console w) in
    match remote env (List.length (outbox w)) c with
    | Resolve v => (Normal v, w')
    | Reject e => (Throw e, w')
    end.

Definition console_log (args : list LogArg) : M S unit :=
  fun _ w => (Normal tt, mkWorld (store w) (ticks w) (outbox w) (console w ++ [(Log, args)])).

Definition console_error (args : list LogArg) : M S unit :=
  fun _ w => (Normal tt, mkWorld (store w) (ticks w) (outbox w) (console w ++ [(Err, args)])).

Definition get_store : M S S := fun _ w => (Normal (store w), w).

Definition put_store (s : S) : M S unit :=
  fun _ w => (Normal tt, mkWorld s (ticks w) (outbox w) (console w)).

End Monad.

Declare Scope js_scope.
Delimit Scope js_scope with js.
Notation "'let*' x ':=' m 'in' k" := (bind m (fun x => k))
  (at level 10, x name, m at level 100, k at level 200) : js_scope.
Notation "m ';;' k" := (bind m (fun _ => k))
  (at level 100, k at level 200, right associativity) : js_scope.
Notation "'try' m 'catch' x '=>' h" := (try_catch m (fun x => h))
  (at level 10, x name, m at level 200, h at level 200) : js_scope.

(** [v.k] inside a program. *)
Definition prop {S} (v : JValue) (k : string) : M S JValue := lift (member v k).

(** [a || b], with [b] evaluated only when [a] is falsy. *)
Definition or_else {S} (a : JValue) (b : M S JValue) : M S JValue :=
  if truthy a then ret a else b.

(** [a < b] *)
Definition less_than (env : Env) (a b : JValue) : bool :=
  match a, b with
  | JNum x, JNum y => x <? y
  | JUndefined, _ | _, JUndefined => false
  | _, _ => coerced_lt env a b
  end.

(** [process.env.NAME] *)
Definition getenv {S} (name : string) : M S JValue :=
  fun env w => (Normal (match process_env env name with
                        | Some s => JStr s
                        | None => JUndefined
                        end), w).

(** [Date.now()] inside a template literal. *)
Definition stamp (t : N) : string := pretty t.

(** What [res.status(n).json(body)] sends; [res.json] alone sends 200. *)
Record Response : Type := mkResponse { status : Z; body : JValue }.

Definition json (body : JValue) : Response := mkResponse 200 body.

(** [body.k] of a response, as the caller reads it. *)
Definition field (k : string) (r : Response) : JValue :=
  match body r with
  | JObj props => lookup_key k props
  | _ => JUndefined
  end.

End Run.
Export Run.

(** ** The fallback template of [src/server.js]

    [generateFallbackTemplate] returns three texts; the markup embeds the
    message twice (title and hero heading) and the current year (footer),
    the styles and the script are fixed.  Each text is the source's template
    literal with its escapes resolved.  One inner template literal of the
    script, in [initNavigation], is written in the source without the
    backslashes that every other inner literal of the same text carries; it
    is embedded here as text, like the others. *)

Module Template.

Definition html_text (message : string) (year : Z) : string :=
  "<!DOCTYPE html>
<html lang="
  +:+ q "en"
  +:+ ">
<head>
    <meta charset="
  +:+ q "UTF-8"
  +:+ ">
    <meta name="
  +:+ q "viewport"
  +:+ " content="
  +:+ q "width=device-width, initial-scale=1.0"
  +:+ ">
    <title>"
  +:+ message
  +:+ " | Happy AI Builder</title>
    <link rel="
  +:+ q "stylesheet"
  +:+ " href="
  +:+ q "style.css"
  +:+ ">
    <link rel="
  +:+ q "stylesheet"
  +:+ " href="
  +:+ q "https://cdnjs.cloudflare.com/ajax/libs/font-awesome/6.4.0/css/all.min.css"
  +:+ ">
</head>
<body>
    <!-- Navigation -->
    <nav class="
  +:+ q "navbar"
  +:+ ">
        <div class="
  +:+ q "container"
  +:+ ">
            <div class="
  +:+ q "logo"
  +:+ ">
                <i class="
  +:+ q "fas fa-robot"
  +:+ "></i>
                <span>Happy AI</span>
            </div>
            <div class="
  +:+ q "nav-links"
  +:+ ">
                <a href="
  +:+ q "#home"
  +:+ ">Home</a>
                <a href="
  +:+ q "#about"
  +:+ ">About</a>
                <a href="
  +:+ q "#features"
  +:+ ">Features</a>
                <a href="
  +:+ q "#contact"
  +:+ ">Contact</a>
            </div>
            <button class="
  +:+ q "menu-toggle"
  +:+ ">
                <i class="
  +:+ q "fas fa-bars"
  +:+ "></i>
            </button>
        </div>
    </nav>

    <!-- Hero Section -->
    <section class="
  +:+ q "hero"
  +:+ " id="
  +:+ q "home"
  +:+ ">
        <div class="
  +:+ q "container"
  +:+ ">
            <div class="
  +:+ q "hero-content"
  +:+ ">
                <h1 class="
  +:+ q "glow-text"
  +:+ ">"
  +:+ message
  +:+ "</h1>
                <p class="
  +:+ q "subtitle"
  +:+ ">Created with ❤️ using Happy AI Website Builder</p>
                <div class="
  +:+ q "cta-buttons"
  +:+ ">
                    <button class="
  +:+ q "btn primary-btn"
  +:+ " onclick="
  +:+ q "showAlert('Welcome!')"
  +:+ ">
                        <i class="
  +:+ q "fas fa-rocket"
  +:+ "></i> Get Started
                    </button>
                    <button class="
  +:+ q "btn secondary-btn"
  +:+ " onclick="
  +:+ q "showAlert('Learn More clicked!')"
  +:+ ">
                        <i class="
  +:+ q "fas fa-info-circle"
  +:+ "></i> Learn More
                    </button>
                </div>
            </div>
            <div class="
  +:+ q "hero-image"
  +:+ ">
                <div class="
  +:+ q "glow-circle"
  +:+ "></div>
            </div>
        </div>
    </section>

    <!-- Features Section -->
    <section class="
  +:+ q "features"
  +:+ " id="
  +:+ q "features"
  +:+ ">
        <div class="
  +:+ q "container"
  +:+ ">
            <h2 class="
  +:+ q "section-title"
  +:+ ">✨ Amazing Features</h2>
            <div class="
  +:+ q "features-grid"
  +:+ ">
                <div class="
  +:+ q "feature-card"
  +:+ ">
                    <div class="
  +:+ q "feature-icon"
  +:+ ">
                        <i class="
  +:+ q "fas fa-bolt"
  +:+ "></i>
                    </div>
                    <h3>Fast & Efficient</h3>
                    <p>Lightning fast performance with optimized code</p>
                </div>
                <div class="
  +:+ q "feature-card"
  +:+ ">
                    <div class="
  +:+ q "feature-icon"
  +:+ ">
                        <i class="
  +:+ q "fas fa-mobile-alt"
  +:+ "></i>
                    </div>
                    <h3>Mobile First</h3>
                    <p>Perfectly responsive on all devices</p>
                </div>
                <div class="
  +:+ q "feature-card"
  +:+ ">
                    <div class="
  +:+ q "feature-icon"
  +:+ ">
                        <i class="
  +:+ q "fas fa-palette"
  +:+ "></i>
                    </div>
                    <h3>Beautiful Design</h3>
                    <p>Modern UI with glowing effects</p>
                </div>
            </div>
        </div>
    </section>

    <!-- Footer -->
    <footer class="
  +:+ q "footer"
  +:+ ">
        <div class="
  +:+ q "container"
  +:+ ">
            <p>© "
  +:+ pretty year
  +:+ " Happy AI Builder. All rights reserved.</p>
            <div class="
  +:+ q "social-links"
  +:+ ">
                <a href="
  +:+ q "#"
  +:+ "><i class="
  +:+ q "fab fa-github"
  +:+ "></i></a>
                <a href="
  +:+ q "#"
  +:+ "><i class="
  +:+ q "fab fa-twitter"
  +:+ "></i></a>
                <a href="
  +:+ q "#"
  +:+ "><i class="
  +:+ q "fab fa-linkedin"
  +:+ "></i></a>
            </div>
        </div>
    </footer>

    <script src="
  +:+ q "script.js"
  +:+ "></script>
</body>
</html>".

Definition css_text : string :=
  "/* Happy AI Website Builder - Modern Dark Theme */
:root {
    --primary-color: #00ffaa;
    --secondary-color: #8a2be2;
    --accent-color: #ff0080;
    --dark-bg: #0a0a1a;
    --card-bg: rgba(20, 20, 40, 0.9);
    --text-primary: #ffffff;
    --text-secondary: #a0a0ff;
    --border-glow: rgba(0, 255, 170, 0.3);
    --shadow-glow: 0 0 20px rgba(0, 255, 170, 0.3);
    --transition: all 0.3s ease;
}

* {
    margin: 0;
    padding: 0;
    box-sizing: border-box;
}

body {
    font-family: 'Segoe UI', 'SF Pro Display', system-ui, sans-serif;
    background: var(--dark-bg);
    color: var(--text-primary);
    line-height: 1.6;
    overflow-x: hidden;
}

.container {
    max-width: 1200px;
    margin: 0 auto;
    padding: 0 20px;
}

/* Navigation */
.navbar {
    background: var(--card-bg);
    backdrop-filter: blur(10px);
    border-bottom: 1px solid var(--border-glow);
    position: fixed;
    top: 0;
    left: 0;
    right: 0;
    z-index: 1000;
    padding: 1rem 0;
}

.navbar .container {
    display: flex;
    justify-content: space-between;
    align-items: center;
}

.logo {
    display: flex;
    align-items: center;
    gap: 10px;
    font-size: 1.5rem;
    font-weight: 700;
    background: linear-gradient(90deg, var(--primary-color), var(--secondary-color));
    -webkit-background-clip: text;
    -webkit-text-fill-color: transparent;
}

.logo i {
    font-size: 1.8rem;
}

.nav-links {
    display: flex;
    gap: 2rem;
}

.nav-links a {
    color: var(--text-secondary);
    text-decoration: none;
    font-weight: 500;
    padding: 0.5rem 1rem;
    border-radius: 8px;
    transition: var(--transition);
}

.nav-links a:hover {
    color: var(--primary-color);
    background: rgba(0, 255, 170, 0.1);
}

.menu-toggle {
    display: none;
    background: none;
    border: none;
    color: var(--primary-color);
    font-size: 1.5rem;
    cursor: pointer;
}

/* Hero Section */
.hero {
    padding: 120px 0 80px;
    position: relative;
    overflow: hidden;
}

.hero::before {
    content: '';
    position: absolute;
    top: 0;
    left: 0;
    right: 0;
    bottom: 0;
    background: radial-gradient(circle at 30% 50%, rgba(0, 255, 170, 0.1) 0%, transparent 50%);
    z-index: -1;
}

.hero .container {
    display: flex;
    align-items: center;
    justify-content: space-between;
    gap: 3rem;
}

.hero-content {
    flex: 1;
}

.glow-text {
    font-size: 3.5rem;
    margin-bottom: 1.5rem;
    background: linear-gradient(90deg, var(--primary-color), var(--accent-color));
    -webkit-background-clip: text;
    -webkit-text-fill-color: transparent;
    text-shadow: 0 0 30px rgba(0, 255, 170, 0.3);
    animation: glow 2s infinite alternate;
}

@keyframes glow {
    from {
        text-shadow: 0 0 20px rgba(0, 255, 170, 0.3);
    }
    to {
        text-shadow: 0 0 30px rgba(0, 255, 170, 0.6);
    }
}

.subtitle {
    font-size: 1.2rem;
    color: var(--text-secondary);
    margin-bottom: 2rem;
    max-width: 600px;
}

.cta-buttons {
    display: flex;
    gap: 1rem;
    flex-wrap: wrap;
}

.btn {
    padding: 1rem 2rem;
    border: none;
    border-radius: 12px;
    font-size: 1rem;
    font-weight: 600;
    cursor: pointer;
    display: flex;
    align-items: center;
    gap: 10px;
    transition: var(--transition);
}

.primary-btn {
    background: linear-gradient(135deg, var(--primary-color), var(--secondary-color));
    color: var(--dark-bg);
}

.primary-btn:hover {
    transform: translateY(-3px);
    box-shadow: var(--shadow-glow);
}

.secondary-btn {
    background: rgba(0, 255, 170, 0.1);
    color: var(--primary-color);
    border: 2px solid var(--border-glow);
}

.secondary-btn:hover {
    background: rgba(0, 255, 170, 0.2);
    transform: translateY(-3px);
}

.hero-image {
    flex: 1;
    display: flex;
    justify-content: center;
    align-items: center;
}

.glow-circle {
    width: 300px;
    height: 300px;
    background: radial-gradient(circle, var(--primary-color) 0%, transparent 70%);
    border-radius: 50%;
    filter: blur(40px);
    opacity: 0.3;
    animation: float 6s infinite ease-in-out;
}

@keyframes float {
    0%, 100% {
        transform: translateY(0) scale(1);
    }
    50% {
        transform: translateY(-20px) scale(1.1);
    }
}

/* Features Section */
.features {
    padding: 80px 0;
}

.section-title {
    text-align: center;
    font-size: 2.5rem;
    margin-bottom: 3rem;
    color: var(--primary-color);
}

.features-grid {
    display: grid;
    grid-template-columns: repeat(auto-fit, minmax(300px, 1fr));
    gap: 2rem;
}

.feature-card {
    background: var(--card-bg);
    border: 1px solid var(--border-glow);
    border-radius: 20px;
    padding: 2rem;
    text-align: center;
    transition: var(--transition);
}

.feature-card:hover {
    transform: translateY(-10px);
    border-color: var(--primary-color);
    box-shadow: var(--shadow-glow);
}

.feature-icon {
    font-size: 3rem;
    margin-bottom: 1.5rem;
    color: var(--primary-color);
}

.feature-card h3 {
    font-size: 1.5rem;
    margin-bottom: 1rem;
    color: var(--text-primary);
}

.feature-card p {
    color: var(--text-secondary);
}

/* Footer */
.footer {
    background: rgba(10, 10, 26, 0.9);
    border-top: 1px solid var(--border-glow);
    padding: 2rem 0;
    margin-top: 4rem;
}

.footer .container {
    display: flex;
    justify-content: space-between;
    align-items: center;
    flex-wrap: wrap;
    gap: 1rem;
}

.footer p {
    color: var(--text-secondary);
}

.social-links {
    display: flex;
    gap: 1rem;
}

.social-links a {
    color: var(--text-secondary);
    font-size: 1.5rem;
    transition: var(--transition);
}

.social-links a:hover {
    color: var(--primary-color);
    transform: translateY(-3px);
}

/* Responsive Design */
@media (max-width: 768px) {
    .nav-links {
        display: none;
    }
    
    .menu-toggle {
        display: block;
    }
    
    .hero .container {
        flex-direction: column;
        text-align: center;
    }
    
    .glow-text {
        font-size: 2.5rem;
    }
    
    .cta-buttons {
        justify-content: center;
    }
    
    .glow-circle {
        width: 200px;
        height: 200px;
    }
    
    .footer .container {
        flex-direction: column;
        text-align: center;
    }
}

@media (max-width: 480px) {
    .glow-text {
        font-size: 2rem;
    }
    
    .btn {
        padding: 0.8rem 1.5rem;
        font-size: 0.9rem;
    }
    
    .features-grid {
        grid-template-columns: 1fr;
    }
}

/* Custom Scrollbar */
::-webkit-scrollbar {
    width: 10px;
}

::-webkit-scrollbar-track {
    background: var(--dark-bg);
}

::-webkit-scrollbar-thumb {
    background: linear-gradient(180deg, var(--primary-color), var(--secondary-color));
    border-radius: 5px;
}

::-webkit-scrollbar-thumb:hover {
    background: linear-gradient(180deg, var(--accent-color), var(--primary-color));
}".

Definition js_text : string :=
  "// Happy AI Website Builder - JavaScript
console.log('%c✨ Happy AI Website Loaded ✨', 'color: #00ffaa; font-size: 16px; font-weight: bold;');
console.log('%cBuilt with ❤️ using Happy AI Builder', 'color: #a0a0ff;');

// Initialize when page loads
document.addEventListener('DOMContentLoaded', function() {
    console.log('🚀 Initializing website...');
    
    // Initialize all features
    initNavigation();
    initAnimations();
    initInteractiveElements();
    initMobileMenu();
    
    console.log('✅ Website initialized successfully!');
});

// Navigation initialization
function initNavigation() {
    const navLinks = document.querySelectorAll('.nav-links a');
    
    navLinks.forEach(link => {
        link.addEventListener('click', function(e) {
            e.preventDefault();
            
            const targetId = this.getAttribute('href');
            if (targetId && targetId !== '#') {
                const targetElement = document.querySelector(targetId);
                
                if (targetElement) {
                    // Smooth scroll to section
                    window.scrollTo({
                        top: targetElement.offsetTop - 80,
                        behavior: 'smooth'
                    });
                    
                    // Update active link
                    navLinks.forEach(l => l.classList.remove('active'));
                    this.classList.add('active');
                }
            }
        });
    });
    
    // Add scroll spy for navigation
    window.addEventListener('scroll', function() {
        const sections = document.querySelectorAll('section');
        const scrollPos = window.scrollY + 100;
        
        sections.forEach(section => {
            const sectionTop = section.offsetTop;
            const sectionHeight = section.clientHeight;
            const sectionId = section.getAttribute('id');
            
            if (scrollPos >= sectionTop && scrollPos < sectionTop + sectionHeight) {
                navLinks.forEach(link => {
                    link.classList.remove('active');
                    if (link.getAttribute('href') === `#${sectionId}`) {
                        link.classList.add('active');
                    }
                });
            }
        });
    });
}

// Animations initialization
function initAnimations() {
    // Intersection Observer for scroll animations
    const observerOptions = {
        root: null,
        rootMargin: '0px',
        threshold: 0.1
    };
    
    const observer = new IntersectionObserver(function(entries) {
        entries.forEach(entry => {
            if (entry.isIntersecting) {
                entry.target.classList.add('animate-in');
            }
        });
    }, observerOptions);
    
    // Observe feature cards
    const featureCards = document.querySelectorAll('.feature-card');
    featureCards.forEach(card => {
        observer.observe(card);
        card.style.opacity = '0';
        card.style.transform = 'translateY(20px)';
        card.style.transition = 'all 0.6s ease';
    });
    
    // Add CSS for animations
    const style = document.createElement('style');
    style.textContent = `
        .animate-in {
            opacity: 1 !important;
            transform: translateY(0) !important;
        }
        
        .feature-card:nth-child(1) { transition-delay: 0.1s; }
        .feature-card:nth-child(2) { transition-delay: 0.2s; }
        .feature-card:nth-child(3) { transition-delay: 0.3s; }
        
        @keyframes fadeInUp {
            from {
                opacity: 0;
                transform: translateY(30px);
            }
            to {
                opacity: 1;
                transform: translateY(0);
            }
        }
    `;
    document.head.appendChild(style);
}

// Interactive elements initialization
function initInteractiveElements() {
    // Button click effects
    const buttons = document.querySelectorAll('.btn');
    
    buttons.forEach(button => {
        button.addEventListener('click', function(e) {
            // Create ripple effect
            const ripple = document.createElement('span');
            const rect = this.getBoundingClientRect();
            const size = Math.max(rect.width, rect.height);
            const x = e.clientX - rect.left - size / 2;
            const y = e.clientY - rect.top - size / 2;
            
            ripple.style.cssText = `
                position: absolute;
                border-radius: 50%;
                background: rgba(255, 255, 255, 0.7);
                transform: scale(0);
                animation: ripple-animation 0.6s linear;
                width: ${size}px;
                height: ${size}px;
                top: ${y}px;
                left: ${x}px;
                pointer-events: none;
            `;
            
            this.appendChild(ripple);
            
            // Remove ripple after animation
            setTimeout(() => {
                ripple.remove();
            }, 600);
        });
    });
    
    // Add ripple animation CSS
    const rippleStyle = document.createElement('style');
    rippleStyle.textContent = `
        @keyframes ripple-animation {
            to {
                transform: scale(4);
                opacity: 0;
            }
        }
        
        .btn {
            position: relative;
            overflow: hidden;
        }
    `;
    document.head.appendChild(rippleStyle);
    
    // Glow effect on hover for feature cards
    const featureCards = document.querySelectorAll('.feature-card');
    
    featureCards.forEach(card => {
        card.addEventListener('mouseenter', function() {
            this.style.boxShadow = '0 15px 40px rgba(0, 255, 170, 0.4)';
        });
        
        card.addEventListener('mouseleave', function() {
            this.style.boxShadow = '';
        });
    });
}

// Mobile menu initialization
function initMobileMenu() {
    const menuToggle = document.querySelector('.menu-toggle');
    const navLinks = document.querySelector('.nav-links');
    
    if (menuToggle && navLinks) {
        menuToggle.addEventListener('click', function() {
            navLinks.style.display = navLinks.style.display === 'flex' ? 'none' : 'flex';
            
            if (navLinks.style.display === 'flex') {
                navLinks.style.cssText = `
                    display: flex;
                    flex-direction: column;
                    position: absolute;
                    top: 100%;
                    left: 0;
                    right: 0;
                    background: var(--card-bg);
                    backdrop-filter: blur(20px);
                    padding: 1rem;
                    border-bottom: 2px solid var(--border-glow);
                    box-shadow: 0 10px 30px rgba(0, 0, 0, 0.3);
                    z-index: 1000;
                `;
                
                // Animate menu items
                const links = navLinks.querySelectorAll('a');
                links.forEach((link, index) => {
                    link.style.opacity = '0';
                    link.style.transform = 'translateY(-10px)';
                    link.style.transition = 'all 0.3s ease';
                    
                    setTimeout(() => {
                        link.style.opacity = '1';
                        link.style.transform = 'translateY(0)';
                    }, index * 100);
                });
            }
        });
        
        // Close menu when clicking outside
        document.addEventListener('click', function(e) {
            if (!menuToggle.contains(e.target) && !navLinks.contains(e.target)) {
                if (window.innerWidth <= 768) {
                    navLinks.style.display = 'none';
                }
            }
        });
        
        // Handle window resize
        window.addEventListener('resize', function() {
            if (window.innerWidth > 768) {
                navLinks.style.display = 'flex';
                navLinks.style.cssText = '';
            } else {
                navLinks.style.display = 'none';
            }
        });
    }
}

// Alert function for buttons
function showAlert(message) {
    alert(`🎉 ${message}`);
    
    // Add visual feedback
    const alertSound = document.createElement('audio');
    alertSound.innerHTML = '<source src="
  +:+ q "https://assets.mixkit.co/sfx/preview/mixkit-correct-answer-tone-2870.mp3"
  +:+ " type="
  +:+ q "audio/mpeg"
  +:+ ">';
    document.body.appendChild(alertSound);
    
    try {
        alertSound.play();
    } catch (error) {
        console.log('Audio play failed:', error);
    }
    
    setTimeout(() => {
        alertSound.remove();
    }, 1000);
}

// Current year in footer
function updateCurrentYear() {
    const yearElement = document.querySelector('.footer p');
    if (yearElement) {
        const currentYear = new Date().getFullYear();
        yearElement.innerHTML = yearElement.innerHTML.replace('2024', currentYear);
    }
}

// Initialize current year
updateCurrentYear();

// Performance monitoring
let loadTime = window.performance.timing.domContentLoadedEventEnd - window.performance.timing.navigationStart;
console.log(`⏱️ Page load time: ${loadTime}ms`);

// Add loading state
window.addEventListener('load', function() {
    document.body.classList.add('loaded');
    
    // Add loaded class for animations
    setTimeout(() => {
        document.body.style.opacity = '1';
        document.body.style.transition = 'opacity 0.5s ease';
    }, 100);
});

// Error handling
window.addEventListener('error', function(e) {
    console.error('🚨 Website Error:', e.error);
    
    // Show user-friendly error message
    if (!document.getElementById('error-toast')) {
        const errorToast = document.createElement('div');
        errorToast.id = 'error-toast';
        errorToast.style.cssText = `
            position: fixed;
            bottom: 20px;
            right: 20px;
            background: rgba(255, 0, 0, 0.9);
            color: white;
            padding: 1rem 1.5rem;
            border-radius: 10px;
            z-index: 9999;
            animation: slideIn 0.3s ease;
            max-width: 300px;
            border-left: 4px solid #ff4444;
        `;
        
        errorToast.innerHTML = `
            <strong>⚠️ Something went wrong</strong>
            <p style="
  +:+ q "margin-top: 5px; font-size: 0.9rem;"
  +:+ ">Please refresh the page</p>
        `;
        
        document.body.appendChild(errorToast);
        
        // Auto remove after 5 seconds
        setTimeout(() => {
            errorToast.style.animation = 'slideOut 0.3s ease';
            setTimeout(() => errorToast.remove(), 300);
        }, 5000);
    }
});

// Add animation styles
const animationStyles = document.createElement('style');
animationStyles.textContent = `
    @keyframes slideIn {
        from {
            transform: translateX(100%);
            opacity: 0;
        }
        to {
            transform: translateX(0);
            opacity: 1;
        }
    }
    
    @keyframes slideOut {
        from {
            transform: translateX(0);
            opacity: 1;
        }
        to {
            transform: translateX(100%);
            opacity: 0;
        }
    }
    
    body {
        opacity: 0;
    }
    
    body.loaded {
        opacity: 1;
    }
`;
document.head.appendChild(animationStyles);

// Export functions for global use
window.HappyAI = {
    showAlert: showAlert,
    initNavigation: initNavigation,
    initAnimations: initAnimations
};

console.log('🌟 Happy AI Website ready!');".

End Template.

(** ** The builder service ([src/unnamed/part_001], [src/server.js])

    The chat, deploy, history and save handlers and the generator read the
    same in both files.  [src/server.js] breaks off inside its publisher, so
    the publisher and the deployer are those of [src/unnamed/part_001].  A
    handler takes the fields it destructures from the request ([message],
    [currentCode], [project], [userId]); a field the body does not hold is
    [JUndefined]. *)

Module Builder.

Local Open Scope js_scope.

(** Which text of [generateFallbackTemplate] is meant: the full one of
    [src/server.js], or the three abbreviated lines that
    [src/unnamed/part_001] keeps in its place. *)
Inductive Variant : Type := server_js | part_001.

(** [{ html, css, js }] *)
Module Code.
Record t : Type := mk { html : JValue; css : JValue; js : JValue }.
Definition to_json (c : t) : JValue :=
  JObj [("html", html c); ("css", css c); ("js", js c)].
End Code.

(** What [generateAIResponse] returns: [{ message, code }]. *)
Module AIResponse.
Record t : Type := mk { message : JValue; code : Code.t }.
End AIResponse.

(** An entry of a user's history. *)
Module SavedProject.
Record t : Type := mk {
  id : string;
  name : JValue;
  preview : string;
  timestamp : string;
  code : Code.t
}.
Definition to_json (p : t) : JValue :=
  JObj [("id", JStr (id p)); ("name", name p); ("preview", JStr (preview p));
        ("timestamp", JStr (timestamp p)); ("code", Code.to_json (code p))].
End SavedProject.

(** A value of the [userSessions] map. *)
Module UserSession.
Record t : Type := mk {
  userId : string;
  projects : list SavedProject.t;
  createdAt : N
}.
End UserSession.

(** [{ url, repoName, cloneUrl }], the publisher's result. *)
Module GithubData.
Record t : Type := mk { url : JValue; repoName : string; cloneUrl : JValue }.
End GithubData.

(** [const userSessions = new Map()], keyed by the user id.  The key is
    text: the route parameter of the history request always is, and the save
    request is taken with a text [userId] as the data model has it. *)
Abbreviation Sessions := (gmap string UserSession.t).

Abbreviation IO := (M Sessions).

(** [process.env.NAME || ''] *)
Definition env_or_empty (name : string) : IO string :=
  let* env := ask in ret (default "" (process_env env name)).

Definition DEEPSEEK_API_KEY : IO string := env_or_empty "DEEPSEEK_API_KEY".
Definition GITHUB_TOKEN : IO string := env_or_empty "GITHUB_TOKEN".
Definition VERCEL_TOKEN : IO string := env_or_empty "VERCEL_TOKEN".
Definition VERCEL_PROJECT_ID : IO string := env_or_empty "VERCEL_PROJECT_ID".

(** *** Generation *)

(** [generateFallbackTemplate(message)].  The [server_js] text reads the
    clock twice: [templateId], which it does not use, and the year of the
    footer. *)
Definition generateFallbackTemplate (v : Variant) (message : string) : IO Code.t :=
  match v with
  | server_js =>
      let* templateId := Date_now in
      let* today := Date_now in
      let* env := ask in
      ret (Code.mk (JStr (Template.html_text message (getFullYear env today)))
                   (JStr Template.css_text)
                   (JStr Template.js_text))
  | part_001 =>
      ret (Code.mk (JStr "<!DOCTYPE html>...")
                   (JStr "/* CSS Code */...")
                   (JStr "// JavaScript Code..."))
  end.

(** [generateFallbackResponse(message)] *)
Definition generateFallbackResponse (v : Variant) (message : string) : IO AIResponse.t :=
  console_log [Text "🔄 Using fallback template"];;
  let* template := generateFallbackTemplate v message in
  ret (AIResponse.mk
         (JStr ("I created a " +:+ dq +:+ message +:+ dq +:+ " website for you! 🎉"))
         template).

(** [currentCode.k?.substring(0, 500) || 'None'] *)
Definition excerpt (currentCode : JValue) (k : string) : Completion string :=
  and_then (member currentCode k) (fun field =>
  match field with
  | JUndefined | JNull => Normal "None"
  | JStr s => let cut := substring0 500 s in Normal (if nonempty cut then cut else "None")
  | _ => Throw (TypeError ("currentCode." +:+ k +:+ "?.substring is not a function"))
  end).

(** The system message of the completion request. *)
Definition system_content (message html_now css_now js_now : string) : string :=
  "You are Happy AI, a website builder assistant. Generate HTML, CSS, and JavaScript code for websites.
                            Always return code in this EXACT JSON format:
                            {
                                "
  +:+ q "html"
  +:+ ": "
  +:+ q "complete HTML code here"
  +:+ ",
                                "
  +:+ q "css"
  +:+ ": "
  +:+ q "complete CSS code here"
  +:+ ",
                                "
  +:+ q "js"
  +:+ ": "
  +:+ q "JavaScript code here"
  +:+ ",
                                "
  +:+ q "message"
  +:+ ": "
  +:+ q "brief explanation"
  +:+ "
                            }
                            
                            Requirements:
                            1. Create modern, responsive websites
                            2. Use dark theme with glowing effects
                            3. Make it mobile-friendly
                            4. Include interactive elements
                            5. Add comments in code
                            
                            User wants: "
  +:+ message
  +:+ "
                            
                            Current code (if any):
                            HTML: "
  +:+ html_now
  +:+ "
                            CSS: "
  +:+ css_now
  +:+ "
                            JS: "
  +:+ js_now.

(** The arguments of [axios.post]: evaluating them reads the three
    excerpts of [currentCode]. *)
Definition completion_request (key message : string) (currentCode : JValue)
  : Completion Call :=
  and_then (excerpt currentCode "html") (fun html_now =>
  and_then (excerpt currentCode "css") (fun css_now =>
  and_then (excerpt currentCode "js") (fun js_now =>
  Normal (ChatCompletions (JStr key)
            (Some (system_content message html_now css_now js_now))
            ("Create a website for: " +:+ message)
            4000 (Some 30000))))).

(** [response.data.choices[0].message.content] *)
Definition completion_content (response : JValue) : Completion JValue :=
  and_then (member response "data") (fun data =>
  and_then (member data "choices") (fun choices =>
  and_then (index choices 0) (fun choice =>
  and_then (member choice "message") (fun msg =>
  member msg "content")))).

(** [generateAIResponse(message, currentCode = {})] *)
Definition generateAIResponse (v : Variant) (message : string) (currentCode : JValue)
  : IO AIResponse.t :=
  let currentCode := or_default currentCode (JObj []) in
  try
    (let* key := DEEPSEEK_API_KEY in
     if nonempty key then
       console_log [Text "🤖 Calling DeepSeek API..."];;
       let* request := lift (completion_request key message currentCode) in
       let* response := await request in
       console_log [Text "✅ DeepSeek API response received"];;
       try
         (let* content := lift (completion_content response) in
          let* env := ask in
          let* aiData := lift (JSON_parse env content) in
          let* m0 := prop aiData "message" in
          let* m := or_else m0 (ret (JStr "I created a website for you!")) in
          let* h0 := prop aiData "html" in
          let* h := or_else h0 (let* t := generateFallbackTemplate v message in ret (Code.html t)) in
          let* c0 := prop aiData "css" in
          let* c := or_else c0 (let* t := generateFallbackTemplate v message in ret (Code.css t)) in
          let* j0 := prop aiData "js" in
          let* j := or_else j0 (let* t := generateFallbackTemplate v message in ret (Code.js t)) in
          ret (AIResponse.mk m (Code.mk h c j)))
       catch parseError =>
         (console_error [Text "❌ Failed to parse AI response:"; Thrown parseError];;
          generateFallbackResponse v message)
     else
       console_log [Text "⚠️ No DeepSeek API key, using template"];;
       generateFallbackResponse v message)
  catch error =>
    (console_error [Text "❌ AI Generation Error:"; Text (e_message error)];;
     match e_response error with
     | Some (code, data) =>
         console_error [Text "API Response Status:"; Value (JNum code)];;
         console_error [Text "API Response Data:"; Value data]
     | None => ret tt
     end;;
     generateFallbackResponse v message).

(** *** API 1: [POST /api/chat] *)

Definition chat_rejected : Response :=
  mkResponse 400
    (JObj [("success", JBool false);
           ("response", JStr "Please enter a valid message (min 3 characters)");
           ("code", JNull)]).

(** The [try] block of the handler. *)
Definition chat_try (v : Variant) (message currentCode : JValue) : IO Response :=
  console_log [Text "💬 Chat request received"];;
  (* !message || message.trim().length < 3 *)
  if negb (truthy message) then ret chat_rejected
  else
    match message with
    | JStr text =>
        if strlen (trim text) <? 3 then ret chat_rejected
        else
          console_log [Text ("📝 User: " +:+ substring0 50 text +:+ "...")];;
          let* aiResponse := generateAIResponse v text currentCode in
          console_log [Text "🤖 AI Response generated"];;
          ret (json (JObj [("success", JBool true);
                           ("response", AIResponse.message aiResponse);
                           ("code", Code.to_json (AIResponse.code aiResponse))]))
    | _ => throw (TypeError "message.trim is not a function")
    end.

Definition chat (v : Variant) (message currentCode : JValue) : IO Response :=
  try chat_try v message currentCode
  catch error =>
    (console_error [Text "❌ Chat API Error:"; Text (e_message error)];;
     let* template := generateFallbackTemplate v "AI generated website" in
     ret (json (JObj [("success", JBool false);
                      ("response", JStr "I created a website for you! Check the preview.");
                      ("code", Code.to_json template)]))).

(** *** Publishing to GitHub *)

(** [getGitHubUsername()] *)
Definition getGitHubUsername : IO JValue :=
  try
    (let* token := GITHUB_TOKEN in
     let* answer := await (UsersGetAuthenticated (JStr token)) in
     let* data := prop answer "data" in
     prop data "login")
  catch error =>
    (console_error [Text "❌ Failed to get GitHub username:"; Text (e_message error)];;
     ret (JStr "happy-ai-user")).

(** One element of [files]. *)
Module File.
Record t : Type := mk { path : string; content : string; message : string }.
End File.

Definition readme_text (created : string) : string :=
  "
# Happy AI Website Builder

This website was created using [Happy AI Website Builder](https://github.com/happy-ai/builder).

## Features
- 🚀 Built with AI assistance
- 📱 Fully responsive design
- 🎨 Modern dark theme with glowing effects
- ⚡ Fast and optimized performance

## Created on
"
  +:+ created
  +:+ "

## How to deploy
This website is ready to be deployed on Vercel, Netlify, or any static hosting service.

---
*Created with ❤️ by Happy AI Website Builder*
                ".

(** [Buffer.from(v).toString('base64')] *)
Definition to_base64 (v : JValue) : IO string :=
  let* env := ask in lift (base64 env v).

(** The loop over [files[1..]]: each later file in a [try] of its own. *)
Fixpoint add_other_files (auth owner : JValue) (repoName : string) (files : list File.t)
  : IO unit :=
  match files with
  | [] => ret tt
  | f :: rest =>
      (try
         (await (ReposCreateOrUpdateFileContents auth owner (JStr repoName)
                   (File.path f) (File.message f) (File.content f));;
          console_log [Text ("✅ File added: " +:+ File.path f)])
       catch fileError =>
         console_error [Text ("❌ Failed to add " +:+ File.path f +:+ ":");
                        Text (e_message fileError)]);;
      add_other_files auth owner repoName rest
  end.

(** [createGitHubRepository(project)] *)
Definition createGitHubRepository (v : Variant) (project : JValue) : IO GithubData.t :=
  try
    (let* token := GITHUB_TOKEN in
     if negb (nonempty token) then throw (new_Error "GitHub token not configured")
     else
       console_log [Text "📁 Creating GitHub repository..."];;
       let auth := JStr token in
       let* now := Date_now in
       let repoName := "happy-website-" +:+ stamp now in
       let* username := getGitHubUsername in
       let* name0 := prop project "name" in
       let* name := or_else name0 (ret (JStr "AI Generated")) in
       let* repo :=
         await (ReposCreateForAuthenticatedUser auth repoName
                  ("Website created with Happy AI Builder - " +:+ ToString name)) in
       let* repo_data := prop repo "data" in
       let* html_url := prop repo_data "html_url" in
       console_log [Text ("✅ Repository created: " +:+ ToString html_url)];;
       (* const files = [...] *)
       let* html := prop project "html" in
       let* html64 := to_base64 html in
       let* css0 := prop project "css" in
       let* css := or_else css0 (let* t := generateFallbackTemplate v "" in ret (Code.css t)) in
       let* css64 := to_base64 css in
       let* js0 := prop project "js" in
       let* js := or_else js0 (let* t := generateFallbackTemplate v "" in ret (Code.js t)) in
       let* js64 := to_base64 js in
       let* today := Date_now in
       let* env := ask in
       let* readme64 := to_base64 (JStr (readme_text (toISOString env today))) in
       let first :=
         File.mk "index.html" html64 "Add HTML file - Created with Happy AI Builder" in
       let others :=
         [File.mk "style.css" css64 "Add CSS file - Created with Happy AI Builder";
          File.mk "script.js" js64 "Add JavaScript file - Created with Happy AI Builder";
          File.mk "README.md" readme64 "Add README file"] in
       (* Create initial commit *)
       await (ReposCreateOrUpdateFileContents auth username (JStr repoName)
                (File.path first) (File.message first) (File.content first));;
       console_log [Text "✅ Initial commit created"];;
       (* Add other files in separate commits *)
       add_other_files auth username repoName others;;
       let* clone_url := prop repo_data "clone_url" in
       ret (GithubData.mk html_url (ToString username +:+ "/" +:+ repoName) clone_url))
  catch error =>
    (console_error [Text "❌ GitHub repository creation failed:"; Text (e_message error)];;
     if bool_decide (e_status error = Some 401) then
       throw (new_Error "Invalid GitHub token. Please check your GITHUB_TOKEN.")
     else if bool_decide (e_status error = Some 422) then
       throw (new_Error "Repository might already exist or name is invalid.")
     else throw error).

(** *** Deploying to Vercel *)

(** [JSON.stringify] of the static-hosting manifest. *)
Definition vercel_json : string :=
  "{" +:+ q "version" +:+ ":2,"
  +:+ q "builds" +:+ ":["
  +:+ "{" +:+ q "src" +:+ ":" +:+ q "*.html" +:+ "," +:+ q "use" +:+ ":" +:+ q "@vercel/static" +:+ "},"
  +:+ "{" +:+ q "src" +:+ ":" +:+ q "*.js" +:+ "," +:+ q "use" +:+ ":" +:+ q "@vercel/static" +:+ "},"
  +:+ "{" +:+ q "src" +:+ ":" +:+ q "*.css" +:+ "," +:+ q "use" +:+ ":" +:+ q "@vercel/static" +:+ "}],"
  +:+ q "routes" +:+ ":["
  +:+ "{" +:+ q "src" +:+ ":" +:+ q "/(.*)" +:+ "," +:+ q "dest" +:+ ":" +:+ q "/index.html" +:+ "}]}".

(** [`https://${answer.data.url}.vercel.app`] *)
Definition deployment_url (answer : JValue) : IO string :=
  let* data := prop answer "data" in
  let* url := prop data "url" in
  ret ("https://" +:+ ToString url +:+ ".vercel.app").

(** [deployToVercel(repoName, project)]; the two waits ([setTimeout] of 3000
    and 2000 ms) pass without effect on the world. *)
Definition deployToVercel (v : Variant) (repoName : string) (project : JValue) : IO string :=
  try
    (console_log [Text "🔗 Starting Vercel deployment..."];;
     let* token := VERCEL_TOKEN in
     let* project_id := VERCEL_PROJECT_ID in
     if nonempty token && nonempty project_id then
       (* Method 1: Use Vercel API to create deployment *)
       console_log [Text "Using Vercel API deployment..."];;
       let* now := Date_now in
       let* deployment :=
         await (DeployGit (JStr token) (JStr ("happy-website-" +:+ stamp now))
                  (Some project_id) (JStr repoName)) in
       let* deploymentUrl := deployment_url deployment in
       console_log [Text ("Vercel deployment URL: " +:+ deploymentUrl)];;
       ret deploymentUrl
     else
       (* Method 2: Direct deployment from code *)
       console_log [Text "Using direct Vercel deployment from code..."];;
       let* now := Date_now in
       let* html := prop project "html" in
       let* css0 := prop project "css" in
       let* css := or_else css0 (let* t := generateFallbackTemplate v "" in ret (Code.css t)) in
       let* js0 := prop project "js" in
       let* js := or_else js0 (let* t := generateFallbackTemplate v "" in ret (Code.js t)) in
       let* deploymentResponse :=
         await (DeployFiles (JStr token) ("happy-ai-website-" +:+ stamp now)
                  [("index.html", html); ("style.css", css); ("script.js", js);
                   ("vercel.json", JStr vercel_json)]) in
       let* data := prop deploymentResponse "data" in
       let* deploymentId := prop data "id" in
       let* deploymentUrl := deployment_url deploymentResponse in
       console_log [Text ("✅ Vercel deployment started: " +:+ deploymentUrl)];;
       console_log [Text ("Deployment ID: " +:+ ToString deploymentId)];;
       ret deploymentUrl)
  catch error =>
    (console_error [Text "❌ Vercel deployment failed:"; Text (e_message error)];;
     (* Fallback to mock URL *)
     let* now := Date_now in
     let mockUrl := "https://happy-website-" +:+ stamp now +:+ ".vercel.app" in
     console_log [Text ("⚠️ Returning mock URL: " +:+ mockUrl)];;
     ret mockUrl).

(** *** API 2: [POST /api/deploy] *)

Definition deploy_rejected : Response :=
  mkResponse 400
    (JObj [("success", JBool false); ("error", JStr "Invalid project data");
           ("url", JStr ""); ("github", JStr "")]).

(** The [try] block of the handler. *)
Definition deploy_try (v : Variant) (project : JValue) : IO Response :=
  (* !project || !project.html *)
  let* html := (if truthy project then prop project "html" else ret JUndefined) in
  if negb (truthy project) || negb (truthy html) then ret deploy_rejected
  else
    console_log [Text "📁 Project data received"];;
    (* Step 1: Create GitHub Repository *)
    console_log [Text "1️⃣ Creating GitHub repository..."];;
    let* github_token := GITHUB_TOKEN in
    let* githubData :=
      (if nonempty github_token then
         let* made := createGitHubRepository v project in
         console_log [Text ("✅ GitHub repo created: " +:+ ToString (GithubData.url made))];;
         ret made
       else
         (* Mock GitHub URL for testing *)
         let* t1 := Date_now in
         let* t2 := Date_now in
         console_log [Text "⚠️ Using mock GitHub URL (no GITHUB_TOKEN)"];;
         ret (GithubData.mk (JStr ("https://github.com/happy-ai/website-" +:+ stamp t1))
                            ("happy-ai/website-" +:+ stamp t2) JUndefined)) in
    (* Step 2: Deploy to Vercel *)
    console_log [Text "2️⃣ Deploying to Vercel..."];;
    let* vercel_token := VERCEL_TOKEN in
    let* vercelUrl :=
      (if nonempty vercel_token && nonempty (GithubData.repoName githubData) then
         let* url := deployToVercel v (GithubData.repoName githubData) project in
         console_log [Text ("✅ Vercel deployment: " +:+ url)];;
         ret url
       else
         (* Mock Vercel URL for testing *)
         let* now := Date_now in
         console_log [Text "⚠️ Using mock Vercel URL (no VERCEL_TOKEN)"];;
         ret ("https://happy-website-" +:+ stamp now +:+ ".vercel.app")) in
    console_log [Text "🎉 Deployment completed successfully!"];;
    ret (json (JObj [("success", JBool true);
                     ("url", JStr vercelUrl);
                     ("github", GithubData.url githubData);
                     ("message", JStr "Website deployed successfully! 🚀")])).

Definition deploy (v : Variant) (project : JValue) : IO Response :=
  console_log [Text (nl +:+ "🚀 Deployment request received")];;
  try deploy_try v project
  catch error =>
    (console_error [Text "❌ Deployment Error:"; Text (e_message error)];;
     console_error [Text "Stack:"; StackOf error];;
     (* Return mock URLs if deployment fails *)
     let* now := Date_now in
     ret (json (JObj [("success", JBool false);
                      ("url", JStr ("https://happy-fallback-" +:+ stamp now +:+ ".vercel.app"));
                      ("github", JStr "https://github.com/happy-ai/fallback-repo");
                      ("error", JStr (if nonempty (e_message error) then e_message error
                                      else "Deployment failed, but here are demo URLs"));
                      ("message",
                       JStr "Demo URLs generated. For real deployment, check API keys.")]))).

(** *** The session store *)

(** [if (!userSessions.has(userId)) userSessions.set(userId, {...});
    userSessions.get(userId)] *)
Definition session_of (userId : string) : IO UserSession.t :=
  let* sessions := get_store in
  match sessions !! userId with
  | Some userData => ret userData
  | None =>
      let* now := Date_now in
      let fresh := UserSession.mk userId [] now in
      put_store (<[userId := fresh]> sessions);;
      ret fresh
  end.

(** [userData.projects = projects], seen through the map. *)
Definition set_projects (userId : string) (userData : UserSession.t)
    (projects : list SavedProject.t) : IO UserSession.t :=
  let updated := UserSession.mk (UserSession.userId userData) projects
                   (UserSession.createdAt userData) in
  let* sessions := get_store in
  put_store (<[userId := updated]> sessions);;
  ret updated.

(** *** API 3: [GET /api/history/:userId] *)

Definition history (userId : string) : IO Response :=
  try
    (let* userData := session_of userId in
     ret (json (JObj [("success", JBool true);
                      ("history",
                       JArr (map SavedProject.to_json (take 10 (UserSession.projects userData))));
                      ("total", JNum (Z.of_nat (List.length (UserSession.projects userData))))])))
  catch error =>
    ret (json (JObj [("success", JBool false); ("history", JArr []);
                     ("error", JStr (e_message error))])).

(** *** API 5: [POST /api/save] *)

(** [project.html ? project.html.substring(0, 200) + '...' : ''] *)
Definition preview_of (html : JValue) : IO string :=
  if truthy html then
    match html with
    | JStr s => ret (substring0 200 s +:+ "...")
    | _ => throw (TypeError "project.html.substring is not a function")
    end
  else ret "".

(** The object literal that [save] puts in front of the history. *)
Definition new_entry (project : JValue) : IO SavedProject.t :=
  let* now := Date_now in
  let* name0 := prop project "name" in
  let* name := or_else name0 (ret (JStr "Untitled")) in
  let* html := prop project "html" in
  let* preview := preview_of html in
  let* today := Date_now in
  let* env := ask in
  let* html' := or_else html (ret (JStr "")) in
  let* css0 := prop project "css" in
  let* css' := or_else css0 (ret (JStr "")) in
  let* js0 := prop project "js" in
  let* js' := or_else js0 (ret (JStr "")) in
  ret (SavedProject.mk ("project_" +:+ stamp now) name preview
         (toISOString env today) (Code.mk html' css' js')).

Definition save (userId : string) (project : JValue) : IO Response :=
  try
    (let* userData := session_of userId in
     (* Add project to history *)
     let* entry := new_entry project in
     let* userData := set_projects userId userData (entry :: UserSession.projects userData) in
     (* Keep only last 20 projects *)
     let* userData :=
       (if (20 <? List.length (UserSession.projects userData))%nat
        then set_projects userId userData (take 20 (UserSession.projects userData))
        else ret userData) in
     console_log [Text ("💾 Project saved for user: " +:+ userId)];;
     let* newest :=
       match UserSession.projects userData with
       | p :: _ => ret (JStr (SavedProject.id p))
       | [] => throw (TypeError "Cannot read properties of undefined (reading 'id')")
       end in
     ret (json (JObj [("success", JBool true);
                      ("message", JStr "Project saved successfully");
                      ("projectId", newest)])))
  catch error =>
    ret (json (JObj [("success", JBool false); ("error", JStr (e_message error))])).

End Builder.

(** ** The website factory ([src/unnamed/part_000])

    The older service: one request generates, publishes and deploys.  Its
    steps throw on failure, and the handler answers 500.  Of its handlers
    the pipeline, [POST /api/generate-website], and the two reads,
    [GET /api/agent/:agentId] and [GET /health], are embedded. *)

Module Factory.

Local Open Scope js_scope.

(** An element of [agent.conversation]. *)
Module Turn.
Record t : Type := mk { role : string; content : JValue; timestamp : N }.
End Turn.

(** An element of [agent.websites]. *)
Module Website.
Record t : Type := mk { url : string; github : JValue; description : JValue; created : N }.
End Website.

(** A value of the [agents] map. *)
Module Agent.
Record t : Type := mk {
  id : JValue;
  created : N;
  conversation : list Turn.t;
  websites : list Website.t
}.
End Agent.

(** [const agents = new Map()].  The key is whatever the request body held
    under [agentId], compared as a [Map] compares. *)
Abbreviation Agents := (list (JValue * Agent.t)).

Abbreviation IO := (M Agents).

Fixpoint agents_has (agentId : JValue) (agents : Agents) : bool :=
  match agents with
  | [] => false
  | (k, _) :: rest => same_value k agentId || agents_has agentId rest
  end.

(** [agents.get(agentId).websites.push(site)] *)
Fixpoint agents_push_website (agentId : JValue) (site : Website.t) (agents : Agents) : Agents :=
  match agents with
  | [] => []
  | (k, a) :: rest =>
      if same_value k agentId
      then (k, Agent.mk (Agent.id a) (Agent.created a) (Agent.conversation a)
                 (Agent.websites a ++ [site])) :: rest
      else (k, a) :: agents_push_website agentId site rest
  end.

Definition DEEPSEEK_API_KEY : IO JValue := getenv "DEEPSEEK_API_KEY".
Definition GITHUB_TOKEN : IO JValue := getenv "GITHUB_TOKEN".
Definition VERCEL_TOKEN : IO JValue := getenv "VERCEL_TOKEN".

(** [createFallbackHTML(description)] *)
Definition createFallbackHTML (description : JValue) : IO string :=
  match description with
  | JStr s =>
      let title := substring0 50 s in
      ret ("<!DOCTYPE html>
<html lang="
           +:+ q "en"
           +:+ ">
<head>
    <meta charset="
           +:+ q "UTF-8"
           +:+ ">
    <meta name="
           +:+ q "viewport"
           +:+ " content="
           +:+ q "width=device-width, initial-scale=1.0"
           +:+ ">
    <title>"
           +:+ title
           +:+ "</title>
    <link rel="
           +:+ q "stylesheet"
           +:+ " href="
           +:+ q "style.css"
           +:+ ">
</head>
<body>
    <div class="
           +:+ q "container"
           +:+ ">
        <header>
            <h1>Welcome to Your Website</h1>
            <p>Created with AI Website Factory</p>
        </header>
        <main>
            <section class="
           +:+ q "hero"
           +:+ ">
                <h2>"
           +:+ ToString description
           +:+ "</h2>
                <p>This website was generated automatically.</p>
            </section>
        </main>
        <footer>
            <p>Managed by AI Agent</p>
        </footer>
    </div>
    <script src="
           +:+ q "script.js"
           +:+ "></script>
</body>
</html>")
  | _ => throw (TypeError "description.substring is not a function")
  end.

Definition createFallbackCSS : string :=
  "* { margin: 0; padding: 0; box-sizing: border-box; }
body { font-family: system-ui; background: #0f172a; color: white; }
.container { max-width: 1200px; margin: 0 auto; padding: 20px; }".

Definition createFallbackJS : string :=
  "console.log('Website loaded');".

(** The system message of the generation request. *)
Definition system_content : string :=
  "Generate mobile-optimized website code. Requirements:
                1. Modern, professional design
                2. Fully responsive for mobile
                3. Fast loading
                4. Clean, semantic HTML
                5. Include meta tags for SEO
                6. Dark/Light theme toggle
                7. Return as JSON: {html: "
  +:+ q ""
  +:+ ", css: "
  +:+ q ""
  +:+ ", js: "
  +:+ q ""
  +:+ "}".

(** [response.data.choices[0].message.content] *)
Definition completion_content (response : JValue) : Completion JValue :=
  and_then (member response "data") (fun data =>
  and_then (member data "choices") (fun choices =>
  and_then (index choices 0) (fun choice =>
  and_then (member choice "message") (fun msg =>
  member msg "content")))).

(** [generateWebsiteCode(description)] *)
Definition generateWebsiteCode (description : JValue) : IO JValue :=
  try
    (let* key := DEEPSEEK_API_KEY in
     let* response :=
       await (ChatCompletions key (Some system_content)
                ("Create a website: " +:+ ToString description) 4000 None) in
     let* content := lift (completion_content response) in
     let* env := ask in
     lift (JSON_parse env content))
  catch error =>
    (console_error [Text "Code generation error:"; Thrown error];;
     (* Fallback template *)
     let* html := createFallbackHTML description in
     ret (JObj [("html", JStr html); ("css", JStr createFallbackCSS);
                ("js", JStr createFallbackJS)])).

(** [{ url, fullName }] *)
Module Repo.
Record t : Type := mk { url : JValue; fullName : JValue }.
End Repo.

(** One [createOrUpdateFileContents] of [createGitHubRepository]. *)
Definition add_file (auth repo : JValue) (path message : string) (code : JValue) (k : string)
  : IO unit :=
  let* data := prop repo "data" in
  let* owner := prop data "owner" in
  let* login := prop owner "login" in
  let* name := prop data "name" in
  let* text := prop code k in
  let* env := ask in
  let* content := lift (base64 env text) in
  await (ReposCreateOrUpdateFileContents auth login name path message content);;
  ret tt.

(** [createGitHubRepository(code, agentId)] *)
Definition createGitHubRepository (code agentId : JValue) : IO Repo.t :=
  try
    (let* auth := GITHUB_TOKEN in
     let* now := Date_now in
     let repoName := "website-" +:+ ToString agentId +:+ "-" +:+ stamp now in
     (* Create repository *)
     let* repo :=
       await (ReposCreateForAuthenticatedUser auth repoName
                ("AI Generated Website - Agent: " +:+ ToString agentId)) in
     (* Create files *)
     add_file auth repo "index.html" "Add HTML" code "html";;
     add_file auth repo "style.css" "Add CSS" code "css";;
     add_file auth repo "script.js" "Add JS" code "js";;
     let* data := prop repo "data" in
     let* html_url := prop data "html_url" in
     let* full_name := prop data "full_name" in
     ret (Repo.mk html_url full_name))
  catch error =>
    (console_error [Text "GitHub error:"; Thrown error];;
     throw (new_Error "Failed to create GitHub repository")).

(** [repoFullName.split('/')[1]] *)
Definition second_segment (repoFullName : JValue) : IO JValue :=
  match repoFullName with
  | JStr s => ret (match split "/"%char s with
                   | _ :: name :: _ => JStr name
                   | _ => JUndefined
                   end)
  | JUndefined | JNull =>
      throw (TypeError ("Cannot read properties of " +:+ describe repoFullName
                          +:+ " (reading 'split')"))
  | _ => throw (TypeError "repoFullName.split is not a function")
  end.

(** [deployToVercel(repoFullName)] *)
Definition deployToVercel (repoFullName : JValue) : IO string :=
  try
    (let* name := second_segment repoFullName in
     let* token := VERCEL_TOKEN in
     let* response := await (DeployGit token name None repoFullName) in
     let* data := prop response "data" in
     let* url := prop data "url" in
     ret ("https://" +:+ ToString url))
  catch error =>
    (console_error [Text "Vercel error:"; Thrown error];;
     throw (new_Error "Failed to deploy to Vercel")).

(** *** API 2: [POST /api/generate-website] *)

Definition generate_rejected : Response :=
  mkResponse 400
    (JObj [("success", JBool false); ("error", JStr "Please provide detailed description")]).

(** [!description || description.length < 10] *)
Definition too_short (description : JValue) : IO bool :=
  if negb (truthy description) then ret true
  else
    let* len := prop description "length" in
    let* env := ask in
    ret (less_than env len (JNum 10)).

Definition generate_website (description agentId : JValue) : IO Response :=
  console_log [Text "🌐 Generating website..."];;
  try
    (let* short := too_short description in
     if short then ret generate_rejected
     else
       (* Step 1: Generate code with AI *)
       console_log [Text "🔧 Step 1: AI code generation"];;
       let* websiteCode := generateWebsiteCode description in
       (* Step 2: Create GitHub repository *)
       console_log [Text "💾 Step 2: Creating GitHub repo"];;
       let* githubRepo := createGitHubRepository websiteCode agentId in
       (* Step 3: Deploy to Vercel *)
       console_log [Text "🚀 Step 3: Deploying to Vercel"];;
       let* vercelUrl := deployToVercel (Repo.fullName githubRepo) in
       console_log [Text "✅ Website created successfully"];;
       (* Update agent data *)
       let* agents := get_store in
       (if agents_has agentId agents then
          let* now := Date_now in
          put_store (agents_push_website agentId
                       (Website.mk vercelUrl (Repo.url githubRepo) description now) agents)
        else ret tt);;
       ret (json (JObj [("success", JBool true);
                        ("url", JStr vercelUrl);
                        ("github", Repo.url githubRepo);
                        ("message", JStr "Website created and deployed!");
                        ("agentId", agentId)])))
  catch error =>
    (console_error [Text "Generate error:"; Thrown error];;
     ret (mkResponse 500 (JObj [("success", JBool false);
                                ("error", JStr (e_message error))]))).

(** *** [GET /api/agent/:agentId] *)

(** [agents.get(agentId)] *)
Fixpoint agents_get (agentId : JValue) (agents : Agents) : option Agent.t :=
  match agents with
  | [] => None
  | (k, a) :: rest => if same_value k agentId then Some a else agents_get agentId rest
  end.

(** An element of [agent.websites] as [res.json] sends it; a [Date] goes out
    as its ISO text. *)
Definition website_json (env : Env) (site : Website.t) : JValue :=
  JObj [("url", JStr (Website.url site)); ("github", Website.github site);
        ("description", Website.description site);
        ("created", JStr (toISOString env (Website.created site)))].

Definition agent_not_found : Response :=
  mkResponse 404 (JObj [("success", JBool false); ("error", JStr "Agent not found")]).

(** The handler; the route parameter is a string. *)
Definition agent_info (agentId : string) : IO Response :=
  let* agents := get_store in
  match agents_get (JStr agentId) agents with
  | Some agent =>
      let* env := ask in
      ret (json (JObj [("success", JBool true);
                       ("agent",
                        JObj [("id", Agent.id agent);
                              ("created", JStr (toISOString env (Agent.created agent)));
                              ("websiteCount",
                               JNum (Z.of_nat (List.length (Agent.websites agent))));
                              ("websites",
                               JArr (map (website_json env) (Agent.websites agent)))])]))
  | None => ret agent_not_found
  end.

(** *** [GET /health] *)

Definition health : IO Response :=
  let* agents := get_store in
  let* now := Date_now in
  let* env := ask in
  ret (json (JObj [("status", JStr "OK");
                   ("agents", JNum (Z.of_nat (List.length agents)));
                   ("timestamp", JStr (toISOString env now))])).

End Factory.

(** * Properties *)

Import Builder.

(** The fixed texts stay folded while a handler is run symbolically. *)
Arguments Template.html_text : simpl never.
Arguments Template.css_text : simpl never.
Arguments Template.js_text : simpl never.
Arguments system_content : simpl never.
Arguments readme_text : simpl never.
Arguments vercel_json : simpl never.
Arguments Factory.system_content : simpl never.
Arguments Factory.createFallbackCSS : simpl never.
Arguments Factory.createFallbackJS : simpl never.
Arguments pretty : simpl never.
Arguments stamp : simpl never.
Arguments String.append : simpl never.

(** Unfolds the combinators of the monad in the goal. *)
Ltac unfold_monad :=
  unfold bind, try_catch, ret, throw, lift, ask, Date_now, await, console_log,
    console_error, get_store, put_store, prop, or_else, getenv in *.

(** Runs a program on the world at hand as far as evaluation goes. *)
Ltac run := unfold_monad; cbn.

(** ** Concrete surroundings used by the examples *)

Module Examples.

(** A platform whose [JSON.parse] knows three bodies and whose [Buffer]
    takes strings. *)
Definition parse (v : JValue) : Completion JValue :=
  match v with
  | JStr "only-js" => Normal (JObj [("js", JStr "alert(1)")])
  | JStr "empty-object" => Normal (JObj [])
  | JStr "null" => Normal JNull
  | _ => Throw (new_Error "Unexpected token in JSON")
  end.

Definition buffer (v : JValue) : Completion string :=
  match v with
  | JStr s => Normal s
  | _ => Throw (TypeError "The first argument must be of type string")
  end.

Definition year_of (t : N) : Z := 2025.
Definition iso_of (t : N) : string := "2025-06-01T12:00:00.000Z".
Definition tick (k : nat) : N := 1748779200000 + N.of_nat k.

Definition variables (l : list (string * string)) (name : string) : option string :=
  snd <$> List.find (fun kv => String.eqb name (fst kv)) l.

(** No credential configured; nothing outside answers. *)
Definition offline : Env :=
  mkEnv (variables []) tick (fun _ _ => Reject (new_Error "getaddrinfo ENOTFOUND"))
    year_of iso_of parse buffer (fun _ _ => false).

(** The body of a chat completion whose content is [content]. *)
Definition completion (content : string) : JValue :=
  JObj [("data", JObj [("choices",
    JArr [JObj [("message", JObj [("content", JStr content)])]])])].

(** Only the generator credential; the model answers with [content]. *)
Definition model_says (content : string) : Env :=
  mkEnv (variables [("DEEPSEEK_API_KEY", "sk-test")]) tick
    (fun _ _ => Resolve (completion content))
    year_of iso_of parse buffer (fun _ _ => false).

(** Only the generator credential; the model call is refused. *)
Definition model_down : Env :=
  mkEnv (variables [("DEEPSEEK_API_KEY", "sk-test")]) tick
    (fun _ _ => Reject (mkError "Request failed with status code 503" None
                          (Some (503, JStr "unavailable"))))
    year_of iso_of parse buffer (fun _ _ => false).

(** A GitHub token that the service refuses. *)
Definition github_refuses : Env :=
  mkEnv (variables [("GITHUB_TOKEN", "ghp_bad")]) tick
    (fun _ _ => Reject (mkError "Bad credentials" (Some 401) None))
    year_of iso_of parse buffer (fun _ _ => false).

(** What octokit answers to a repository creation. *)
Definition created_repo : JValue :=
  JObj [("data", JObj [("html_url", JStr "https://github.com/octo/happy-website");
                       ("clone_url", JStr "https://github.com/octo/happy-website.git")])].

(** A GitHub token; the calls numbered in [failing] are refused with 500,
    the others succeed. *)
Definition github_with_failures (failing : list nat) : Env :=
  mkEnv (variables [("GITHUB_TOKEN", "ghp_ok")]) tick
    (fun k _ =>
       if bool_decide (k ∈ failing)
       then Reject (mkError "Server Error" (Some 500) None)
       else match k with
            | O => Resolve (JObj [("data", JObj [("login", JStr "octo")])])
            | _ => Resolve created_repo
            end)
    year_of iso_of parse buffer (fun _ _ => false).

Definition fresh : World Sessions := mkWorld ∅ 0 [] [].

Definition bakery : JValue :=
  JObj [("name", JStr "bakery"); ("html", JStr "<h1>Bakery</h1>");
        ("css", JStr "h1 { color: brown }"); ("js", JStr "")].

End Examples.

(** ** Vocabulary of the statements *)

(** Whatever a program does to the store stays within [R]. *)
Definition preserves {S A} (R : relation S) (m : M S A) : Prop :=
  forall env w, R (store w) (store (snd (m env w))).

(** A program leaves the store alone. *)
Abbreviation keeps_store := (preserves eq).

(** [process.env.NAME || ''] as the builder reads it. *)
Definition configured (env : Env) (name : string) : string :=
  default "" (process_env env name).

(** The fallback template that [generateFallbackTemplate(message)] returns
    when the clock has been read [k] times. *)
Definition template_at (v : Variant) (message : string) (env : Env) (k : nat) : Code.t :=
  match v with
  | server_js =>
      Code.mk (JStr (Template.html_text message (getFullYear env (clock env (S k)))))
              (JStr Template.css_text) (JStr Template.js_text)
  | part_001 =>
      Code.mk (JStr "<!DOCTYPE html>...") (JStr "/* CSS Code */...")
              (JStr "// JavaScript Code...")
  end.

(** Clock reads of one call of [generateFallbackTemplate]. *)
Definition template_reads (v : Variant) : nat :=
  match v with server_js => 2 | part_001 => 0 end.

(** [t] is what [generateFallbackTemplate(message)] returns at some moment. *)
Definition is_fallback (v : Variant) (message : string) (env : Env) (t : Code.t) : Prop :=
  exists w : World Sessions, fst (generateFallbackTemplate v message env w) = Normal t.

(** A text that is there and not empty. *)
Definition nonempty_text (x : JValue) : Prop := exists s, x = JStr s /\ s <> "".

(** What the parsed body holds under [k]; nothing when the body is not an
    object at all. *)
Definition supplied (aiData : JValue) (k : string) : JValue :=
  match member aiData k with
  | Normal x => x
  | Throw _ => JUndefined
  end.

(** [a || b] on values. *)
Definition either (a b : JValue) : JValue := if truthy a then a else b.

(** The model call of a generator invocation gives nothing usable: the
    request is refused (network error, timeout, status outside 2xx), or the
    body has no content, or the content is not JSON, or the JSON holds none
    of the three fields. *)
Definition model_unusable (env : Env) (k : nat) (request : Call) : Prop :=
  match remote env k request with
  | Reject _ => True
  | Resolve response =>
      match completion_content response with
      | Throw _ => True
      | Normal content =>
          match JSON_parse env content with
          | Throw _ => True
          | Normal aiData =>
              truthy (supplied aiData "html") = false /\
              truthy (supplied aiData "css") = false /\
              truthy (supplied aiData "js") = false
          end
      end
  end.

(** A project that passes the handler's first test: [project && project.html]. *)
Definition has_markup (project : JValue) : bool :=
  truthy project && truthy (supplied project "html").

(** The placeholder addresses of the deploy handler. *)
Definition mock_public_url (u : JValue) : Prop :=
  exists t : N, u = JStr ("https://happy-website-" +:+ stamp t +:+ ".vercel.app").

Definition mock_repository_url (u : JValue) : Prop :=
  exists t : N, u = JStr ("https://github.com/happy-ai/website-" +:+ stamp t).

(** The world in which the deploy handler calls the publisher. *)
Definition at_publish (w : World Sessions) : World Sessions :=
  mkWorld (store w) (ticks w) (outbox w)
    (((console w ++ [(Log, [Text (nl +:+ "🚀 Deployment request received")])])
        ++ [(Log, [Text "📁 Project data received"])])
       ++ [(Log, [Text "1️⃣ Creating GitHub repository..."])]).

(** The projects the store holds for a user; none for a user it does not
    know. *)
Definition projects_of (sessions : Sessions) (userId : string) : list SavedProject.t :=
  match sessions !! userId with
  | Some userData => UserSession.projects userData
  | None => []
  end.

(** The answer of the history handler for a stored list. *)
Definition history_answer (projects : list SavedProject.t) : Response :=
  json (JObj [("success", JBool true);
              ("history", JArr (map SavedProject.to_json (take 10 projects)));
              ("total", JNum (Z.of_nat (List.length projects)))]).

(** A project from which [save] can build an entry: an object (or any value
    other than [undefined] and [null]) whose [html], when truthy, is a
    string. *)
Definition recordable (project : JValue) : bool :=
  match project with
  | JUndefined | JNull => false
  | _ => match supplied project "html" with
         | JStr _ => true
         | html => negb (truthy html)
         end
  end.

(** The entry that [save] builds from [project] when the clock has been
    read [k] times. *)
Definition entry_at (env : Env) (k : nat) (project : JValue) : SavedProject.t :=
  SavedProject.mk
    ("project_" +:+ stamp (clock env k))
    (either (supplied project "name") (JStr "Untitled"))
    (match supplied project "html" with
     | JStr s => if nonempty s then substring0 200 s +:+ "..." else ""
     | _ => ""
     end)
    (toISOString env (clock env (S k)))
    (Code.mk (either (supplied project "html") (JStr ""))
             (either (supplied project "css") (JStr ""))
             (either (supplied project "js") (JStr ""))).

(** [e] is an entry that [save] builds from [project] at some moment. *)
Definition is_entry_of (env : Env) (project : JValue) (e : SavedProject.t) : Prop :=
  exists w : World Sessions, fst (new_entry project env w) = Normal e.

(** The world after the save requests [projects], in that order, for one user. *)
Definition after_saves (userId : string) (projects : list JValue) (env : Env)
    (w : World Sessions) : World Sessions :=
  fold_left (fun w project => snd (save userId project env w)) projects w.

(** A request to the builder. *)
Inductive Request : Type :=
| Chat (message currentCode : JValue)
| Deploy (project : JValue)
| History (userId : string)
| Save (userId : string) (project : JValue).

Definition handle (v : Variant) (r : Request) : IO Response :=
  match r with
  | Chat message currentCode => chat v message currentCode
  | Deploy project => deploy v project
  | History userId => history userId
  | Save userId project => save userId project
  end.

(** The world after the requests [rs], served in that order. *)
Definition serve (v : Variant) (rs : list Request) (env : Env) (w : World Sessions)
  : World Sessions :=
  fold_left (fun w r => snd (handle v r env w)) rs w.

(** [r] is a save request for [userId]. *)
Definition saves_for (userId : string) (r : Request) : bool :=
  match r with
  | Save u _ => String.eqb u userId
  | _ => false
  end.

(** Only the entry of [userId] may differ. *)
Definition only_at (userId : string) : relation Sessions :=
  fun s s' => forall u, u <> userId -> s' !! u = s !! u.

(** What an error of the publisher's [try] block becomes in its [catch]. *)
Definition publish_error (e : Error) : Error :=
  if bool_decide (e_status e = Some 401)
  then new_Error "Invalid GitHub token. Please check your GITHUB_TOKEN."
  else if bool_decide (e_status e = Some 422)
  then new_Error "Repository might already exist or name is invalid."
  else e.

(** The operation of an outbound call, with the path for a file creation. *)
Definition call_name (c : Call) : string :=
  match c with
  | ChatCompletions _ _ _ _ _ => "chat.completions"
  | UsersGetAuthenticated _ => "users.getAuthenticated"
  | ReposCreateForAuthenticatedUser _ _ _ => "repos.createForAuthenticatedUser"
  | ReposCreateOrUpdateFileContents _ _ _ path _ _ => "repos.createOrUpdateFileContents " +:+ path
  | DeployGit _ _ _ _ => "deployments (git)"
  | DeployFiles _ _ _ => "deployments (files)"
  end.

(** The call that creates file [f]. *)
Definition file_call (auth owner : JValue) (repoName : string) (f : File.t) : Call :=
  ReposCreateOrUpdateFileContents auth owner (JStr repoName)
    (File.path f) (File.message f) (File.content f).

(** The console line for a later file that could not be added. *)
Definition failed_to_add (path : string) (e : Error) : LogLevel * list LogArg :=
  (Err, [Text ("❌ Failed to add " +:+ path +:+ ":"); Text (e_message e)]).

(** A field of a project that is a text, or is not there. *)
Definition text_or_absent (x : JValue) : bool :=
  match x with
  | JStr _ | JUndefined | JNull => true
  | _ => false
  end.

(** A project whose markup is a text that is not empty and whose styles and
    script are texts or absent. *)
Definition publishable (project : JValue) : bool :=
  match supplied project "html" with
  | JStr s => nonempty s
  | _ => false
  end && text_or_absent (supplied project "css") && text_or_absent (supplied project "js").

(** ** Vocabulary of the further properties *)

(** A program never throws. *)
Definition never_throws {S A} (m : M S A) : Prop :=
  forall env w, exists a, fst (m env w) = Normal a.

(** Every value a program returns satisfies [Q]. *)
Definition returns_only {S A} (Q : A -> Prop) (m : M S A) : Prop :=
  forall env w a, fst (m env w) = Normal a -> Q a.

(** The calls a program adds to the outbox. *)
Definition calls_of {S A} (m : M S A) (env : Env) (w : World S) : list Call :=
  drop (List.length (outbox w)) (outbox (snd (m env w))).

(** An address under vercel.app. *)
Definition vercel_address (url : string) : Prop :=
  exists host, url = "https://" +:+ host +:+ ".vercel.app".

(** Every session is stored under its own user id and holds at most 20
    projects. *)
Definition well_formed (sessions : Sessions) : Prop :=
  forall u d, sessions !! u = Some d ->
    UserSession.userId d = u /\ (List.length (UserSession.projects d) <= 20)%nat.

(** A deployment request as [deployToVercel] sends it: linked to the
    repository when a token and a project id are configured, and else an
    upload of the four files, in this order. *)
Definition deployment_call (env : Env) (repoName : string) (c : Call) : Prop :=
  match c with
  | DeployGit token _ (Some project_id) repo =>
      token = JStr (configured env "VERCEL_TOKEN") /\
      project_id = configured env "VERCEL_PROJECT_ID" /\
      nonempty (configured env "VERCEL_TOKEN") = true /\
      nonempty (configured env "VERCEL_PROJECT_ID") = true /\
      repo = JStr repoName
  | DeployFiles token _ files =>
      token = JStr (configured env "VERCEL_TOKEN") /\
      nonempty (configured env "VERCEL_TOKEN")
        && nonempty (configured env "VERCEL_PROJECT_ID") = false /\
      map fst files = ["index.html"; "style.css"; "script.js"; "vercel.json"]
  | _ => False
  end.

(** Every error a program throws satisfies [Q]. *)
Definition throws_only {S A} (Q : Error -> Prop) (m : M S A) : Prop :=
  forall env w e, fst (m env w) = Throw e -> Q e.

(** The answer of the pipeline when a step failed. *)
Definition generate_failed (msg : string) : Response :=
  mkResponse 500 (JObj [("success", JBool false); ("error", JStr msg)]).

(** A program whose store and result are related by [Q]. *)
Definition ensures {S A} (Q : S -> Completion A -> S -> Prop) (m : M S A) : Prop :=
  forall env w, Q (store w) (fst (m env w)) (store (snd (m env w))).

(** The store after a request of the pipeline, against the store before
    and the answer: one website more for the agent of the request, with the
    address and the repository of the answer, when the answer is 200 and
    the agent is known; untouched otherwise. *)
Definition recorded (description agentId : JValue) (agents : Factory.Agents)
    (r : Response) (agents' : Factory.Agents) : Prop :=
  (status r = 200 -> Factory.agents_has agentId agents = true ->
   exists site,
     agents' = Factory.agents_push_website agentId site agents /\
     field "url" r = JStr (Factory.Website.url site) /\
     field "github" r = Factory.Website.github site /\
     Factory.Website.description site = description) /\
  (status r <> 200 \/ Factory.agents_has agentId agents = false -> agents' = agents).

(** The answer of [GET /api/agent/:agentId] for an agent. *)
Definition agent_answer (env : Env) (agent : Factory.Agent.t) : Response :=
  json (JObj [("success", JBool true);
              ("agent",
               JObj [("id", Factory.Agent.id agent);
                     ("created", JStr (toISOString env (Factory.Agent.created agent)));
                     ("websiteCount",
                      JNum (Z.of_nat (List.length (Factory.Agent.websites agent))));
                     ("websites",
                      JArr (map (Factory.website_json env) (Factory.Agent.websites agent)))])]).

Module FactoryExamples.

(** What octokit answers to a repository creation. *)
Definition made_repo : JValue :=
  JObj [("data", JObj [("owner", JObj [("login", JStr "octo")]);
                       ("name", JStr "site");
                       ("html_url", JStr "https://github.com/octo/site");
                       ("full_name", JStr "octo/site")])].

(** GitHub and Vercel answer; the model does not. *)
Definition online : Env :=
  mkEnv (Examples.variables [("GITHUB_TOKEN", "ghp_ok"); ("VERCEL_TOKEN", "v_ok")])
    Examples.tick
    (fun _ c =>
       match c with
       | ReposCreateForAuthenticatedUser _ _ _ => Resolve made_repo
       | ReposCreateOrUpdateFileContents _ _ _ _ _ _ => Resolve (JObj [])
       | DeployGit _ _ _ _ => Resolve (JObj [("data", JObj [("url", JStr "site.vercel.app")])])
       | _ => Reject (new_Error "connect ETIMEDOUT")
       end)
    Examples.year_of Examples.iso_of Examples.parse Examples.buffer (fun _ _ => false).

Definition agent : Factory.Agent.t := Factory.Agent.mk (JStr "a1") (Examples.tick 0) [] [].

Definition one_agent : World Factory.Agents := mkWorld [(JStr "a1", agent)] 0 [] [].

Definition description : JValue := JStr "A page for my bakery".

Definition answer : Response :=
  json (JObj [("success", JBool true);
              ("url", JStr "https://site.vercel.app");
              ("github", JStr "https://github.com/octo/site");
              ("message", JStr "Website created and deployed!");
              ("agentId", JStr "a1")]).

End FactoryExamples.

(** [process.env.NAME] as the factory reads it. *)
Definition variable (env : Env) (name : string) : JValue :=
  match process_env env name with
  | Some s => JStr s
  | None => JUndefined
  end.

(** The fallback object of the factory's generator for a description. *)
Definition fallback_code (s : string) (code : JValue) : Prop :=
  exists html,
    (forall env (w : World Factory.Agents),
       Factory.createFallbackHTML (JStr s) env w = (Normal html, w)) /\
    html <> "" /\
    code = JObj [("html", JStr html); ("css", JStr Factory.createFallbackCSS);
                 ("js", JStr Factory.createFallbackJS)].

(** ** Generic facts *)

Section Frames.
Context {S : Type} (R : relation S) `{!PreOrder R}.

Lemma preserves_ret {A} (a : A) : preserves R (ret a).
Proof. intros env w. reflexivity. Qed.

Lemma preserves_throw {A} e : preserves R (@throw S A e).
Proof. intros env w. reflexivity. Qed.

Lemma preserves_lift {A} (c : Completion A) : preserves R (@lift S A c).
Proof. intros env w. reflexivity. Qed.

Lemma preserves_ask : preserves R (@ask S).
Proof. intros env w. reflexivity. Qed.

Lemma preserves_get_store : preserves R (@get_store S).
Proof. intros env w. reflexivity. Qed.

Lemma preserves_Date_now : preserves R (@Date_now S).
Proof. intros env w. reflexivity. Qed.

Lemma preserves_await c : preserves R (@await S c).
Proof. intros env w. unfold await. destruct (remote _ _ _); reflexivity. Qed.

Lemma preserves_console_log args : preserves R (@console_log S args).
Proof. intros env w. reflexivity. Qed.

Lemma preserves_console_error args : preserves R (@console_error S args).
Proof. intros env w. reflexivity. Qed.

Lemma preserves_prop v k : preserves R (@prop S v k).
Proof. intros env w. reflexivity. Qed.

Lemma preserves_getenv name : preserves R (@getenv S name).
Proof. intros env w. reflexivity. Qed.

Lemma preserves_bind {A B} (m : M S A) (k : A -> M S B) :
  preserves R m -> (forall a, preserves R (k a)) -> preserves R (bind m k).
Proof.
  intros Hm Hk env w. unfold bind. specialize (Hm env w).
  destruct (m env w) as [[a|e] w']; cbn in *; [|done].
  etransitivity; [exact Hm | apply Hk].
Qed.

Lemma preserves_try_catch {A} (m : M S A) (h : Error -> M S A) :
  preserves R m -> (forall e, preserves R (h e)) -> preserves R (try_catch m h).
Proof.
  intros Hm Hh env w. unfold try_catch. specialize (Hm env w).
  destruct (m env w) as [[a|e] w']; cbn in *; [done|].
  etransitivity; [exact Hm | apply Hh].
Qed.

Lemma preserves_or_else a (b : M S JValue) : preserves R b -> preserves R (or_else a b).
Proof. intros Hb. unfold or_else. destruct (truthy a); [apply preserves_ret | exact Hb]. Qed.

Lemma preserves_if {A} (c : bool) (m1 m2 : M S A) :
  preserves R m1 -> preserves R m2 -> preserves R (if c then m1 else m2).
Proof. destruct c; auto. Qed.

End Frames.

Create HintDb frame.
#[global] Hint Resolve preserves_ret preserves_throw preserves_lift preserves_ask
  preserves_get_store preserves_Date_now preserves_await preserves_console_log
  preserves_console_error preserves_prop preserves_getenv : frame.
#[global] Hint Extern 1 (PreOrder _) => typeclasses eauto : frame.

(** Splits a program along its binds and conditionals, and closes what the
    primitives leave. *)
Ltac frame :=
  repeat first
    [ progress intros
    | solve [eauto with frame]
    | apply preserves_bind
    | apply preserves_try_catch
    | apply preserves_or_else
    | apply preserves_if
    | match goal with
      | |- preserves _ (match ?x with _ => _ end) => destruct x
      end ].

(** ** The fallback template *)

Lemma append_nonempty (s t : string) : s <> "" -> s +:+ t <> "".
Proof. destruct s; [done | discriminate]. Qed.

Lemma html_text_nonempty message year : Template.html_text message year <> "".
Proof. unfold Template.html_text. apply append_nonempty. discriminate. Qed.

Lemma css_text_nonempty : Template.css_text <> "".
Proof. unfold Template.css_text. discriminate. Qed.

Lemma js_text_nonempty : Template.js_text <> "".
Proof. unfold Template.js_text. apply append_nonempty. discriminate. Qed.

Lemma generateFallbackTemplate_run v message env (w : World Sessions) :
  generateFallbackTemplate v message env w =
    (Normal (template_at v message env (ticks w)),
     mkWorld (store w) (template_reads v + ticks w) (outbox w) (console w)).
Proof. destruct v, w; reflexivity. Qed.

Lemma is_fallback_at v message env k : is_fallback v message env (template_at v message env k).
Proof.
  exists (mkWorld ∅ k [] []). by rewrite generateFallbackTemplate_run.
Qed.

Lemma is_fallback_inv v message env t :
  is_fallback v message env t -> exists k, t = template_at v message env k.
Proof.
  intros [w Hw]. rewrite generateFallbackTemplate_run in Hw. cbn in Hw.
  exists (ticks w). congruence.
Qed.

Lemma template_at_nonempty v message env k :
  nonempty_text (Code.html (template_at v message env k)) /\
  nonempty_text (Code.css (template_at v message env k)) /\
  nonempty_text (Code.js (template_at v message env k)).
Proof.
  destruct v; cbn; repeat split; eexists; (split; [reflexivity|]);
    auto using html_text_nonempty, css_text_nonempty, js_text_nonempty; discriminate.
Qed.

(** The styles and the script of the template are the same at any moment
    and for any message; only the markup varies. *)
Lemma template_at_fixed_parts v message env k message' k' :
  Code.css (template_at v message env k) = Code.css (template_at v message' env k') /\
  Code.js (template_at v message env k) = Code.js (template_at v message' env k').
Proof. destruct v; split; reflexivity. Qed.

Lemma template_at_eta v message env k k1 k2 :
  Code.mk (Code.html (template_at v message env k))
          (Code.css (template_at v message env k1))
          (Code.js (template_at v message env k2)) = template_at v message env k.
Proof. destruct v; reflexivity. Qed.

Lemma truthy_template_html v message env k : truthy (Code.html (template_at v message env k)) = true.
Proof.
  destruct v; cbn; [|reflexivity].
  pose proof (html_text_nonempty message (getFullYear env (clock env (S k)))) as H.
  destruct (Template.html_text _ _); [done | reflexivity].
Qed.

(** ** The generator *)

Lemma generateFallbackResponse_run v message env (w : World Sessions) :
  generateFallbackResponse v message env w =
    (Normal (AIResponse.mk
               (JStr ("I created a " +:+ dq +:+ message +:+ dq +:+ " website for you! 🎉"))
               (template_at v message env (ticks w))),
     mkWorld (store w) (template_reads v + ticks w) (outbox w)
       (console w ++ [(Log, [Text "🔄 Using fallback template"])])).
Proof.
  unfold generateFallbackResponse. unfold bind at 1. cbn.
  unfold bind. rewrite generateFallbackTemplate_run. reflexivity.
Qed.

Arguments template_at : simpl never.

(** Runs a program through the calls of the template as well. *)
Ltac run_all :=
  repeat (unfold_monad; cbn;
          rewrite ?generateFallbackResponse_run, ?generateFallbackTemplate_run).

Lemma member_total aiData k0 x :
  member aiData k0 = Normal x -> forall k, exists y, member aiData k = Normal y.
Proof. intros H k. destruct aiData; try discriminate; cbn; eauto. Qed.

Lemma member_throws aiData k0 e :
  member aiData k0 = Throw e -> forall k, supplied aiData k = JUndefined.
Proof. intros H k. unfold supplied. destruct aiData; try discriminate; reflexivity. Qed.

(** The per-field choice, with the moment of each fallback made explicit. *)
Lemma generator_per_field_at v message currentCode env (w : World Sessions)
    request response content aiData :
  nonempty (configured env "DEEPSEEK_API_KEY") = true ->
  completion_request (configured env "DEEPSEEK_API_KEY") message
    (or_default currentCode (JObj [])) = Normal request ->
  remote env (List.length (outbox w)) request = Resolve response ->
  completion_content response = Normal content ->
  JSON_parse env content = Normal aiData ->
  exists r kh kc kj,
    fst (generateAIResponse v message currentCode env w) = Normal r /\
    Code.html (AIResponse.code r)
      = either (supplied aiData "html") (Code.html (template_at v message env kh)) /\
    Code.css (AIResponse.code r)
      = either (supplied aiData "css") (Code.css (template_at v message env kc)) /\
    Code.js (AIResponse.code r)
      = either (supplied aiData "js") (Code.js (template_at v message env kj)).
Proof.
  intros Hkey Hreq Hremote Hcontent Hparse.
  unfold generateAIResponse, DEEPSEEK_API_KEY, env_or_empty.
  unfold configured in *.
  unfold_monad. cbn. rewrite Hkey. cbn. rewrite Hreq. cbn. rewrite Hremote. cbn.
  rewrite Hcontent. cbn. rewrite Hparse. cbn.
  unfold either.
  destruct (member aiData "message") as [m0|e] eqn:Hm.
  - destruct (member_total _ _ _ Hm "html") as [h0 Hh].
    destruct (member_total _ _ _ Hm "css") as [c0 Hc].
    destruct (member_total _ _ _ Hm "js") as [j0 Hj].
    unfold supplied. rewrite Hh, Hc, Hj. cbn.
    destruct (truthy m0), (truthy h0), (truthy c0), (truthy j0);
      run_all.
    all: eexists _, _, _, _; split; [reflexivity|]; cbn; repeat split; reflexivity.
    Unshelve. all: exact 0%nat.
  - rewrite !(member_throws _ _ _ Hm).
    run_all.
    eexists _, _, _, _; split; [reflexivity|]; cbn; repeat split; reflexivity.
Qed.

(** C1: when the model call succeeds and its content parses as JSON, each of
    [html], [css], [js] of the returned code is the model's value where the
    model supplied one (a truthy value: present and not empty), and else
    the same field of a fallback template for the message; the choice is
    made for each field on its own. *)
Theorem generator_per_field_fallback v message currentCode env (w : World Sessions)
    request response content aiData :
  nonempty (configured env "DEEPSEEK_API_KEY") = true ->
  completion_request (configured env "DEEPSEEK_API_KEY") message
    (or_default currentCode (JObj [])) = Normal request ->
  remote env (List.length (outbox w)) request = Resolve response ->
  completion_content response = Normal content ->
  JSON_parse env content = Normal aiData ->
  exists r th tc tj,
    fst (generateAIResponse v message currentCode env w) = Normal r /\
    is_fallback v message env th /\
    is_fallback v message env tc /\
    is_fallback v message env tj /\
    Code.html (AIResponse.code r) = either (supplied aiData "html") (Code.html th) /\
    Code.css (AIResponse.code r) = either (supplied aiData "css") (Code.css tc) /\
    Code.js (AIResponse.code r) = either (supplied aiData "js") (Code.js tj).
Proof.
  intros Hkey Hreq Hremote Hcontent Hparse.
  destruct (generator_per_field_at v message currentCode env w _ _ _ _
              Hkey Hreq Hremote Hcontent Hparse) as (r & kh & kc & kj & Hr & Hh & Hc & Hj).
  exists r, (template_at v message env kh), (template_at v message env kc),
    (template_at v message env kj).
  auto 10 using is_fallback_at.
Qed.

(** The model answers with a body that holds a script only: the script is
    kept, markup and styles come from the template. *)
Lemma generator_per_field_fallback_witness :
  exists r th tc tj,
    fst (generateAIResponse part_001 "a bakery page" JUndefined
           (Examples.model_says "only-js") Examples.fresh) = Normal r /\
    is_fallback part_001 "a bakery page" (Examples.model_says "only-js") th /\
    is_fallback part_001 "a bakery page" (Examples.model_says "only-js") tc /\
    is_fallback part_001 "a bakery page" (Examples.model_says "only-js") tj /\
    Code.html (AIResponse.code r)
      = either (supplied (JObj [("js", JStr "alert(1)")]) "html") (Code.html th) /\
    Code.css (AIResponse.code r)
      = either (supplied (JObj [("js", JStr "alert(1)")]) "css") (Code.css tc) /\
    Code.js (AIResponse.code r)
      = either (supplied (JObj [("js", JStr "alert(1)")]) "js") (Code.js tj).
Proof.
  eapply (generator_per_field_fallback part_001 "a bakery page" JUndefined
            (Examples.model_says "only-js") Examples.fresh);
    reflexivity.
Defined.

Example generator_keeps_script_only :
  fst (generateAIResponse part_001 "a bakery page" JUndefined
         (Examples.model_says "only-js") Examples.fresh)
  = Normal (AIResponse.mk (JStr "I created a website for you!")
              (Code.mk (JStr "<!DOCTYPE html>...") (JStr "/* CSS Code */...")
                       (JStr "alert(1)"))).
Proof. vm_compute. reflexivity. Qed.

(** A handler that cannot throw makes the whole [try] return. *)
Lemma try_catch_returns {S A} (m : M S A) (h : Error -> M S A) env w :
  (forall e w', exists a, fst (h e env w') = Normal a) ->
  exists a, fst (try_catch m h env w) = Normal a.
Proof.
  intros Hh. unfold try_catch. destruct (m env w) as [[a|e] w']; [by exists a | apply Hh].
Qed.

(** [generateAIResponse] never throws. *)
Lemma generateAIResponse_returns v message currentCode env (w : World Sessions) :
  exists r, fst (generateAIResponse v message currentCode env w) = Normal r.
Proof.
  unfold generateAIResponse. apply try_catch_returns. intros e w'.
  destruct (e_response e) as [[code data]|]; run_all; eauto.
Qed.

(** C2: when the model call is refused (error, timeout, status outside 2xx)
    or its body does not parse into the expected shape, the generator
    returns normally, and the code it returns is a fallback template for the
    message, with three texts that are not empty. *)
Theorem generator_falls_back v message currentCode env (w : World Sessions) request :
  nonempty (configured env "DEEPSEEK_API_KEY") = true ->
  completion_request (configured env "DEEPSEEK_API_KEY") message
    (or_default currentCode (JObj [])) = Normal request ->
  model_unusable env (List.length (outbox w)) request ->
  exists r,
    fst (generateAIResponse v message currentCode env w) = Normal r /\
    is_fallback v message env (AIResponse.code r) /\
    nonempty_text (Code.html (AIResponse.code r)) /\
    nonempty_text (Code.css (AIResponse.code r)) /\
    nonempty_text (Code.js (AIResponse.code r)).
Proof.
  intros Hkey Hreq Hbad.
  cut (exists r k, fst (generateAIResponse v message currentCode env w) = Normal r /\
                   AIResponse.code r = template_at v message env k).
  { intros (r & k & Hr & Hk). exists r. split; [done|]. rewrite Hk.
    split; [apply is_fallback_at | apply template_at_nonempty]. }
  unfold model_unusable in Hbad.
  destruct (remote env (List.length (outbox w)) request) as [response|e] eqn:Hremote.
  - destruct (completion_content response) as [content|e] eqn:Hcontent.
    + destruct (JSON_parse env content) as [aiData|e] eqn:Hparse.
      * destruct Hbad as (Hh & Hc & Hj).
        destruct (generator_per_field_at v message currentCode env w _ _ _ _
                    Hkey Hreq Hremote Hcontent Hparse)
          as (r & kh & kc & kj & Hr & Hh' & Hc' & Hj').
        unfold either in *. rewrite Hh in Hh'. rewrite Hc in Hc'. rewrite Hj in Hj'.
        exists r, kh. split; [done|].
        destruct (AIResponse.code r) as [h c j]; cbn in *. subst.
        apply template_at_eta.
      * unfold generateAIResponse, DEEPSEEK_API_KEY, env_or_empty. unfold configured in *.
        unfold_monad. cbn. rewrite Hkey. cbn. rewrite Hreq. cbn. rewrite Hremote. cbn.
        rewrite Hcontent. cbn. rewrite Hparse.
        run_all. eauto.
    + unfold generateAIResponse, DEEPSEEK_API_KEY, env_or_empty. unfold configured in *.
      unfold_monad. cbn. rewrite Hkey. cbn. rewrite Hreq. cbn. rewrite Hremote. cbn.
      rewrite Hcontent.
      run_all. eauto.
  - unfold generateAIResponse, DEEPSEEK_API_KEY, env_or_empty. unfold configured in *.
    unfold_monad. cbn. rewrite Hkey. cbn. rewrite Hreq. cbn. rewrite Hremote. cbn.
    destruct (e_response e) as [[code data]|];
      run_all; eauto.
Qed.

(** The model call is refused with 503. *)
Lemma generator_falls_back_witness :
  exists r,
    fst (generateAIResponse server_js "a bakery page" JUndefined
           Examples.model_down Examples.fresh) = Normal r /\
    is_fallback server_js "a bakery page" Examples.model_down (AIResponse.code r) /\
    nonempty_text (Code.html (AIResponse.code r)) /\
    nonempty_text (Code.css (AIResponse.code r)) /\
    nonempty_text (Code.js (AIResponse.code r)).
Proof.
  eapply (generator_falls_back server_js "a bakery page" JUndefined
            Examples.model_down Examples.fresh);
    [reflexivity | reflexivity | exact I].
Defined.

(** ** Deployment *)

Lemma has_markup_inv project :
  has_markup project = true ->
  truthy project = true /\
  exists html, member project "html" = Normal html /\ truthy html = true.
Proof.
  unfold has_markup, supplied. intros [Hp Hh]%andb_prop. split; [done|].
  destruct (member project "html") as [html|]; [eauto | discriminate].
Qed.

(** With no credential at all the handler reports a success, so the
    "success: false" of the scenario does not hold. *)
Lemma deploy_without_credentials_reports_success :
  ~ (forall v project env (w : World Sessions),
       configured env "GITHUB_TOKEN" = "" ->
       configured env "VERCEL_TOKEN" = "" ->
       has_markup project = true ->
       exists r,
         fst (deploy v project env w) = Normal r /\
         field "success" r = JBool false /\
         mock_public_url (field "url" r) /\
         mock_repository_url (field "github" r) /\
         field "message" r <> JUndefined).
Proof.
  intros H.
  destruct (H part_001 Examples.bakery Examples.offline Examples.fresh)
    as (r & Hr & Hs & _); [reflexivity..|].
  vm_compute in Hr. injection Hr as <-. discriminate Hs.
Qed.

(** C3 (as the code has it): with neither a GitHub token nor a Vercel token,
    a deploy request with a valid project is answered 200 with
    [success: true], a placeholder public address, a placeholder repository
    address and the message of a successful deployment, and nothing is sent
    out. *)
Theorem deploy_without_credentials v project env (w : World Sessions) :
  configured env "GITHUB_TOKEN" = "" ->
  configured env "VERCEL_TOKEN" = "" ->
  has_markup project = true ->
  exists r,
    fst (deploy v project env w) = Normal r /\
    status r = 200 /\
    field "success" r = JBool true /\
    mock_public_url (field "url" r) /\
    mock_repository_url (field "github" r) /\
    field "message" r = JStr "Website deployed successfully! 🚀" /\
    outbox (snd (deploy v project env w)) = outbox w.
Proof.
  intros Hg Hv (Hp & html & Hhtml & Hh)%has_markup_inv.
  unfold deploy, deploy_try, GITHUB_TOKEN, VERCEL_TOKEN, env_or_empty.
  unfold configured in *.
  run. rewrite Hp. cbn. rewrite Hhtml. cbn. rewrite Hh. cbn.
  rewrite Hg. cbn. rewrite Hv. cbn.
  eexists. split; [reflexivity|]. cbn.
  repeat split; unfold mock_public_url, mock_repository_url; eauto.
Qed.

Lemma deploy_without_credentials_witness :
  exists r,
    fst (deploy part_001 Examples.bakery Examples.offline Examples.fresh) = Normal r /\
    status r = 200 /\
    field "success" r = JBool true /\
    mock_public_url (field "url" r) /\
    mock_repository_url (field "github" r) /\
    field "message" r = JStr "Website deployed successfully! 🚀" /\
    outbox (snd (deploy part_001 Examples.bakery Examples.offline Examples.fresh))
      = outbox Examples.fresh.
Proof.
  apply (deploy_without_credentials part_001 Examples.bakery Examples.offline Examples.fresh);
    reflexivity.
Defined.

(** C4: with a GitHub token configured, a publisher that throws does not
    make the deploy handler throw: the handler answers 200 with
    [success: false], placeholder addresses for the deployment and for the
    repository, a message for the reader, and the text of the error. *)
Theorem deploy_absorbs_publish_failure v project env (w : World Sessions) e :
  nonempty (configured env "GITHUB_TOKEN") = true ->
  has_markup project = true ->
  fst (createGitHubRepository v project env (at_publish w)) = Throw e ->
  exists r t,
    fst (deploy v project env w) = Normal r /\
    status r = 200 /\
    field "success" r = JBool false /\
    field "url" r = JStr ("https://happy-fallback-" +:+ stamp t +:+ ".vercel.app") /\
    field "github" r = JStr "https://github.com/happy-ai/fallback-repo" /\
    field "message" r = JStr "Demo URLs generated. For real deployment, check API keys." /\
    field "error" r = JStr (if nonempty (e_message e) then e_message e
                            else "Deployment failed, but here are demo URLs").
Proof.
  intros Hg (Hp & html & Hhtml & Hh)%has_markup_inv Hthrow.
  unfold deploy, deploy_try. unfold GITHUB_TOKEN at 1. unfold env_or_empty.
  unfold configured in *. unfold at_publish in Hthrow.
  run. rewrite Hp. cbn. rewrite Hhtml. cbn. rewrite Hh. cbn. rewrite Hg. cbn.
  destruct (createGitHubRepository v project env _) as [[made|e'] w'].
  - discriminate Hthrow.
  - cbn in Hthrow. injection Hthrow as ->. cbn.
    eexists _, _. split; [reflexivity|]. cbn. repeat split; reflexivity.
Qed.

Lemma deploy_absorbs_publish_failure_witness :
  exists r t,
    fst (deploy part_001 Examples.bakery Examples.github_refuses Examples.fresh) = Normal r /\
    status r = 200 /\
    field "success" r = JBool false /\
    field "url" r = JStr ("https://happy-fallback-" +:+ stamp t +:+ ".vercel.app") /\
    field "github" r = JStr "https://github.com/happy-ai/fallback-repo" /\
    field "message" r = JStr "Demo URLs generated. For real deployment, check API keys." /\
    field "error" r =
      JStr (if nonempty (e_message
                           (new_Error "Invalid GitHub token. Please check your GITHUB_TOKEN."))
            then e_message (new_Error "Invalid GitHub token. Please check your GITHUB_TOKEN.")
            else "Deployment failed, but here are demo URLs").
Proof.
  apply (deploy_absorbs_publish_failure part_001 Examples.bakery Examples.github_refuses
           Examples.fresh (new_Error "Invalid GitHub token. Please check your GITHUB_TOKEN."));
    vm_compute; reflexivity.
Defined.

(** ** Chat *)

(** The [try] block of the chat handler throws exactly on a message that is
    truthy and is not a string: [message.trim] is then not a function. *)
Lemma chat_try_throws v message currentCode env (w : World Sessions) :
  truthy message = true ->
  (forall text, message <> JStr text) ->
  fst (chat_try v message currentCode env w)
    = Throw (TypeError "message.trim is not a function").
Proof.
  intros Ht Hs. unfold chat_try. run. rewrite Ht. cbn.
  destruct message; try reflexivity. by destruct (Hs s).
Qed.

(** C10: when the [try] block of the chat handler throws, the handler
    answers [success: false] with the code of a fallback template made for
    the fixed text 'AI generated website', whatever the message was; the
    fallback of the generator is made for the message it is given. *)
Theorem chat_catch_uses_fixed_text v message currentCode env (w : World Sessions) e :
  fst (chat_try v message currentCode env w) = Throw e ->
  (exists t,
     fst (chat v message currentCode env w)
       = Normal (json (JObj [("success", JBool false);
                             ("response", JStr "I created a website for you! Check the preview.");
                             ("code", Code.to_json t)])) /\
     is_fallback v "AI generated website" env t) /\
  (forall text w', exists r,
     fst (generateFallbackResponse v text env w') = Normal r /\
     is_fallback v text env (AIResponse.code r)).
Proof.
  intros Hthrow. split.
  - unfold chat, try_catch.
    destruct (chat_try v message currentCode env w) as [[r|e'] w']; [discriminate|].
    run_all. eexists. split; [reflexivity | apply is_fallback_at].
  - intros text w'. rewrite generateFallbackResponse_run. cbn.
    eexists. split; [reflexivity | apply is_fallback_at].
Qed.

(** A number sent as the message reaches the outer [catch]. *)
Lemma chat_catch_uses_fixed_text_witness :
  (exists t,
     fst (chat server_js (JNum 12345) JUndefined Examples.offline Examples.fresh)
       = Normal (json (JObj [("success", JBool false);
                             ("response", JStr "I created a website for you! Check the preview.");
                             ("code", Code.to_json t)])) /\
     is_fallback server_js "AI generated website" Examples.offline t) /\
  (forall text w', exists r,
     fst (generateFallbackResponse server_js text Examples.offline w') = Normal r /\
     is_fallback server_js text Examples.offline (AIResponse.code r)).
Proof.
  apply (chat_catch_uses_fixed_text server_js (JNum 12345) JUndefined Examples.offline
           Examples.fresh (TypeError "message.trim is not a function")).
  reflexivity.
Defined.

Lemma chat_rejects_short v text currentCode env (w : World Sessions) :
  strlen (trim text) < 3 ->
  chat v (JStr text) currentCode env w
    = (Normal chat_rejected,
       mkWorld (store w) (ticks w) (outbox w)
         (console w ++ [(Log, [Text "💬 Chat request received"])])).
Proof.
  intros Hlen. unfold chat, chat_try. run.
  destruct (String.eqb text ""); cbn; [reflexivity|].
  destruct (Z.ltb_spec (strlen (trim text)) 3); [reflexivity | lia].
Qed.

Lemma chat_accepts_long v text currentCode env (w : World Sessions) :
  3 <= strlen (trim text) ->
  exists r,
    fst (chat v (JStr text) currentCode env w) = Normal r /\
    status r = 200 /\ field "success" r = JBool true.
Proof.
  intros Hlen. unfold chat, chat_try. run.
  destruct (String.eqb_spec text "") as [->|Hne]; cbn.
  { exfalso. vm_compute in Hlen. by apply Hlen. }
  destruct (Z.ltb_spec (strlen (trim text)) 3); [lia|]. cbn.
  match goal with
  | |- context [generateAIResponse v text currentCode env ?w0] =>
      destruct (generateAIResponse_returns v text currentCode env w0) as [r Hr];
      destruct (generateAIResponse v text currentCode env w0) as [c w1]
  end.
  cbn in Hr. subst c. cbn. eexists. split; [reflexivity|]. split; reflexivity.
Qed.

(** ** The factory's pipeline *)

Lemma generate_website_rejects_short text agentId env (w : World Factory.Agents) :
  strlen text < 10 ->
  Factory.generate_website (JStr text) agentId env w
    = (Normal Factory.generate_rejected,
       mkWorld (store w) (ticks w) (outbox w)
         (console w ++ [(Log, [Text "🌐 Generating website..."])])).
Proof.
  intros Hlen. unfold Factory.generate_website, Factory.too_short. run.
  destruct (String.eqb text ""); cbn; [reflexivity|].
  unfold less_than. fold (strlen text).
  destruct (Z.ltb_spec (strlen text) 10); [reflexivity | lia].
Qed.

(** C7: the chat handler rejects a message whose trimmed length is below 3
    with its own validation answer and calls nothing; the pipeline rejects a
    description shorter than 10 with a different answer before any
    generation; and the two minimums differ, the chat's being the smaller:
    a text of trimmed length 3 or more and length below 10 is taken by the
    chat and refused by the pipeline. *)
Theorem chat_minimum_below_pipeline_minimum
    v message description currentCode agentId env
    (w : World Sessions) (wf : World Factory.Agents) :
  strlen (trim message) < 3 ->
  strlen description < 10 ->
  (fst (chat v (JStr message) currentCode env w) = Normal chat_rejected /\
   outbox (snd (chat v (JStr message) currentCode env w)) = outbox w) /\
  (fst (Factory.generate_website (JStr description) agentId env wf)
     = Normal Factory.generate_rejected /\
   outbox (snd (Factory.generate_website (JStr description) agentId env wf)) = outbox wf) /\
  chat_rejected <> Factory.generate_rejected /\
  (forall text,
     3 <= strlen (trim text) -> strlen text < 10 ->
     (exists r, fst (chat v (JStr text) currentCode env w) = Normal r /\
                status r = 200 /\ field "success" r = JBool true) /\
     fst (Factory.generate_website (JStr text) agentId env wf)
       = Normal Factory.generate_rejected).
Proof.
  intros Hm Hd. repeat split.
  - by rewrite chat_rejects_short.
  - by rewrite chat_rejects_short.
  - by rewrite generate_website_rejects_short.
  - by rewrite generate_website_rejects_short.
  - discriminate.
  - by apply chat_accepts_long.
  - by rewrite generate_website_rejects_short.
Qed.

(** [chat("hi", null)]: length 2. *)
Lemma chat_minimum_below_pipeline_minimum_witness :
  (fst (chat part_001 (JStr "hi") JNull Examples.offline Examples.fresh)
     = Normal chat_rejected /\
   outbox (snd (chat part_001 (JStr "hi") JNull Examples.offline Examples.fresh))
     = outbox Examples.fresh) /\
  (fst (Factory.generate_website (JStr "a blog") JUndefined Examples.offline
          (mkWorld [] 0%nat [] []))
     = Normal Factory.generate_rejected /\
   outbox (snd (Factory.generate_website (JStr "a blog") JUndefined Examples.offline
                  (mkWorld [] 0%nat [] [])))
     = outbox (mkWorld ([] : Factory.Agents) 0%nat [] [])) /\
  chat_rejected <> Factory.generate_rejected /\
  (forall text,
     3 <= strlen (trim text) -> strlen text < 10 ->
     (exists r, fst (chat part_001 (JStr text) JNull Examples.offline Examples.fresh)
                  = Normal r /\
                status r = 200 /\ field "success" r = JBool true) /\
     fst (Factory.generate_website (JStr text) JUndefined Examples.offline
            (mkWorld [] 0%nat [] []))
       = Normal Factory.generate_rejected).
Proof.
  apply (chat_minimum_below_pipeline_minimum part_001 "hi" "a blog" JNull JUndefined
           Examples.offline Examples.fresh (mkWorld [] 0%nat [] []));
    vm_compute; reflexivity.
Defined.

(** ** The session store *)

(** C9: a history request for a user the store does not know adds an empty
    session for that user, stamped with the time of the request; the key set
    grows by that user and every other entry stays as it was. *)
Theorem history_creates_session userId env (w : World Sessions) :
  store w !! userId = None ->
  store (snd (history userId env w))
    = (<[userId := UserSession.mk userId [] (clock env (ticks w))]> (store w)) /\
  dom (store (snd (history userId env w))) = {[userId]} ∪ dom (store w) /\
  (userId ∉ dom (store w)) /\
  (forall other, other <> userId ->
     store (snd (history userId env w)) !! other = store w !! other).
Proof.
  intros Hnew.
  assert (store (snd (history userId env w))
          = <[userId := UserSession.mk userId [] (clock env (ticks w))]> (store w)) as ->.
  { unfold history, session_of. run. rewrite Hnew. reflexivity. }
  split; [reflexivity|]. split; [apply dom_insert_L|].
  split; [by apply not_elem_of_dom|].
  intros other Hother. by rewrite lookup_insert_ne.
Qed.

Lemma history_creates_session_witness :
  store (snd (history "user42" Examples.offline Examples.fresh))
    = (<["user42" := UserSession.mk "user42" [] (clock Examples.offline (ticks Examples.fresh))]>
         (store Examples.fresh)) /\
  dom (store (snd (history "user42" Examples.offline Examples.fresh)))
    = {["user42"]} ∪ dom (store Examples.fresh) /\
  ("user42" ∉ dom (store Examples.fresh)) /\
  (forall other, other <> "user42" ->
     store (snd (history "user42" Examples.offline Examples.fresh)) !! other
       = store Examples.fresh !! other).
Proof.
  apply (history_creates_session "user42" Examples.offline Examples.fresh).
  reflexivity.
Defined.

Arguments entry_at : simpl never.
Arguments new_entry : simpl never.

Lemma history_run userId env (w : World Sessions) :
  fst (history userId env w) = Normal (history_answer (projects_of (store w) userId)) /\
  (forall u, projects_of (store (snd (history userId env w))) u = projects_of (store w) u).
Proof.
  unfold history, session_of, projects_of. run.
  destruct (store w !! userId) as [userData|] eqn:Hu; cbn; [by rewrite ?Hu|].
  split; [reflexivity|]. intros u.
  destruct (decide (u = userId)) as [->|Hne].
  - by rewrite lookup_insert_eq, Hu.
  - by rewrite lookup_insert_ne.
Qed.

Lemma recordable_member project :
  recordable project = true -> forall k, member project k = Normal (supplied project k).
Proof. unfold supplied. destruct project; intros H k; try discriminate; reflexivity. Qed.

Lemma new_entry_run project env (w : World Sessions) :
  recordable project = true ->
  new_entry project env w
    = (Normal (entry_at env (ticks w) project),
       mkWorld (store w) (2 + ticks w) (outbox w) (console w)).
Proof.
  intros Hrec. pose proof (recordable_member _ Hrec) as Hm.
  unfold new_entry, preview_of, entry_at, either. run. rewrite !Hm. cbn.
  assert (match supplied project "html" with
          | JStr _ => True
          | html => truthy html = false
          end) as Hhtml.
  { unfold recordable in Hrec.
    destruct project; try discriminate;
      destruct (supplied _ "html"); try done; by apply negb_true_iff. }
  destruct (truthy (supplied project "name")); cbn;
    destruct (supplied project "html") as [| |b|n|s|l|l]; cbn in *;
    try discriminate Hhtml; rewrite ?Hhtml; cbn;
    try (unfold nonempty; destruct (String.eqb s ""); cbn);
    destruct (truthy (supplied project "css")), (truthy (supplied project "js")); cbn;
    reflexivity.
Qed.

Lemma is_entry_of_at env project k :
  recordable project = true -> is_entry_of env project (entry_at env k project).
Proof.
  intros Hrec. exists (mkWorld ∅ k [] []). by rewrite new_entry_run.
Qed.

Lemma take_cons_cap {A} (n : nat) (x : A) (l : list A) :
  (if (n <? List.length (x :: l))%nat then take n (x :: l) else x :: l) = take n (x :: l).
Proof.
  destruct (Nat.ltb_spec n (List.length (x :: l))); [reflexivity|].
  by rewrite take_ge.
Qed.

Arguments Nat.ltb : simpl never.

(** One save: the entry goes in front and the list is cut at 20. *)
Lemma save_run userId project env (w : World Sessions) :
  recordable project = true ->
  exists k,
    fst (save userId project env w)
      = Normal (json (JObj [("success", JBool true);
                            ("message", JStr "Project saved successfully");
                            ("projectId", JStr (SavedProject.id (entry_at env k project)))])) /\
    projects_of (store (snd (save userId project env w))) userId
      = take 20 (entry_at env k project :: projects_of (store w) userId) /\
    (forall u, u <> userId ->
       store (snd (save userId project env w)) !! u = store w !! u).
Proof.
  intros Hrec. unfold save, session_of, set_projects, projects_of.
  destruct (store w !! userId) as [userData|] eqn:Hu.
  - exists (ticks w). run. rewrite Hu. cbn. rewrite new_entry_run by done. cbn.
    match goal with
    | |- context [Nat.ltb 20 ?n] => destruct (Nat.ltb_spec 20 n) as [Hlt|Hge]
    end; cbn.
    + rewrite lookup_insert_eq. cbn. repeat split.
      intros u Hne. by rewrite !lookup_insert_ne.
    + rewrite lookup_insert_eq. cbn. repeat split.
      * cbn in Hge. rewrite take_ge by lia. reflexivity.
      * intros u Hne. by rewrite !lookup_insert_ne.
  - exists (S (ticks w)). run. rewrite Hu. cbn. rewrite new_entry_run by done. cbn.
    match goal with
    | |- context [Nat.ltb 20 ?n] => destruct (Nat.ltb_spec 20 n) as [Hlt|Hge]
    end; cbn; [cbn in Hlt; lia|].
    rewrite lookup_insert_eq. cbn. repeat split.
    intros u Hne. by rewrite !lookup_insert_ne.
Qed.

Lemma take_app_take {A} (n : nat) (a b : list A) :
  take n (a ++ take n b) = take n (a ++ b).
Proof. rewrite !take_app, take_take. do 2 f_equal. lia. Qed.

Lemma take_cons_take {A} (n : nat) (x : A) (l : list A) :
  take n (x :: take n l) = take n (x :: l).
Proof. exact (take_app_take n [x] l). Qed.

Lemma after_saves_cons userId p ps env (w : World Sessions) :
  after_saves userId (p :: ps) env w = after_saves userId ps env (snd (save userId p env w)).
Proof. reflexivity. Qed.

Lemma after_saves_capped userId ps env (w : World Sessions) l :
  Forall (fun p => recordable p = true) ps ->
  projects_of (store w) userId = take 20 l ->
  exists entries,
    Forall2 (is_entry_of env) ps entries /\
    projects_of (store (after_saves userId ps env w)) userId = take 20 (rev entries ++ l).
Proof.
  intros Hps. revert w l. induction Hps as [|p ps Hp Hps IH]; intros w l Hl.
  - exists []. split; [constructor | exact Hl].
  - destruct (save_run userId p env w Hp) as (k & _ & Hsave & _).
    rewrite Hl in Hsave. rewrite take_cons_take in Hsave.
    destruct (IH _ _ Hsave) as (entries & Hentries & Hafter).
    exists (entry_at env k p :: entries). split.
    + constructor; [by apply is_entry_of_at | done].
    + rewrite after_saves_cons, Hafter. cbn [rev]. by rewrite <- app_assoc.
Qed.

Lemma after_saves_run userId p ps env (w : World Sessions) :
  Forall (fun p => recordable p = true) (p :: ps) ->
  exists entries,
    Forall2 (is_entry_of env) (p :: ps) entries /\
    projects_of (store (after_saves userId (p :: ps) env w)) userId
      = take 20 (rev entries ++ projects_of (store w) userId).
Proof.
  intros Hps. inversion Hps as [|? ? Hp Hps']; subst.
  destruct (save_run userId p env w Hp) as (k & _ & Hsave & _).
  destruct (after_saves_capped userId ps env _ _ Hps' Hsave) as (entries & Hentries & Hafter).
  exists (entry_at env k p :: entries). split.
  - constructor; [by apply is_entry_of_at | done].
  - rewrite after_saves_cons, Hafter. cbn [rev]. by rewrite <- app_assoc.
Qed.

(** C5 (as the code has it): after 25 save requests for one user, each with
    a project the handler can record, the store holds for that user exactly
    20 entries, the 20 most recent, newest first (each save puts its entry
    in front and cuts the list at 20); the history request takes no limit:
    it returns the first 10 of them, newest first, and reports a total of
    20. *)
Theorem history_after_25_saves userId ps env (w : World Sessions) :
  List.length ps = 25%nat ->
  Forall (fun p => recordable p = true) ps ->
  exists entries,
    Forall2 (is_entry_of env) ps entries /\
    projects_of (store (after_saves userId ps env w)) userId = take 20 (rev entries) /\
    List.length (projects_of (store (after_saves userId ps env w)) userId) = 20%nat /\
    fst (history userId env (after_saves userId ps env w))
      = Normal (json (JObj [("success", JBool true);
                            ("history",
                             JArr (map SavedProject.to_json (take 10 (rev entries))));
                            ("total", JNum 20)])).
Proof.
  intros Hlen Hps. destruct ps as [|p ps]; [discriminate|].
  destruct (after_saves_run userId p ps env w Hps) as (entries & Hentries & Hafter).
  assert (List.length (rev entries) = 25%nat) as Hrev.
  { rewrite length_rev. apply Forall2_length in Hentries. congruence. }
  rewrite take_app_le in Hafter by lia.
  exists entries. split; [done|]. split; [done|].
  assert (List.length (take 20 (rev entries)) = 20%nat) as H20.
  { rewrite length_take. lia. }
  split; [by rewrite Hafter|].
  destruct (history_run userId env (after_saves userId (p :: ps) env w)) as [-> _].
  rewrite Hafter. unfold history_answer. rewrite H20, take_take. reflexivity.
Qed.

Lemma history_after_25_saves_witness :
  exists entries,
    Forall2 (is_entry_of Examples.offline) (replicate 25 Examples.bakery) entries /\
    projects_of (store (after_saves "user42" (replicate 25 Examples.bakery)
                          Examples.offline Examples.fresh)) "user42"
      = take 20 (rev entries) /\
    List.length (projects_of (store (after_saves "user42" (replicate 25 Examples.bakery)
                          Examples.offline Examples.fresh)) "user42") = 20%nat /\
    fst (history "user42" Examples.offline
           (after_saves "user42" (replicate 25 Examples.bakery) Examples.offline Examples.fresh))
      = Normal (json (JObj [("success", JBool true);
                            ("history",
                             JArr (map SavedProject.to_json (take 10 (rev entries))));
                            ("total", JNum 20)])).
Proof.
  apply (history_after_25_saves "user42" (replicate 25 Examples.bakery)
           Examples.offline Examples.fresh).
  - reflexivity.
  - apply Forall_replicate. reflexivity.
Defined.

(** The history request returns 10 entries of the 20 stored, not 20. *)
Lemma history_returns_ten_of_twenty :
  ~ (forall userId ps env (w : World Sessions),
       List.length ps = 25%nat ->
       Forall (fun p => recordable p = true) ps ->
       List.length (projects_of (store (after_saves userId ps env w)) userId) = 20%nat /\
       exists r l,
         fst (history userId env (after_saves userId ps env w)) = Normal r /\
         field "history" r = JArr l /\
         List.length l = 20%nat).
Proof.
  intros H.
  destruct (H "user42" (replicate 25 Examples.bakery) Examples.offline Examples.fresh)
    as (_ & r & l & Hr & Hl & Hlen).
  - reflexivity.
  - apply Forall_replicate. reflexivity.
  - vm_compute in Hr. injection Hr as <-. vm_compute in Hl. injection Hl as <-.
    discriminate Hlen.
Qed.

(** ** Requests in sequence *)

#[global] Instance only_at_preorder userId : PreOrder (only_at userId).
Proof.
  split.
  - intros s u _. reflexivity.
  - intros s1 s2 s3 H12 H23 u Hu. by rewrite H23, H12.
Qed.

Lemma keeps_preserves {S A} (R : relation S) `{!Reflexive R} (m : M S A) :
  keeps_store m -> preserves R m.
Proof. intros Hm env w. by rewrite <- Hm. Qed.

Lemma keeps_env_or_empty name : keeps_store (env_or_empty name).
Proof. unfold env_or_empty. frame. Qed.
#[global] Hint Resolve keeps_env_or_empty : frame.

Lemma keeps_generateFallbackTemplate v message : keeps_store (generateFallbackTemplate v message).
Proof. destruct v; unfold generateFallbackTemplate; frame. Qed.
#[global] Hint Resolve keeps_generateFallbackTemplate : frame.

Lemma keeps_generateFallbackResponse v message : keeps_store (generateFallbackResponse v message).
Proof. unfold generateFallbackResponse. frame. Qed.
#[global] Hint Resolve keeps_generateFallbackResponse : frame.

Lemma keeps_generateAIResponse v message currentCode :
  keeps_store (generateAIResponse v message currentCode).
Proof. unfold generateAIResponse, DEEPSEEK_API_KEY. frame. Qed.
#[global] Hint Resolve keeps_generateAIResponse : frame.

Lemma keeps_chat v message currentCode : keeps_store (chat v message currentCode).
Proof. unfold chat, chat_try. frame. Qed.

Lemma keeps_getGitHubUsername : keeps_store getGitHubUsername.
Proof. unfold getGitHubUsername, GITHUB_TOKEN. frame. Qed.
#[global] Hint Resolve keeps_getGitHubUsername : frame.

Lemma keeps_add_other_files auth owner repoName files :
  keeps_store (add_other_files auth owner repoName files).
Proof. induction files as [|f files IH]; cbn [add_other_files]; frame. Qed.
#[global] Hint Resolve keeps_add_other_files : frame.

Lemma keeps_createGitHubRepository v project : keeps_store (createGitHubRepository v project).
Proof. unfold createGitHubRepository, GITHUB_TOKEN, to_base64. frame. Qed.
#[global] Hint Resolve keeps_createGitHubRepository : frame.

Lemma keeps_deployToVercel v repoName project : keeps_store (deployToVercel v repoName project).
Proof. unfold deployToVercel, VERCEL_TOKEN, VERCEL_PROJECT_ID, deployment_url. frame. Qed.
#[global] Hint Resolve keeps_deployToVercel : frame.

Lemma keeps_deploy v project : keeps_store (deploy v project).
Proof. unfold deploy, deploy_try, GITHUB_TOKEN, VERCEL_TOKEN. frame. Qed.

Lemma keeps_new_entry project : keeps_store (new_entry project).
Proof. unfold new_entry, preview_of. frame. Qed.

Lemma session_of_only_at userId : preserves (only_at userId) (session_of userId).
Proof.
  intros env w u Hu. unfold session_of. run.
  destruct (store w !! userId); cbn; [done | by rewrite lookup_insert_ne].
Qed.

Lemma set_projects_only_at userId userData projects :
  preserves (only_at userId) (set_projects userId userData projects).
Proof. intros env w u Hu. unfold set_projects. run. by rewrite lookup_insert_ne. Qed.

Lemma save_only_at userId project : preserves (only_at userId) (save userId project).
Proof.
  unfold save.
  repeat first
    [ progress intros
    | apply session_of_only_at
    | apply set_projects_only_at
    | apply keeps_preserves; [typeclasses eauto | apply keeps_new_entry]
    | solve [eauto with frame]
    | apply preserves_bind
    | apply preserves_try_catch
    | apply preserves_if
    | match goal with
      | |- preserves _ (match ?x with _ => _ end) => destruct x
      end ].
Qed.

Lemma handle_keeps_projects v r userId env (w : World Sessions) :
  saves_for userId r = false ->
  projects_of (store (snd (handle v r env w))) userId = projects_of (store w) userId.
Proof.
  intros Hr. destruct r as [message currentCode|project|u|u project]; cbn [handle].
  - by rewrite <- (keeps_chat v message currentCode env w).
  - by rewrite <- (keeps_deploy v project env w).
  - apply history_run.
  - cbn in Hr. apply String.eqb_neq in Hr.
    unfold projects_of. by rewrite (save_only_at u project env w userId).
Qed.

Lemma serve_keeps_projects v rs userId env (w : World Sessions) :
  Forall (fun r => saves_for userId r = false) rs ->
  projects_of (store (serve v rs env w)) userId = projects_of (store w) userId.
Proof.
  intros Hrs. revert w. induction Hrs as [|r rs Hr Hrs IH]; intros w; [reflexivity|].
  cbn. unfold serve in IH. rewrite IH. by apply handle_keeps_projects.
Qed.

(** C8: two history requests for one user, with any requests in between
    that are not a save for that user (chats, deployments, histories, saves
    of other users), get the same answer: same entries, same order, same
    total. *)
Theorem history_twice_same v userId rs env (w : World Sessions) :
  Forall (fun r => saves_for userId r = false) rs ->
  fst (history userId env (serve v rs env (snd (history userId env w))))
    = fst (history userId env w).
Proof.
  intros Hrs.
  destruct (history_run userId env w) as [-> Hkeep].
  destruct (history_run userId env (serve v rs env (snd (history userId env w)))) as [-> _].
  by rewrite serve_keeps_projects, Hkeep.
Qed.

Lemma history_twice_same_witness :
  fst (history "user42" Examples.offline
         (serve part_001
            [Chat (JStr "a bakery page") JNull; History "user7";
             Save "user7" Examples.bakery; Deploy Examples.bakery]
            Examples.offline
            (snd (history "user42" Examples.offline
                    (after_saves "user42" [Examples.bakery] Examples.offline Examples.fresh)))))
  = fst (history "user42" Examples.offline
           (after_saves "user42" [Examples.bakery] Examples.offline Examples.fresh)).
Proof.
  apply (history_twice_same part_001 "user42").
  repeat constructor.
Defined.

(** ** The publisher *)


Lemma getGitHubUsername_run env (w : World Sessions) :
  exists username lines,
    getGitHubUsername env w
      = (Normal username,
         mkWorld (store w) (ticks w)
           (outbox w ++ [UsersGetAuthenticated (JStr (configured env "GITHUB_TOKEN"))])
           (console w ++ lines)).
Proof.
  unfold getGitHubUsername, GITHUB_TOKEN, env_or_empty, configured. run.
  destruct (remote env _ _) as [answer|e]; cbn.
  - destruct (member answer "data") as [data|e]; cbn.
    + destruct (member data "login") as [login|e]; cbn.
      * exists login, []. by rewrite app_nil_r.
      * by eexists _, [_].
    + by eexists _, [_].
  - by eexists _, [_].
Qed.

(** The later files: every one is attempted, in order; a refusal is written
    to the console and the loop goes on; the loop itself never throws. *)
Lemma add_other_files_run auth owner repoName files env (w : World Sessions) :
  exists lines,
    add_other_files auth owner repoName files env w
      = (Normal tt,
         mkWorld (store w) (ticks w)
           (outbox w ++ map (file_call auth owner repoName) files)
           (console w ++ lines)) /\
    (forall i f e,
       files !! i = Some f ->
       remote env (List.length (outbox w) + i) (file_call auth owner repoName f) = Reject e ->
       failed_to_add (File.path f) e ∈ lines).
Proof.
  revert w. induction files as [|f files IH]; intros w.
  - exists []. split.
    + cbn. unfold ret. rewrite !app_nil_r. by destruct w.
    + intros i f e Hi. by rewrite lookup_nil in Hi.
  - cbn [add_other_files]. unfold_monad. cbn.
    fold (file_call auth owner repoName f).
    destruct (remote env (List.length (outbox w)) (file_call auth owner repoName f))
      as [answer|e] eqn:Hremote; cbn.
    + match goal with
      | |- context [add_other_files _ _ _ _ env ?w1] => destruct (IH w1) as (lines & -> & Hlines)
      end.
      cbn in *. eexists (_ :: lines). split.
      * by rewrite <- !app_assoc.
      * intros [|i] f' e' Hi Hrej; cbn in Hi.
        { injection Hi as <-. rewrite Nat.add_0_r in Hrej. congruence. }
        apply list_elem_of_further. apply (Hlines i f' e' Hi).
        rewrite length_app. cbn. by replace (List.length (outbox w) + 1 + i)%nat
          with (List.length (outbox w) + S i)%nat by lia.
    + match goal with
      | |- context [add_other_files _ _ _ _ env ?w1] => destruct (IH w1) as (lines & -> & Hlines)
      end.
      cbn in *. eexists (_ :: lines). split.
      * by rewrite <- !app_assoc.
      * intros [|i] f' e' Hi Hrej; cbn in Hi.
        { injection Hi as <-. rewrite Nat.add_0_r in Hrej.
          rewrite Hremote in Hrej. injection Hrej as <-. apply list_elem_of_here. }
        apply list_elem_of_further. apply (Hlines i f' e' Hi).
        rewrite length_app. cbn. by replace (List.length (outbox w) + 1 + i)%nat
          with (List.length (outbox w) + S i)%nat by lia.
Qed.

Arguments getGitHubUsername : simpl never.
Arguments add_other_files : simpl never.
Arguments or_else : simpl never.

Local Open Scope js_scope.

Lemma or_else_ret x d env (w : World Sessions) :
  or_else x (fun _ w => (Normal d, w)) env w = (Normal (either x d), w).
Proof. unfold or_else, either, ret. by destruct (truthy x). Qed.

(** A style sheet or a script of the project, or else the template's. *)
Lemma text_or_fallback v (pick : Code.t -> JValue) x env (w : World Sessions) :
  text_or_absent x = true ->
  (forall k, exists s, pick (template_at v "" env k) = JStr s) ->
  exists s k,
    or_else x (let* t := generateFallbackTemplate v "" in ret (pick t)) env w
      = (Normal (JStr s), mkWorld (store w) (k + ticks w) (outbox w) (console w)).
Proof.
  intros Hx Hpick. unfold or_else.
  destruct (truthy x) eqn:Ht.
  - destruct x; try discriminate. exists s, 0%nat. by destruct w.
  - destruct (Hpick (ticks w)) as [s Hs]. exists s, (template_reads v).
    unfold bind. rewrite generateFallbackTemplate_run. cbn. by rewrite Hs.
Qed.

Lemma template_css_text v env k : exists s, Code.css (template_at v "" env k) = JStr s.
Proof. destruct v; cbn; eauto. Qed.

Lemma template_js_text v env k : exists s, Code.js (template_at v "" env k) = JStr s.
Proof. destruct v; cbn; eauto. Qed.

Lemma publishable_inv project :
  publishable project = true ->
  exists props s,
    project = JObj props /\ lookup_key "html" props = JStr s /\
    text_or_absent (lookup_key "css" props) = true /\
    text_or_absent (lookup_key "js" props) = true.
Proof.
  unfold publishable, supplied.
  destruct project; cbn; try discriminate;
    try (destruct (String.eqb _ _); discriminate).
  destruct (lookup_key "html" props) eqn:Hh; try discriminate.
  intros [[_ Hc]%andb_prop Hj]%andb_prop. eauto 10.
Qed.

(** C6: in the publisher, with the repository created, the answer to the
    first file creation (index.html) decides the outcome.  When it is
    refused, the publisher throws that error (reworded for the statuses 401
    and 422) and no further file is attempted.  When it succeeds, the
    publisher returns normally whatever happens to the later files: all
    three of them are attempted, in order, nothing is undone, and each
    refusal is written to the console. *)
Theorem publisher_first_file_decides v project env (w : World Sessions) repo props first :
  nonempty (configured env "GITHUB_TOKEN") = true ->
  publishable project = true ->
  (forall s, exists b, base64 env (JStr s) = Normal b) ->
  (forall c, remote env (List.length (outbox w) + 1) c = Resolve repo) ->
  member repo "data" = Normal (JObj props) ->
  (forall c, remote env (List.length (outbox w) + 2) c = first) ->
  match first with
  | Reject e =>
      fst (createGitHubRepository v project env w) = Throw (publish_error e) /\
      map call_name (drop (List.length (outbox w))
                       (outbox (snd (createGitHubRepository v project env w))))
        = ["users.getAuthenticated"; "repos.createForAuthenticatedUser";
           "repos.createOrUpdateFileContents index.html"]
  | Resolve _ =>
      (exists made, fst (createGitHubRepository v project env w) = Normal made) /\
      map call_name (drop (List.length (outbox w))
                       (outbox (snd (createGitHubRepository v project env w))))
        = ["users.getAuthenticated"; "repos.createForAuthenticatedUser";
           "repos.createOrUpdateFileContents index.html";
           "repos.createOrUpdateFileContents style.css";
           "repos.createOrUpdateFileContents script.js";
           "repos.createOrUpdateFileContents README.md"] /\
      (forall i path e,
         (i, path) ∈ [(0%nat, "style.css"); (1%nat, "script.js"); (2%nat, "README.md")] ->
         (forall c, remote env (List.length (outbox w) + 3 + i) c = Reject e) ->
         failed_to_add path e ∈ console (snd (createGitHubRepository v project env w)))
  end.
Proof.
  intros Htoken (pp & html & -> & Hhtml & Hcss & Hjs)%publishable_inv Hbuf Hrepo Hdata
    Hfirst.
  unfold configured in Htoken.
  remember (createGitHubRepository v (JObj pp) env w) as X eqn:HX.
  unfold createGitHubRepository in HX. unfold GITHUB_TOKEN, env_or_empty, to_base64 in HX.
  unfold bind, try_catch, ret, throw, lift, ask, Date_now, console_log, console_error,
    prop in HX.
  cbn in HX. rewrite Htoken in HX. cbn in HX.
  match type of HX with
  | context [getGitHubUsername env ?w1] =>
      destruct (getGitHubUsername_run env w1) as (username & lines0 & Huser)
  end.
  rewrite Huser in HX. cbn in HX.
  rewrite or_else_ret in HX.
  unfold await at 1 in HX. cbn in HX. rewrite length_app in HX. cbn in HX.
  rewrite Hrepo in HX. cbn in HX. rewrite Hdata in HX. cbn in HX.
  rewrite Hhtml in HX. destruct (Hbuf html) as [html64 Hhtml64]. rewrite Hhtml64 in HX.
  match type of HX with
  | context [or_else (lookup_key "css" pp) _ env ?w1] =>
      destruct (text_or_fallback v Code.css _ env w1 Hcss (template_css_text v env))
        as (css & kc & Hcss')
  end.
  unfold bind, ret in Hcss'. rewrite Hcss' in HX. cbn in HX.
  destruct (Hbuf css) as [css64 Hcss64]. rewrite Hcss64 in HX.
  match type of HX with
  | context [or_else (lookup_key "js" pp) _ env ?w1] =>
      destruct (text_or_fallback v Code.js _ env w1 Hjs (template_js_text v env))
        as (js & kj & Hjs')
  end.
  unfold bind, ret in Hjs'. rewrite Hjs' in HX. cbn in HX.
  destruct (Hbuf js) as [js64 Hjs64]. rewrite Hjs64 in HX.
  match type of HX with
  | context [base64 env (JStr (readme_text ?d))] =>
      destruct (Hbuf (readme_text d)) as [readme64 Hreadme64]; rewrite Hreadme64 in HX
  end.
  unfold await at 1 in HX. cbn in HX. rewrite !length_app in HX. cbn in HX.
  rewrite <- Nat.add_assoc in HX. cbn in HX.
  rewrite Hfirst in HX. destruct first as [answer|e].
  2: { cbn in HX. subst X.
    unfold publish_error, throw.
    destruct (bool_decide (e_status e = Some 401)), (bool_decide (e_status e = Some 422));
      cbn; (split; [reflexivity|]);
      by rewrite <- !app_assoc, drop_app_length. }
  cbn in HX.
  match type of HX with
  | context [add_other_files ?auth ?owner ?name ?files env ?w1] =>
      destruct (add_other_files_run auth owner name files env w1) as (lines & Hrun & Hlines)
  end.
  rewrite Hrun in HX. cbn in HX. subst X. cbn. split; [eauto|]. split.
  - by rewrite <- !app_assoc, drop_app_length.
  - intros i path e Hin Hfail. apply elem_of_app. right.
      cbn in Hlines. rewrite !length_app in Hlines. cbn in Hlines.
      rewrite <- !Nat.add_assoc in Hlines. cbn in Hlines.
      repeat (apply elem_of_cons in Hin as [Hin|Hin]; [injection Hin as -> ->|]);
        [ apply (Hlines 0%nat _ e eq_refl) | apply (Hlines 1%nat _ e eq_refl)
        | apply (Hlines 2%nat _ e eq_refl) | by apply elem_of_nil in Hin ];
        apply Hfail.
Qed.

(** The first file creation is refused with status 500. *)
Lemma publisher_first_file_decides_witness :
  fst (createGitHubRepository part_001 Examples.bakery
         (Examples.github_with_failures [2%nat]) Examples.fresh)
    = Throw (publish_error (mkError "Server Error" (Some 500) None)) /\
  map call_name
    (drop (List.length (outbox Examples.fresh))
       (outbox (snd (createGitHubRepository part_001 Examples.bakery
                       (Examples.github_with_failures [2%nat]) Examples.fresh))))
    = ["users.getAuthenticated"; "repos.createForAuthenticatedUser";
       "repos.createOrUpdateFileContents index.html"].
Proof.
  apply (publisher_first_file_decides part_001 Examples.bakery
           (Examples.github_with_failures [2%nat]) Examples.fresh
           Examples.created_repo
           [("html_url", JStr "https://github.com/octo/happy-website");
            ("clone_url", JStr "https://github.com/octo/happy-website.git")]
           (Reject (mkError "Server Error" (Some 500) None)));
    try reflexivity.
  - intros s. exists s. reflexivity.
Defined.

(** The creations of style.css and README.md are refused; the publisher
    still returns the repository. *)
Example publisher_swallows_later_failures :
  let run := createGitHubRepository part_001 Examples.bakery
               (Examples.github_with_failures [3%nat; 5%nat]) Examples.fresh in
  fst run
    = Normal (GithubData.mk (JStr "https://github.com/octo/happy-website")
                ("octo/happy-website-" +:+ stamp (Examples.tick 0))
                (JStr "https://github.com/octo/happy-website.git")) /\
  map call_name (outbox (snd run))
    = ["users.getAuthenticated"; "repos.createForAuthenticatedUser";
       "repos.createOrUpdateFileContents index.html";
       "repos.createOrUpdateFileContents style.css";
       "repos.createOrUpdateFileContents script.js";
       "repos.createOrUpdateFileContents README.md"] /\
  console (snd run)
    = [(Log, [Text "📁 Creating GitHub repository..."]);
       (Log, [Text "✅ Repository created: https://github.com/octo/happy-website"]);
       (Log, [Text "✅ Initial commit created"]);
       failed_to_add "style.css" (mkError "Server Error" (Some 500) None);
       (Log, [Text "✅ File added: script.js"]);
       failed_to_add "README.md" (mkError "Server Error" (Some 500) None)].
Proof. vm_compute. repeat split. Qed.

(** * Further properties *)

Section Outcomes.
Context {S : Type}.

Lemma never_throws_ret {A} (a : A) : never_throws (@ret S A a).
Proof. intros env w. by exists a. Qed.

Lemma never_throws_bind {A B} (m : M S A) (k : A -> M S B) :
  never_throws m -> (forall a, never_throws (k a)) -> never_throws (bind m k).
Proof.
  intros Hm Hk env w. unfold bind. destruct (Hm env w) as [a Ha].
  destruct (m env w) as [c w']. cbn in Ha. subst c. apply Hk.
Qed.

Lemma never_throws_try_catch {A} (m : M S A) (h : Error -> M S A) :
  (forall e, never_throws (h e)) -> never_throws (try_catch m h).
Proof.
  intros Hh env w. unfold try_catch. destruct (m env w) as [[a|e] w']; [by exists a | apply Hh].
Qed.

Lemma never_throws_if {A} (c : bool) (m1 m2 : M S A) :
  never_throws m1 -> never_throws m2 -> never_throws (if c then m1 else m2).
Proof. by destruct c. Qed.

Lemma never_throws_console_log args : never_throws (@console_log S args).
Proof. intros env w. by exists tt. Qed.

Lemma never_throws_console_error args : never_throws (@console_error S args).
Proof. intros env w. by exists tt. Qed.

Lemma never_throws_Date_now : never_throws (@Date_now S).
Proof. intros env w. by eexists. Qed.

Lemma never_throws_ask : never_throws (@ask S).
Proof. intros env w. by eexists. Qed.

Lemma never_throws_get_store : never_throws (@get_store S).
Proof. intros env w. by eexists. Qed.

Lemma never_throws_put_store s : never_throws (@put_store S s).
Proof. intros env w. by eexists. Qed.

Lemma returns_only_ret {A} (Q : A -> Prop) (a : A) : Q a -> returns_only Q (@ret S A a).
Proof. intros Ha env w a' [= <-]. exact Ha. Qed.

Lemma returns_only_throw {A} (Q : A -> Prop) e : returns_only Q (@throw S A e).
Proof. intros env w a [=]. Qed.

Lemma returns_only_bind {A B} (Q : B -> Prop) (m : M S A) (k : A -> M S B) :
  (forall a, returns_only Q (k a)) -> returns_only Q (bind m k).
Proof.
  intros Hk env w b. unfold bind. destruct (m env w) as [[a|e] w']; [apply Hk | by intros [=]].
Qed.

Lemma returns_only_bind_with {A B} (P : A -> Prop) (Q : B -> Prop) (m : M S A) (k : A -> M S B) :
  returns_only P m -> (forall a, P a -> returns_only Q (k a)) -> returns_only Q (bind m k).
Proof.
  intros Hm Hk env w b. unfold bind. specialize (Hm env w).
  destruct (m env w) as [[a|e] w']; [apply Hk, Hm; reflexivity | by intros [=]].
Qed.

Lemma returns_only_try_catch {A} (Q : A -> Prop) (m : M S A) (h : Error -> M S A) :
  returns_only Q m -> (forall e, returns_only Q (h e)) -> returns_only Q (try_catch m h).
Proof.
  intros Hm Hh env w a. unfold try_catch. specialize (Hm env w).
  destruct (m env w) as [[a'|e] w']; [apply Hm | apply Hh].
Qed.

Lemma returns_only_if {A} (Q : A -> Prop) (c : bool) (m1 m2 : M S A) :
  returns_only Q m1 -> returns_only Q m2 -> returns_only Q (if c then m1 else m2).
Proof. by destruct c. Qed.

End Outcomes.

Create HintDb outcome.
#[global] Hint Resolve never_throws_ret never_throws_console_log never_throws_console_error
  never_throws_Date_now never_throws_ask never_throws_get_store never_throws_put_store
  returns_only_throw : outcome.

(** Splits a goal on what a program returns along its structure. *)
Ltac outcome :=
  repeat first
    [ progress intros
    | solve [eauto with outcome]
    | apply never_throws_bind
    | apply never_throws_try_catch
    | apply never_throws_if
    | apply returns_only_bind
    | apply returns_only_try_catch
    | apply returns_only_if
    | apply returns_only_ret
    | match goal with
      | |- never_throws (match ?x with _ => _ end) => destruct x
      | |- returns_only _ (match ?x with _ => _ end) => destruct x
      end ].

Lemma never_throws_env_or_empty name : never_throws (env_or_empty name).
Proof. unfold env_or_empty. outcome. Qed.
#[global] Hint Resolve never_throws_env_or_empty : outcome.

Lemma never_throws_generateFallbackTemplate v message :
  never_throws (generateFallbackTemplate v message).
Proof. intros env w. rewrite generateFallbackTemplate_run. by eexists. Qed.
#[global] Hint Resolve never_throws_generateFallbackTemplate : outcome.

Lemma never_throws_generateAIResponse v message currentCode :
  never_throws (generateAIResponse v message currentCode).
Proof. intros env w. apply generateAIResponse_returns. Qed.
#[global] Hint Resolve never_throws_generateAIResponse : outcome.

(** X1: Every request to the chat handler is answered, with 200 or with 400,
    and the session store is as it was. *)
Theorem chat_always_answers v message currentCode env (w : World Sessions) :
  exists r,
    fst (chat v message currentCode env w) = Normal r /\
    (status r = 200 \/ status r = 400) /\
    store (snd (chat v message currentCode env w)) = store w.
Proof.
  assert (never_throws (chat v message currentCode)) as Hnever.
  { unfold chat. outcome. }
  assert (returns_only (fun r => status r = 200 \/ status r = 400)
            (chat v message currentCode)) as Honly.
  { unfold chat, chat_try. outcome; cbn; auto. }
  destruct (Hnever env w) as [r Hr]. exists r. split; [done|]. split.
  - by apply (Honly env w).
  - symmetry. apply keeps_chat.
Qed.

Lemma never_throws_deployToVercel v repoName project :
  never_throws (deployToVercel v repoName project).
Proof. unfold deployToVercel. outcome. Qed.
#[global] Hint Resolve never_throws_deployToVercel : outcome.

Lemma deployment_url_address answer :
  returns_only vercel_address (deployment_url answer).
Proof. unfold deployment_url. outcome. by eexists. Qed.

(** X2: The deployer never throws, and what it returns is an address under
    vercel.app: the deployment's, or a placeholder when anything failed. *)
Theorem deployToVercel_always_address v repoName project env (w : World Sessions) :
  exists url,
    fst (deployToVercel v repoName project env w) = Normal url /\ vercel_address url.
Proof.
  destruct (never_throws_deployToVercel v repoName project env w) as [url Hurl].
  exists url. split; [done|].
  revert env w url Hurl. change (returns_only vercel_address (deployToVercel v repoName project)).
  unfold deployToVercel.
  repeat first
    [ progress intros
    | apply returns_only_try_catch
    | apply returns_only_if
    | eapply returns_only_bind_with; [apply deployment_url_address|]
    | apply returns_only_bind
    | apply returns_only_ret; first [assumption | eexists ("happy-website-" +:+ _); reflexivity] ].
Qed.

Lemma has_markup_test project html :
  html = (if truthy project then supplied project "html" else JUndefined) ->
  negb (truthy project) || negb (truthy html) = negb (has_markup project).
Proof.
  intros ->. unfold has_markup. destruct (truthy project); [|reflexivity].
  cbn. by destruct (truthy (supplied project "html")).
Qed.

Lemma deploy_try_status v project :
  returns_only (fun r => if has_markup project then status r = 200 else r = deploy_rejected)
    (deploy_try v project).
Proof.
  unfold deploy_try.
  eapply (returns_only_bind_with
            (fun html => html = if truthy project then supplied project "html" else JUndefined)).
  - unfold supplied. destruct (truthy project) eqn:Hp.
    + intros env w a. unfold prop, lift. cbn. destruct (member project "html"); [congruence|done].
    + by apply returns_only_ret.
  - intros html Hhtml. rewrite (has_markup_test _ _ Hhtml).
    destruct (has_markup project); cbn [negb]; outcome; reflexivity.
Qed.

Lemma never_throws_deploy v project : never_throws (deploy v project).
Proof. unfold deploy. outcome. Qed.

(** X3: The deploy handler answers every request and never throws: 400 "Invalid
    project data" exactly when the project or its markup is missing, and
    then nothing is sent out and the clock is not read; 200 otherwise.  The
    session store is as it was. *)
Theorem deploy_always_answers v project env (w : World Sessions) :
  exists r,
    fst (deploy v project env w) = Normal r /\
    (if has_markup project then status r = 200
     else r = deploy_rejected /\
          outbox (snd (deploy v project env w)) = outbox w /\
          ticks (snd (deploy v project env w)) = ticks w) /\
    store (snd (deploy v project env w)) = store w.
Proof.
  destruct (has_markup project) eqn:Hm.
  - destruct (never_throws_deploy v project env w) as [r Hr]. exists r.
    split; [done|]. split; [|symmetry; apply keeps_deploy].
    revert env w r Hr. change (returns_only (fun r => status r = 200) (deploy v project)).
    unfold deploy. apply returns_only_bind. intros _. apply returns_only_try_catch.
    + intros env w r Hr. pose proof (deploy_try_status v project env w r Hr) as H.
      by rewrite Hm in H.
    + outcome.
  - exists deploy_rejected. unfold has_markup, supplied in Hm.
    unfold deploy, deploy_try. run.
    destruct (truthy project) eqn:Hp; cbn; [|done].
    destruct (member project "html") as [html|e] eqn:Hhtml; cbn.
    + cbn in Hm. by rewrite Hm.
    + by destruct project.
Qed.

(** ** The generator, on every input *)

Lemma truthy_text s : s <> "" -> truthy (JStr s) = true.
Proof. intros Hs. cbn. by destruct (String.eqb_spec s ""). Qed.

Lemma truthy_nonempty_text x : nonempty_text x -> truthy x = true.
Proof. intros (s & -> & Hs). by apply truthy_text. Qed.

Lemma truthy_template v message env k :
  truthy (Code.html (template_at v message env k)) = true /\
  truthy (Code.css (template_at v message env k)) = true /\
  truthy (Code.js (template_at v message env k)) = true.
Proof.
  destruct (template_at_nonempty v message env k) as (Hh & Hc & Hj).
  auto using truthy_nonempty_text.
Qed.

Lemma truthy_fallback_message message :
  truthy (JStr ("I created a " +:+ dq +:+ message +:+ dq +:+ " website for you! 🎉")) = true.
Proof. apply truthy_text, append_nonempty. discriminate. Qed.

(** What one call of the generator amounts to: a response whose four fields
    are truthy, and at most one outbound call, the completion request. *)
Lemma generateAIResponse_outcome v message currentCode env (w : World Sessions) :
  exists r,
    fst (generateAIResponse v message currentCode env w) = Normal r /\
    (truthy (AIResponse.message r) = true /\
     truthy (Code.html (AIResponse.code r)) = true /\
     truthy (Code.css (AIResponse.code r)) = true /\
     truthy (Code.js (AIResponse.code r)) = true) /\
    calls_of (generateAIResponse v message currentCode) env w
      = (if nonempty (configured env "DEEPSEEK_API_KEY")
         then match completion_request (configured env "DEEPSEEK_API_KEY") message
                      (or_default currentCode (JObj [])) with
              | Normal request => [request]
              | Throw _ => []
              end
         else []).
Proof.
  pose proof (truthy_template v message env) as Ht.
  pose proof (truthy_fallback_message message) as Hmsg.
  unfold calls_of, generateAIResponse, DEEPSEEK_API_KEY, env_or_empty, configured.
  unfold_monad. cbn.
  destruct (nonempty (default "" (process_env env "DEEPSEEK_API_KEY"))) eqn:Hkey; cbn.
  2: { run_all. eexists. split; [reflexivity|]. cbn. split; [by split; [|apply Ht]|].
       by rewrite drop_all. }
  destruct (completion_request _ message _) as [request|e0] eqn:Hreq; cbn.
  2: { destruct (e_response e0) as [[code data]|]; run_all;
         (eexists; split; [reflexivity|]; cbn; split; [by split; [|apply Ht]|]);
         by rewrite drop_all. }
  assert (forall l : list Call, drop (List.length (outbox w)) (outbox w ++ l) = l) as Hdrop.
  { intros l. apply drop_app_length. }
  destruct (remote env (List.length (outbox w)) request) as [response|e1]; cbn.
  2: { destruct (e_response e1) as [[code data]|]; run_all;
         (eexists; split; [reflexivity|]; cbn; split; [by split; [|apply Ht]|]);
         by rewrite Hdrop. }
  destruct (completion_content response) as [content|e2]; cbn.
  2: { run_all. eexists; split; [reflexivity|]; cbn; split; [by split; [|apply Ht]|].
       by rewrite Hdrop. }
  destruct (JSON_parse env content) as [aiData|e3]; cbn.
  2: { run_all. eexists; split; [reflexivity|]; cbn; split; [by split; [|apply Ht]|].
       by rewrite Hdrop. }
  destruct (member aiData "message") as [m0|e4] eqn:Hm.
  2: { assert (forall k, exists e, member aiData k = Throw e) as Hall.
       { intros k. destruct aiData; try discriminate; cbn; eauto. }
       run_all. eexists; split; [reflexivity|]; cbn; split; [by split; [|apply Ht]|].
       by rewrite Hdrop. }
  destruct (member_total _ _ _ Hm "html") as [h0 Hh].
  destruct (member_total _ _ _ Hm "css") as [c0 Hc].
  destruct (member_total _ _ _ Hm "js") as [j0 Hj].
  rewrite Hh, Hc, Hj. cbn.
  destruct (truthy m0) eqn:Hm0, (truthy h0) eqn:Hh0, (truthy c0) eqn:Hc0, (truthy j0) eqn:Hj0;
    run_all;
    (eexists; split; [reflexivity|]; cbn; split;
     [ repeat split; first [assumption | apply Ht | reflexivity]
     | by rewrite Hdrop ]).
Qed.

(** X4: Whatever the model does, the generator returns a message and a code
    whose markup, styles and script are all there (truthy): a field the
    model left out or left empty never reaches the caller. *)
Theorem generator_code_never_empty v message currentCode env (w : World Sessions) :
  exists r,
    fst (generateAIResponse v message currentCode env w) = Normal r /\
    truthy (AIResponse.message r) = true /\
    truthy (Code.html (AIResponse.code r)) = true /\
    truthy (Code.css (AIResponse.code r)) = true /\
    truthy (Code.js (AIResponse.code r)) = true.
Proof.
  destruct (generateAIResponse_outcome v message currentCode env w) as (r & Hr & Hfields & _).
  exists r. by split.
Qed.

(** X5: The generator tries the model at most once: it sends nothing when no
    key is configured or when the request cannot be built (a [currentCode]
    that is [null], or a field of it that is neither text nor absent), and
    otherwise exactly the one completion request, whatever the answer. *)
Theorem generator_calls_at_most_once v message currentCode env (w : World Sessions) :
  calls_of (generateAIResponse v message currentCode) env w
    = (if nonempty (configured env "DEEPSEEK_API_KEY")
       then match completion_request (configured env "DEEPSEEK_API_KEY") message
                    (or_default currentCode (JObj [])) with
            | Normal request => [request]
            | Throw _ => []
            end
       else []).
Proof.
  by destruct (generateAIResponse_outcome v message currentCode env w) as (r & _ & _ & Hcalls).
Qed.

(** X6: With no key configured the generator sends nothing and answers with
    the fallback made for the message. *)
Theorem generator_without_key v message currentCode env (w : World Sessions) :
  configured env "DEEPSEEK_API_KEY" = "" ->
  exists t,
    fst (generateAIResponse v message currentCode env w)
      = Normal (AIResponse.mk
                  (JStr ("I created a " +:+ dq +:+ message +:+ dq +:+ " website for you! 🎉"))
                  t) /\
    is_fallback v message env t /\
    outbox (snd (generateAIResponse v message currentCode env w)) = outbox w.
Proof.
  intros Hkey. unfold generateAIResponse, DEEPSEEK_API_KEY, env_or_empty.
  unfold configured in Hkey. unfold_monad. cbn. rewrite Hkey. run_all.
  eexists. split; [reflexivity|]. split; [apply is_fallback_at | reflexivity].
Qed.

Lemma generator_without_key_witness :
  exists t,
    fst (generateAIResponse server_js "a bakery page" JUndefined Examples.offline Examples.fresh)
      = Normal (AIResponse.mk
                  (JStr ("I created a " +:+ dq +:+ "a bakery page" +:+ dq
                         +:+ " website for you! 🎉"))
                  t) /\
    is_fallback server_js "a bakery page" Examples.offline t /\
    outbox (snd (generateAIResponse server_js "a bakery page" JUndefined
                   Examples.offline Examples.fresh))
      = outbox Examples.fresh.
Proof.
  apply (generator_without_key server_js "a bakery page" JUndefined
           Examples.offline Examples.fresh).
  reflexivity.
Defined.

(** ** Lengths *)

Lemma length_substring0 n s : (String.length (substring0 n s) <= n)%nat.
Proof.
  unfold substring0. revert s. induction n as [|n IH]; intros s.
  - destruct s; cbn; lia.
  - destruct s as [|c s]; cbn; [lia|]. specialize (IH s). lia.
Qed.

Lemma substring0_short n s : (String.length s <= n)%nat -> substring0 n s = s.
Proof.
  unfold substring0. revert s. induction n as [|n IH]; intros s Hs.
  - destruct s; [reflexivity | cbn in Hs; lia].
  - destruct s as [|c s]; [reflexivity|]. cbn in *. rewrite IH; [reflexivity | lia].
Qed.

Lemma length_append s t :
  String.length (s +:+ t) = (String.length s + String.length t)%nat.
Proof.
  induction s as [|c s IH]; [reflexivity|].
  change (String c s +:+ t) with (String c (s +:+ t)). cbn [String.length]. by rewrite IH.
Qed.

(** X7: The excerpt of the current code that goes into the prompt is never
    empty and never longer than 500 characters: a missing or empty field is
    written 'None', a text of up to 500 characters is passed as it is, and
    a longer one is cut to its first 500. *)
Theorem excerpt_bounded currentCode k text :
  excerpt currentCode k = Normal text ->
  (1 <= String.length text <= 500)%nat /\
  (forall s, supplied currentCode k = JStr s ->
     text = if nonempty s then substring0 500 s else "None") /\
  (forall s, supplied currentCode k = JStr s -> (1 <= String.length s <= 500)%nat -> text = s).
Proof.
  unfold excerpt, supplied. destruct (member currentCode k) as [field|e]; [|discriminate].
  cbn. destruct field as [| |b|n|s|l|l]; try discriminate; intros [= <-].
  1, 2: by repeat split; cbn; try lia.
  assert (nonempty (substring0 500 s) = nonempty s) as Hne.
  { destruct s as [|c s]; reflexivity. }
  rewrite Hne. split; [|split].
  - destruct (nonempty s) eqn:Hs; [|cbn; lia].
    pose proof (length_substring0 500 s). destruct s; [discriminate|]. cbn in *. lia.
  - by intros s' [= <-].
  - intros s' [= <-] Hlen. rewrite substring0_short by lia.
    destruct s; [cbn in Hlen; lia | reflexivity].
Qed.

Lemma excerpt_bounded_witness :
  (1 <= String.length "None" <= 500)%nat /\
  (forall s, supplied (JObj [("html", JStr "")]) "html" = JStr s ->
     "None" = if nonempty s then substring0 500 s else "None") /\
  (forall s, supplied (JObj [("html", JStr "")]) "html" = JStr s ->
     (1 <= String.length s <= 500)%nat -> "None" = s).
Proof.
  apply (excerpt_bounded (JObj [("html", JStr "")]) "html" "None").
  reflexivity.
Defined.

Lemma member_supplied project k :
  project <> JUndefined -> project <> JNull -> member project k = Normal (supplied project k).
Proof. intros H1 H2. unfold supplied. by destruct project. Qed.

Lemma new_entry_throws project env (w : World Sessions) :
  recordable project = false ->
  exists e, new_entry project env w
            = (Throw e, mkWorld (store w) (S (ticks w)) (outbox w) (console w)).
Proof.
  intros Hrec.
  assert (project = JUndefined \/ project = JNull \/
          (project <> JUndefined /\ project <> JNull)) as [->|[->|[H1 H2]]]
    by (destruct project; auto).
  1, 2: eexists; reflexivity.
  assert (truthy (supplied project "html") = true /\
          forall s, supplied project "html" <> JStr s) as [Ht Hs].
  { unfold recordable in Hrec. destruct project; try done;
      destruct (supplied _ "html"); try done; by apply negb_false_iff in Hrec. }
  unfold new_entry, preview_of. run. rewrite !member_supplied by done. cbn.
  unfold or_else. destruct (truthy (supplied project "name")); run;
    rewrite ?member_supplied by done; cbn; rewrite ?Ht; cbn;
    destruct (supplied project "html"); try (eexists; reflexivity); by destruct (Hs s).
Qed.

(** X8: What [save] shows of the markup in an entry is at most 203 characters
    long: nothing for a project without markup, and else the first 200
    characters of the markup followed by three dots. *)
Theorem preview_bounded env project e :
  is_entry_of env project e ->
  (String.length (SavedProject.preview e) <= 203)%nat /\
  (truthy (supplied project "html") = false -> SavedProject.preview e = "") /\
  (forall s, supplied project "html" = JStr s -> s <> "" ->
     SavedProject.preview e = substring0 200 s +:+ "...").
Proof.
  intros [w Hw]. destruct (recordable project) eqn:Hrec.
  - rewrite new_entry_run in Hw by done. cbn in Hw. injection Hw as <-.
    unfold entry_at. cbn. split; [|split].
    + destruct (supplied project "html"); cbn; try lia.
      destruct (nonempty s); cbn; [|lia].
      rewrite length_append. pose proof (length_substring0 200 s). cbn. lia.
    + destruct (supplied project "html"); try done.
      cbn. unfold nonempty. by intros ->.
    + intros s -> Hs. unfold nonempty. by destruct (String.eqb_spec s "").
  - destruct (new_entry_throws project env w Hrec) as [e' He']. by rewrite He' in Hw.
Qed.

Lemma preview_bounded_witness :
  (String.length (SavedProject.preview (entry_at Examples.offline 0 Examples.bakery)) <= 203)%nat /\
  (truthy (supplied Examples.bakery "html") = false ->
     SavedProject.preview (entry_at Examples.offline 0 Examples.bakery) = "") /\
  (forall s, supplied Examples.bakery "html" = JStr s -> s <> "" ->
     SavedProject.preview (entry_at Examples.offline 0 Examples.bakery)
       = substring0 200 s +:+ "...").
Proof.
  apply (preview_bounded Examples.offline Examples.bakery
           (entry_at Examples.offline 0 Examples.bakery)).
  exists Examples.fresh. reflexivity.
Defined.

(** X9: A project from which no entry can be built (no project at all, or
    markup that is truthy and not a string) is not saved: the answer is
    [success: false] with the message of the error, with status 200; the
    list of the user is as it was, the session of the user exists
    afterwards, and no other session is touched. *)
Theorem save_unrecordable userId project env (w : World Sessions) :
  recordable project = false ->
  exists e,
    fst (save userId project env w)
      = Normal (json (JObj [("success", JBool false); ("error", JStr (e_message e))])) /\
    projects_of (store (snd (save userId project env w))) userId
      = projects_of (store w) userId /\
    is_Some (store (snd (save userId project env w)) !! userId) /\
    (forall u, u <> userId -> store (snd (save userId project env w)) !! u = store w !! u) /\
    outbox (snd (save userId project env w)) = outbox w.
Proof.
  intros Hrec. unfold save, session_of, projects_of.
  destruct (store w !! userId) as [userData|] eqn:Hu.
  - run. rewrite Hu. cbn.
    destruct (new_entry_throws project env w Hrec) as [e He].
    destruct w as [s t o c]. cbn in *. rewrite He. cbn. exists e. rewrite Hu. by repeat split.
  - run. rewrite Hu. cbn.
    destruct (new_entry_throws project env
                (mkWorld (<[userId := UserSession.mk userId [] (clock env (ticks w))]> (store w))
                         (S (ticks w)) (outbox w) (console w)) Hrec) as [e He].
    rewrite He. cbn. exists e. rewrite lookup_insert_eq. repeat split; try done.
    intros u Hne. by rewrite lookup_insert_ne.
Qed.

Lemma save_unrecordable_witness :
  exists e,
    fst (save "ann" (JObj [("html", JNum 7)]) Examples.offline Examples.fresh)
      = Normal (json (JObj [("success", JBool false); ("error", JStr (e_message e))])) /\
    projects_of (store (snd (save "ann" (JObj [("html", JNum 7)])
                               Examples.offline Examples.fresh))) "ann"
      = projects_of (store Examples.fresh) "ann" /\
    is_Some (store (snd (save "ann" (JObj [("html", JNum 7)])
                           Examples.offline Examples.fresh)) !! "ann") /\
    (forall u, u <> "ann" ->
       store (snd (save "ann" (JObj [("html", JNum 7)]) Examples.offline Examples.fresh)) !! u
         = store Examples.fresh !! u) /\
    outbox (snd (save "ann" (JObj [("html", JNum 7)]) Examples.offline Examples.fresh))
      = outbox Examples.fresh.
Proof.
  apply (save_unrecordable "ann" (JObj [("html", JNum 7)]) Examples.offline Examples.fresh).
  reflexivity.
Defined.

(** X10: A saved project is the first entry of the next history: the id in the
    answer of [save] is the id of that entry, and the history holds the new
    entry in front of the earlier ones, cut at 20. *)
Theorem save_then_history userId project env (w : World Sessions) :
  recordable project = true ->
  exists e,
    is_entry_of env project e /\
    fst (save userId project env w)
      = Normal (json (JObj [("success", JBool true);
                            ("message", JStr "Project saved successfully");
                            ("projectId", JStr (SavedProject.id e))])) /\
    fst (history userId env (snd (save userId project env w)))
      = Normal (history_answer (take 20 (e :: projects_of (store w) userId))).
Proof.
  intros Hrec. destruct (save_run userId project env w Hrec) as (k & Hanswer & Hlist & _).
  exists (entry_at env k project). split; [by apply is_entry_of_at|]. split; [done|].
  destruct (history_run userId env (snd (save userId project env w))) as [-> _].
  by rewrite Hlist.
Qed.

Lemma save_then_history_witness :
  exists e,
    is_entry_of Examples.offline Examples.bakery e /\
    fst (save "ann" Examples.bakery Examples.offline Examples.fresh)
      = Normal (json (JObj [("success", JBool true);
                            ("message", JStr "Project saved successfully");
                            ("projectId", JStr (SavedProject.id e))])) /\
    fst (history "ann" Examples.offline
           (snd (save "ann" Examples.bakery Examples.offline Examples.fresh)))
      = Normal (history_answer (take 20 (e :: projects_of (store Examples.fresh) "ann"))).
Proof.
  apply (save_then_history "ann" Examples.bakery Examples.offline Examples.fresh).
  reflexivity.
Defined.

(** ** The session store *)

Lemma well_formed_insert sessions u d :
  well_formed sessions -> UserSession.userId d = u ->
  (List.length (UserSession.projects d) <= 20)%nat ->
  well_formed (<[u := d]> sessions).
Proof.
  intros Hs Hu Hd u' d'. destruct (decide (u' = u)) as [->|Hne].
  - rewrite lookup_insert_eq. by intros [= <-].
  - rewrite lookup_insert_ne by done. apply Hs.
Qed.

Lemma history_well_formed userId env (w : World Sessions) :
  well_formed (store w) -> well_formed (store (snd (history userId env w))).
Proof.
  intros Hw. unfold history, session_of. run.
  destruct (store w !! userId) as [userData|] eqn:Hu; cbn; [done|].
  apply well_formed_insert; cbn; [done | done | lia].
Qed.

Lemma save_well_formed userId project env (w : World Sessions) :
  well_formed (store w) -> well_formed (store (snd (save userId project env w))).
Proof.
  intros Hw. unfold save, session_of, set_projects.
  destruct (recordable project) eqn:Hrec.
  - destruct (store w !! userId) as [userData|] eqn:Hu.
    + destruct (Hw _ _ Hu) as [Hid Hlen].
      run. rewrite Hu. cbn. rewrite new_entry_run by done. cbn.
      match goal with
      | |- context [Nat.ltb 20 ?n] => destruct (Nat.ltb_spec 20 n) as [Hlt|Hge]
      end; cbn.
      * rewrite insert_insert_eq. apply well_formed_insert; cbn; try done.
        rewrite length_take. lia.
      * apply well_formed_insert; cbn; try done; cbn in *; lia.
    + run. rewrite Hu. cbn. rewrite new_entry_run by done. cbn.
      match goal with
      | |- context [Nat.ltb 20 ?n] => destruct (Nat.ltb_spec 20 n) as [Hlt|Hge]
      end; cbn; [cbn in Hlt; lia|].
      repeat apply well_formed_insert; cbn; try done; lia.
  - destruct (store w !! userId) as [userData|] eqn:Hu.
    + run. rewrite Hu. cbn.
      destruct (new_entry_throws project env w Hrec) as [e He].
      destruct w as [s t o c]. cbn in *. by rewrite He.
    + run. rewrite Hu. cbn.
      destruct (new_entry_throws project env
                  (mkWorld (<[userId := UserSession.mk userId [] (clock env (ticks w))]> (store w))
                           (S (ticks w)) (outbox w) (console w)) Hrec) as [e He].
      rewrite He. cbn. apply well_formed_insert; cbn; [done | done | lia].
Qed.

Lemma handle_well_formed v r env (w : World Sessions) :
  well_formed (store w) -> well_formed (store (snd (handle v r env w))).
Proof.
  intros Hw. destruct r as [message currentCode|project|u|u project]; cbn [handle].
  - by rewrite <- (keeps_chat v message currentCode env w).
  - by rewrite <- (keeps_deploy v project env w).
  - by apply history_well_formed.
  - by apply save_well_formed.
Qed.

(** X11: Whatever requests are served, in whatever order, the store stays well
    formed: every session sits under its own user id and no history grows
    beyond 20 entries. *)
Theorem serve_keeps_well_formed v rs env (w : World Sessions) :
  well_formed (store w) -> well_formed (store (serve v rs env w)).
Proof.
  revert w. induction rs as [|r rs IH]; intros w Hw; [done|].
  cbn. apply IH. by apply handle_well_formed.
Qed.

Lemma serve_keeps_well_formed_witness :
  well_formed (store (serve server_js
                        [Save "ann" Examples.bakery; History "bob"; Save "ann" JNull]
                        Examples.offline Examples.fresh)).
Proof.
  apply (serve_keeps_well_formed server_js
           [Save "ann" Examples.bakery; History "bob"; Save "ann" JNull]
           Examples.offline Examples.fresh).
  intros u d Hd. cbn in Hd. rewrite lookup_empty in Hd. discriminate Hd.
Defined.

(** ** The publisher's user name *)

(** X12: [getGitHubUsername] never fails and asks GitHub exactly once, whatever
    the token.  The name is the [login] of the answer, taken as it is (also
    when the answer has none and the value is [undefined]); when the request
    is refused, or the answer has no [data] to read from, the name is
    'happy-ai-user'.  Neither the store nor the clock is touched. *)
Theorem username_or_default env (w : World Sessions) :
  exists username,
    fst (getGitHubUsername env w) = Normal username /\
    calls_of getGitHubUsername env w
      = [UsersGetAuthenticated (JStr (configured env "GITHUB_TOKEN"))] /\
    store (snd (getGitHubUsername env w)) = store w /\
    ticks (snd (getGitHubUsername env w)) = ticks w /\
    username
      = match remote env (List.length (outbox w))
                (UsersGetAuthenticated (JStr (configured env "GITHUB_TOKEN"))) with
        | Resolve answer =>
            match and_then (member answer "data") (fun data => member data "login") with
            | Normal login => login
            | Throw _ => JStr "happy-ai-user"
            end
        | Reject _ => JStr "happy-ai-user"
        end.
Proof.
  unfold calls_of, getGitHubUsername, GITHUB_TOKEN, env_or_empty, configured. run.
  destruct (remote env _ _) as [answer|e]; cbn.
  - destruct (member answer "data") as [data|e]; cbn.
    + destruct (member data "login") as [login|e]; cbn;
        eexists; repeat split; by rewrite drop_app_length.
    + eexists; repeat split; by rewrite drop_app_length.
  - eexists; repeat split; by rewrite drop_app_length.
Qed.

(** ** The deployer's request *)

Lemma calls_of_nil {S A} (m : M S A) env (w : World S) :
  outbox (snd (m env w)) = outbox w -> calls_of m env w = [].
Proof. intros H. unfold calls_of. rewrite H. by rewrite drop_all. Qed.

Lemma calls_of_one {S A} (m : M S A) env (w : World S) c :
  outbox (snd (m env w)) = (outbox w ++ [c])%list -> calls_of m env w = [c].
Proof. intros H. unfold calls_of. rewrite H. by rewrite drop_app_length. Qed.

(** X13: [deployToVercel] sends at most one request, and it is a deployment
    request of the kind the configuration selects. *)
Theorem deployToVercel_one_request v repoName project env (w : World Sessions) :
  calls_of (deployToVercel v repoName project) env w = [] \/
  exists c, calls_of (deployToVercel v repoName project) env w = [c] /\
            deployment_call env repoName c.
Proof.
  unfold deployToVercel, VERCEL_TOKEN, VERCEL_PROJECT_ID, env_or_empty, deployment_url.
  fold (configured env "VERCEL_TOKEN").
  destruct (nonempty (configured env "VERCEL_TOKEN")
            && nonempty (configured env "VERCEL_PROJECT_ID")) eqn:Hboth.
  - right. eexists. split.
    + apply calls_of_one. unfold configured in *. run. rewrite Hboth. cbn.
      destruct (remote env _ _) as [answer|e]; cbn; [|reflexivity].
      destruct (member answer "data") as [data|e]; cbn; [|reflexivity].
      destruct (member data "url") as [url|e]; cbn; reflexivity.
    + apply andb_true_iff in Hboth as [Ht Hp]. cbn. by repeat split.
  - destruct (member project "html") as [html|e] eqn:Hhtml.
    + right.
      assert (project <> JUndefined /\ project <> JNull) as [H1 H2]
        by (split; intros ->; discriminate Hhtml).
      pose proof (member_supplied project "css" H1 H2) as Hcss.
      pose proof (member_supplied project "js" H1 H2) as Hjs.
      destruct (truthy (supplied project "css")) eqn:Hc;
        destruct (truthy (supplied project "js")) eqn:Hj;
        (eexists; split;
         [ apply calls_of_one; unfold configured in *; run; rewrite Hboth; cbn;
           rewrite Hhtml, Hcss; cbn; unfold or_else; rewrite Hc; run_all;
           rewrite ?Hjs; cbn; rewrite Hj; run_all;
           (destruct (remote env _ _) as [answer|e]; cbn; [|reflexivity]);
           (destruct (member answer "data") as [data|e]; cbn; [|reflexivity]);
           (destruct (member data "id") as [id|e]; cbn; [|reflexivity]);
           (destruct (member data "url") as [url|e]; cbn; reflexivity)
         | cbn; by repeat split ]).
    + left. apply calls_of_nil. unfold configured in *. run. rewrite Hboth. cbn.
      rewrite Hhtml. reflexivity.
Qed.

(** ** The publisher's errors *)

Lemma publish_error_status e :
  e_status (publish_error e) <> Some 401 /\ e_status (publish_error e) <> Some 422.
Proof.
  unfold publish_error.
  destruct (bool_decide (e_status e = Some 401)) eqn:H1; [by split|].
  destruct (bool_decide (e_status e = Some 422)) eqn:H2; [by split|].
  apply bool_decide_eq_false in H1, H2. by split.
Qed.

Lemma publisher_throws_reworded v project env (w : World Sessions) e :
  fst (createGitHubRepository v project env w) = Throw e ->
  exists e0, e = publish_error e0.
Proof.
  unfold createGitHubRepository, try_catch.
  match goal with
  | |- context [match ?m env w with _ => _ end] => destruct (m env w) as [[made|e0] w']
  end; [discriminate|].
  intros He. exists e0. unfold publish_error. run.
  destruct (bool_decide (e_status e0 = Some 401)); cbn in He; [by injection He|].
  destruct (bool_decide (e_status e0 = Some 422)); cbn in He; by injection He.
Qed.

(** X14: No error leaves the publisher with status 401 or 422: an error with one
    of these statuses is replaced by a new error without status, whose
    message names the token (401) or the repository name (422). *)
Theorem publisher_hides_401_and_422 v project env (w : World Sessions) e :
  fst (createGitHubRepository v project env w) = Throw e ->
  e_status e <> Some 401 /\ e_status e <> Some 422.
Proof. intros [e0 ->]%publisher_throws_reworded. apply publish_error_status. Qed.

Lemma publisher_hides_401_and_422_witness :
  e_status (new_Error "Invalid GitHub token. Please check your GITHUB_TOKEN.") <> Some 401 /\
  e_status (new_Error "Invalid GitHub token. Please check your GITHUB_TOKEN.") <> Some 422.
Proof.
  apply (publisher_hides_401_and_422 part_001 Examples.bakery Examples.github_refuses
           Examples.fresh).
  reflexivity.
Defined.

(** X15: Without a token the publisher sends nothing and throws 'GitHub token
    not configured'; the clock is not read. *)
Theorem publisher_without_token v project env (w : World Sessions) :
  nonempty (configured env "GITHUB_TOKEN") = false ->
  fst (createGitHubRepository v project env w)
    = Throw (new_Error "GitHub token not configured") /\
  outbox (snd (createGitHubRepository v project env w)) = outbox w /\
  ticks (snd (createGitHubRepository v project env w)) = ticks w /\
  store (snd (createGitHubRepository v project env w)) = store w.
Proof.
  intros Htoken. unfold configured in Htoken.
  unfold createGitHubRepository, GITHUB_TOKEN, env_or_empty. run. rewrite Htoken. cbn.
  by repeat split.
Qed.

Lemma publisher_without_token_witness :
  fst (createGitHubRepository server_js Examples.bakery Examples.offline Examples.fresh)
    = Throw (new_Error "GitHub token not configured") /\
  outbox (snd (createGitHubRepository server_js Examples.bakery Examples.offline
                 Examples.fresh))
    = outbox Examples.fresh /\
  ticks (snd (createGitHubRepository server_js Examples.bakery Examples.offline
                Examples.fresh))
    = ticks Examples.fresh /\
  store (snd (createGitHubRepository server_js Examples.bakery Examples.offline
                Examples.fresh))
    = store Examples.fresh.
Proof.
  apply (publisher_without_token server_js Examples.bakery Examples.offline Examples.fresh).
  reflexivity.
Defined.

(** X16: When the creation of the repository is refused, the publisher throws
    that error (reworded for 401 and 422) after two requests, the user
    lookup and the creation; no file is sent.  The repository is named
    'happy-website-' and the time of the call. *)
Theorem publisher_creation_refused v project env (w : World Sessions) e :
  nonempty (configured env "GITHUB_TOKEN") = true ->
  project <> JUndefined -> project <> JNull ->
  (forall c, remote env (List.length (outbox w) + 1) c = Reject e) ->
  fst (createGitHubRepository v project env w) = Throw (publish_error e) /\
  calls_of (createGitHubRepository v project) env w
    = [UsersGetAuthenticated (JStr (configured env "GITHUB_TOKEN"));
       ReposCreateForAuthenticatedUser (JStr (configured env "GITHUB_TOKEN"))
         ("happy-website-" +:+ stamp (clock env (ticks w)))
         ("Website created with Happy AI Builder - "
            +:+ ToString (either (supplied project "name") (JStr "AI Generated")))].
Proof.
  intros Htoken H1 H2 Hrefused. unfold configured in *.
  unfold calls_of.
  remember (createGitHubRepository v project env w) as X eqn:HX.
  unfold createGitHubRepository in HX. unfold GITHUB_TOKEN, env_or_empty, to_base64 in HX.
  unfold bind, try_catch, ret, throw, lift, ask, Date_now, console_log, console_error,
    prop in HX.
  cbn in HX. rewrite Htoken in HX. cbn in HX.
  match type of HX with
  | context [getGitHubUsername env ?w1] =>
      destruct (getGitHubUsername_run env w1) as (username & lines0 & Huser)
  end.
  rewrite Huser in HX. cbn in HX.
  rewrite (member_supplied project "name" H1 H2) in HX.
  rewrite or_else_ret in HX.
  unfold await at 1 in HX. cbn in HX. rewrite length_app in HX. cbn in HX.
  rewrite Hrefused in HX. cbn in HX. subst X.
  unfold publish_error, throw, either.
  destruct (bool_decide (e_status e = Some 401)), (bool_decide (e_status e = Some 422));
    cbn; (split; [reflexivity|]);
    by rewrite <- !app_assoc, drop_app_length.
Qed.

Lemma publisher_creation_refused_witness :
  fst (createGitHubRepository part_001 Examples.bakery
         (Examples.github_with_failures [1%nat]) Examples.fresh)
    = Throw (publish_error (mkError "Server Error" (Some 500) None)) /\
  calls_of (createGitHubRepository part_001 Examples.bakery)
           (Examples.github_with_failures [1%nat]) Examples.fresh
    = [UsersGetAuthenticated (JStr (configured (Examples.github_with_failures [1%nat])
                                      "GITHUB_TOKEN"));
       ReposCreateForAuthenticatedUser
         (JStr (configured (Examples.github_with_failures [1%nat]) "GITHUB_TOKEN"))
         ("happy-website-" +:+ stamp (clock (Examples.github_with_failures [1%nat])
                                             (ticks Examples.fresh)))
         ("Website created with Happy AI Builder - "
            +:+ ToString (either (supplied Examples.bakery "name") (JStr "AI Generated")))].
Proof.
  apply (publisher_creation_refused part_001 Examples.bakery
           (Examples.github_with_failures [1%nat]) Examples.fresh
           (mkError "Server Error" (Some 500) None)); try done.
Defined.

(** * The website factory *)

Section Throws.
Context {S : Type}.

Lemma throws_only_never {A} (Q : Error -> Prop) (m : M S A) :
  never_throws m -> throws_only Q m.
Proof. intros Hm env w e He. destruct (Hm env w) as [a Ha]. congruence. Qed.

Lemma throws_only_throw {A} (Q : Error -> Prop) e : Q e -> throws_only Q (@throw S A e).
Proof. by intros He env w e' [= <-]. Qed.

Lemma throws_only_bind {A B} (Q : Error -> Prop) (m : M S A) (k : A -> M S B) :
  throws_only Q m -> (forall a, throws_only Q (k a)) -> throws_only Q (bind m k).
Proof.
  intros Hm Hk env w e. unfold bind. specialize (Hm env w).
  destruct (m env w) as [[a|e'] w']; cbn in *; [apply Hk | intros [= <-]; by apply Hm].
Qed.

Lemma throws_only_try_catch {A} (Q : Error -> Prop) (m : M S A) (h : Error -> M S A) :
  (forall e, throws_only Q (h e)) -> throws_only Q (try_catch m h).
Proof.
  intros Hh env w e. unfold try_catch.
  destruct (m env w) as [[a|e'] w']; cbn; [discriminate | apply Hh].
Qed.

Lemma throws_only_if {A} (Q : Error -> Prop) (c : bool) (m1 m2 : M S A) :
  throws_only Q m1 -> throws_only Q m2 -> throws_only Q (if c then m1 else m2).
Proof. by destruct c. Qed.

Lemma never_throws_getenv name : never_throws (@getenv S name).
Proof. intros env w. by eexists. Qed.

End Throws.

#[global] Hint Resolve never_throws_getenv : outcome.

Arguments Factory.createFallbackHTML : simpl never.

Lemma never_throws_too_short description : never_throws (Factory.too_short description).
Proof.
  unfold Factory.too_short. destruct (truthy description) eqn:Ht; cbn [negb]; [|outcome].
  intros env w. unfold prop. run. destruct description; try discriminate; by eexists.
Qed.

Lemma createFallbackHTML_run s env (w : World Factory.Agents) :
  exists html, Factory.createFallbackHTML (JStr s) env w = (Normal html, w) /\ html <> "".
Proof.
  unfold Factory.createFallbackHTML. eexists. split; [reflexivity|].
  by apply append_nonempty.
Qed.

Lemma never_throws_generateWebsiteCode s : never_throws (Factory.generateWebsiteCode (JStr s)).
Proof.
  unfold Factory.generateWebsiteCode. apply never_throws_try_catch. intros e.
  apply never_throws_bind; [outcome|]. intros _.
  apply never_throws_bind; [|outcome].
  intros env w. destruct (createFallbackHTML_run s env w) as (html & -> & _). by eexists.
Qed.

Lemma factory_publisher_throws code agentId :
  throws_only (fun e => e = new_Error "Failed to create GitHub repository")
    (Factory.createGitHubRepository code agentId).
Proof.
  unfold Factory.createGitHubRepository. apply throws_only_try_catch. intros e.
  apply throws_only_bind; [apply throws_only_never; outcome|]. intros _.
  by apply throws_only_throw.
Qed.

Lemma factory_deployer_throws repoFullName :
  throws_only (fun e => e = new_Error "Failed to deploy to Vercel")
    (Factory.deployToVercel repoFullName).
Proof.
  unfold Factory.deployToVercel. apply throws_only_try_catch. intros e.
  apply throws_only_bind; [apply throws_only_never; outcome|]. intros _.
  by apply throws_only_throw.
Qed.

(** X17: The two publishing steps of the factory hide what went wrong: whatever
    fails inside [createGitHubRepository], it throws 'Failed to create
    GitHub repository' and nothing else, and [deployToVercel] throws
    'Failed to deploy to Vercel' and nothing else; both errors carry no
    status. *)
Theorem factory_steps_hide_cause code agentId repoFullName env (w : World Factory.Agents) :
  (forall e, fst (Factory.createGitHubRepository code agentId env w) = Throw e ->
     e = new_Error "Failed to create GitHub repository") /\
  (forall e, fst (Factory.deployToVercel repoFullName env w) = Throw e ->
     e = new_Error "Failed to deploy to Vercel").
Proof.
  split; intros e He.
  - by apply (factory_publisher_throws code agentId env w).
  - by apply (factory_deployer_throws repoFullName env w).
Qed.

Lemma never_throws_generate_website description agentId :
  never_throws (Factory.generate_website description agentId).
Proof. unfold Factory.generate_website. outcome. Qed.

(** X18: Every request to the pipeline is answered, with 200, 400 or 500. *)
Theorem generate_website_always_answers description agentId env (w : World Factory.Agents) :
  exists r,
    fst (Factory.generate_website description agentId env w) = Normal r /\
    (status r = 200 \/ r = Factory.generate_rejected \/
     exists e, r = generate_failed (e_message e)).
Proof.
  destruct (never_throws_generate_website description agentId env w) as [r Hr].
  exists r. split; [done|]. revert env w r Hr.
  change (returns_only (fun r => status r = 200 \/ r = Factory.generate_rejected \/
                          exists e, r = generate_failed (e_message e))
            (Factory.generate_website description agentId)).
  unfold Factory.generate_website. outcome; cbn; eauto.
Qed.

Lemma returns_only_try_catch_with {S A} (P : Error -> Prop) (Q : A -> Prop)
    (m : M S A) (h : Error -> M S A) :
  returns_only Q m -> throws_only P m -> (forall e, P e -> returns_only Q (h e)) ->
  returns_only Q (try_catch m h).
Proof.
  intros Hm Ht Hh env w a. unfold try_catch. specialize (Hm env w). specialize (Ht env w).
  destruct (m env w) as [[a'|e] w']; cbn in *; [intros [= <-]; by apply Hm|].
  apply Hh. by apply Ht.
Qed.

Lemma throws_only_weaken {S A} (P Q : Error -> Prop) (m : M S A) :
  (forall e, P e -> Q e) -> throws_only P m -> throws_only Q m.
Proof. intros HPQ Hm env w e He. apply HPQ. by apply (Hm env w). Qed.

(** X19: For a description that is a text the pipeline has four answers: the
    site (200), the rejection of a short description (400), and two
    failures (500), 'Failed to create GitHub repository' and 'Failed to
    deploy to Vercel'.  No other error message reaches the caller, and a
    failure of the model is not an error at all. *)
Theorem generate_website_answers s agentId env (w : World Factory.Agents) :
  exists r,
    fst (Factory.generate_website (JStr s) agentId env w) = Normal r /\
    (status r = 200 \/ r = Factory.generate_rejected \/
     r = generate_failed "Failed to create GitHub repository" \/
     r = generate_failed "Failed to deploy to Vercel").
Proof.
  destruct (never_throws_generate_website (JStr s) agentId env w) as [r Hr].
  exists r. split; [done|]. revert env w r Hr.
  change (returns_only (fun r => status r = 200 \/ r = Factory.generate_rejected \/
                          r = generate_failed "Failed to create GitHub repository" \/
                          r = generate_failed "Failed to deploy to Vercel")
            (Factory.generate_website (JStr s) agentId)).
  unfold Factory.generate_website. apply returns_only_bind. intros _.
  apply (returns_only_try_catch_with
           (fun e => e = new_Error "Failed to create GitHub repository" \/
                     e = new_Error "Failed to deploy to Vercel")).
  - outcome; cbn; eauto.
  - apply throws_only_bind; [apply throws_only_never, never_throws_too_short|].
    intros short. apply throws_only_if; [apply throws_only_never; outcome|].
    apply throws_only_bind; [apply throws_only_never; outcome|]. intros _.
    apply throws_only_bind; [apply throws_only_never, never_throws_generateWebsiteCode|].
    intros websiteCode.
    apply throws_only_bind; [apply throws_only_never; outcome|]. intros _.
    apply throws_only_bind.
    { eapply throws_only_weaken; [|apply factory_publisher_throws]. auto. }
    intros githubRepo.
    apply throws_only_bind; [apply throws_only_never; outcome|]. intros _.
    apply throws_only_bind.
    { eapply throws_only_weaken; [|apply factory_deployer_throws]. auto. }
    intros vercelUrl. apply throws_only_never. outcome.
  - intros e [-> | ->]; outcome; cbn; auto.
Qed.

(** ** What the pipeline records *)

Lemma ensures_after_keeps {S A B} (Q : S -> Completion B -> S -> Prop)
    (m : M S A) (k : A -> M S B) :
  keeps_store m -> (forall s e, Q s (Throw e) s) -> (forall a, ensures Q (k a)) ->
  ensures Q (bind m k).
Proof.
  intros Hm Hthrow Hk env w. unfold bind. specialize (Hm env w).
  destruct (m env w) as [[a|e] w']; cbn in *.
  - rewrite Hm. apply Hk.
  - rewrite <- Hm. apply Hthrow.
Qed.

Lemma ensures_if {S A} (Q : S -> Completion A -> S -> Prop) (c : bool) (m1 m2 : M S A) :
  ensures Q m1 -> ensures Q m2 -> ensures Q (if c then m1 else m2).
Proof. by destruct c. Qed.

Lemma keeps_too_short description : keeps_store (Factory.too_short description).
Proof. unfold Factory.too_short. frame. Qed.

Lemma keeps_factory_generateWebsiteCode description :
  keeps_store (Factory.generateWebsiteCode description).
Proof.
  unfold Factory.generateWebsiteCode, Factory.DEEPSEEK_API_KEY, Factory.createFallbackHTML.
  frame.
Qed.

Lemma keeps_add_file auth repo path message code k :
  keeps_store (Factory.add_file auth repo path message code k).
Proof. unfold Factory.add_file. frame. Qed.

Lemma keeps_factory_createGitHubRepository code agentId :
  keeps_store (Factory.createGitHubRepository code agentId).
Proof.
  unfold Factory.createGitHubRepository, Factory.GITHUB_TOKEN.
  pose proof keeps_add_file. frame.
Qed.

Lemma keeps_factory_deployToVercel repoFullName :
  keeps_store (Factory.deployToVercel repoFullName).
Proof.
  unfold Factory.deployToVercel, Factory.VERCEL_TOKEN, Factory.second_segment. frame.
Qed.

Lemma generate_website_try_records description agentId :
  ensures (fun s c s' => match c with
                         | Normal r => recorded description agentId s r s'
                         | Throw _ => s' = s
                         end)
    (let* short := Factory.too_short description in
     if short then ret Factory.generate_rejected
     else
       console_log [Text "🔧 Step 1: AI code generation"];;
       let* websiteCode := Factory.generateWebsiteCode description in
       console_log [Text "💾 Step 2: Creating GitHub repo"];;
       let* githubRepo := Factory.createGitHubRepository websiteCode agentId in
       console_log [Text "🚀 Step 3: Deploying to Vercel"];;
       let* vercelUrl := Factory.deployToVercel (Factory.Repo.fullName githubRepo) in
       console_log [Text "✅ Website created successfully"];;
       let* agents := get_store in
       (if Factory.agents_has agentId agents then
          let* now := Date_now in
          put_store (Factory.agents_push_website agentId
                       (Factory.Website.mk vercelUrl (Factory.Repo.url githubRepo)
                          description now) agents)
        else ret tt);;
       ret (json (JObj [("success", JBool true);
                        ("url", JStr vercelUrl);
                        ("github", Factory.Repo.url githubRepo);
                        ("message", JStr "Website created and deployed!");
                        ("agentId", agentId)])))%js.
Proof.
  apply ensures_after_keeps; [apply keeps_too_short | done |]. intros short.
  apply ensures_if; [intros env w; by split|].
  apply ensures_after_keeps; [frame | done |]. intros _.
  apply ensures_after_keeps; [apply keeps_factory_generateWebsiteCode | done |].
  intros websiteCode.
  apply ensures_after_keeps; [frame | done |]. intros _.
  apply ensures_after_keeps; [apply keeps_factory_createGitHubRepository | done |].
  intros githubRepo.
  apply ensures_after_keeps; [frame | done |]. intros _.
  apply ensures_after_keeps; [apply keeps_factory_deployToVercel | done |].
  intros vercelUrl.
  intros env w. run. destruct (Factory.agents_has agentId (store w)) eqn:Hhas; cbn.
  - split; [|intros [H|H]; [by destruct H | cbn in H; congruence]].
    intros _ _. eexists. by repeat split.
  - split; [congruence | done].
Qed.

Lemma generate_website_recorded description agentId env (w : World Factory.Agents) :
  exists r,
    fst (Factory.generate_website description agentId env w) = Normal r /\
    recorded description agentId (store w) r
      (store (snd (Factory.generate_website description agentId env w))).
Proof.
  remember (Factory.generate_website description agentId env w) as X eqn:HX.
  unfold Factory.generate_website in HX.
  match type of HX with
  | context [try_catch ?m ?h] => set (body := m) in HX; set (handler := h) in HX
  end.
  pose proof (generate_website_try_records description agentId env
                (mkWorld (store w) (ticks w) (outbox w)
                   (console w ++ [(Log, [Text "🌐 Generating website..."])]))) as Hbody.
  fold body in Hbody. cbn beta in Hbody. cbn [store] in Hbody.
  unfold bind at 1 in HX. unfold try_catch in HX. cbn [console_log fst snd] in HX.
  destruct (body env _) as [[r|e] w']; cbn [fst snd] in *.
  - subst X. by exists r.
  - subst X handler. run. eexists. split; [reflexivity|]. by split.
Qed.

(** X20: The pipeline touches the store in one case only: the answer is 200 and
    the agent of the request is known; then exactly one website is added to
    that agent, holding the address and the repository of the answer and
    the description of the request.  In every other case (rejection,
    failure, unknown agent) the store is as it was. *)
Theorem generate_website_records description agentId env (w : World Factory.Agents) :
  exists r,
    fst (Factory.generate_website description agentId env w) = Normal r /\
    recorded description agentId (store w) r
      (store (snd (Factory.generate_website description agentId env w))).
Proof. apply generate_website_recorded. Qed.

(** ** Reading an agent *)

Lemma same_value_text k s : same_value k (JStr s) = true <-> k = JStr s.
Proof.
  destruct k; cbn; try (split; [discriminate | discriminate]).
  rewrite String.eqb_eq. split; [by intros -> | by intros [= ->]].
Qed.

Lemma agents_get_none s (agents : Factory.Agents) :
  Factory.agents_get (JStr s) agents = None <-> forall k a, (k, a) ∈ agents -> k <> JStr s.
Proof.
  induction agents as [|[k a] rest IH]; cbn.
  - split; [|done]. intros _ k a Hin. by apply elem_of_nil in Hin.
  - destruct (same_value k (JStr s)) eqn:Hk.
    + split; [discriminate|]. intros Hall. apply same_value_text in Hk.
      destruct (Hall k a); [left | done].
    + rewrite IH. split.
      * intros Hall k' a' [[= -> ->]|Hin]%elem_of_cons; [|by eapply Hall].
        intros Heq. apply same_value_text in Heq. congruence.
      * intros Hall k' a' Hin. eapply Hall. by right.
Qed.

Lemma agents_get_has agentId (agents : Factory.Agents) agent :
  Factory.agents_get agentId agents = Some agent -> Factory.agents_has agentId agents = true.
Proof.
  induction agents as [|[k a] rest IH]; cbn; [discriminate|].
  destruct (same_value k agentId); cbn; [done | apply IH].
Qed.

Lemma agents_get_push agentId site (agents : Factory.Agents) :
  Factory.agents_get agentId (Factory.agents_push_website agentId site agents)
    = (fun a => Factory.Agent.mk (Factory.Agent.id a) (Factory.Agent.created a)
                  (Factory.Agent.conversation a) (Factory.Agent.websites a ++ [site]))
        <$> Factory.agents_get agentId agents.
Proof.
  induction agents as [|[k a] rest IH]; cbn; [done|].
  destruct (same_value k agentId) eqn:Hk; cbn; rewrite Hk; [done|]. apply IH.
Qed.

Lemma agent_info_run agentId env (w : World Factory.Agents) :
  Factory.agent_info agentId env w
    = (Normal (match Factory.agents_get (JStr agentId) (store w) with
               | Some agent => agent_answer env agent
               | None => Factory.agent_not_found
               end), w).
Proof.
  unfold Factory.agent_info. run.
  destruct (Factory.agents_get (JStr agentId) (store w)); by destruct w.
Qed.

(** X21: [GET /api/agent/:agentId] changes nothing, and it answers 404 exactly
    when no agent is stored under the text of the route: an agent that was
    stored under a number, or under no id at all, is never found. *)
Theorem agent_info_by_text agentId env (w : World Factory.Agents) :
  snd (Factory.agent_info agentId env w) = w /\
  (fst (Factory.agent_info agentId env w) = Normal Factory.agent_not_found <->
   forall k a, (k, a) ∈ store w -> k <> JStr agentId).
Proof.
  rewrite <- agents_get_none, agent_info_run. cbn [fst snd]. split; [done|].
  destruct (Factory.agents_get (JStr agentId) (store w)) as [agent|]; [|done].
  split; discriminate.
Qed.

(** X22: A site the pipeline has answered with 200 for a known agent is the last
    website of that agent at the next read: the count is one more than
    before, the earlier websites are as they were, and the new one has the
    address and the repository of the answer. *)
Theorem generated_site_is_listed description agentId env (w : World Factory.Agents) r agent :
  fst (Factory.generate_website description (JStr agentId) env w) = Normal r ->
  status r = 200 ->
  Factory.agents_get (JStr agentId) (store w) = Some agent ->
  exists site,
    field "url" r = JStr (Factory.Website.url site) /\
    field "github" r = Factory.Website.github site /\
    Factory.Website.description site = description /\
    fst (Factory.agent_info agentId env
           (snd (Factory.generate_website description (JStr agentId) env w)))
      = Normal (agent_answer env
                  (Factory.Agent.mk (Factory.Agent.id agent) (Factory.Agent.created agent)
                     (Factory.Agent.conversation agent)
                     (Factory.Agent.websites agent ++ [site]))).
Proof.
  intros Hr Hstatus Hagent.
  destruct (generate_website_recorded description (JStr agentId) env w) as (r' & Hr' & Hrec & _).
  assert (r' = r) as -> by congruence.
  destruct Hrec as (site & Hstore & Hurl & Hgithub & Hdescription); [done| |].
  { by eapply agents_get_has. }
  exists site. repeat split; try done.
  rewrite agent_info_run. cbn [fst]. by rewrite Hstore, agents_get_push, Hagent.
Qed.

Lemma generated_site_is_listed_witness :
  exists site,
    field "url" FactoryExamples.answer = JStr (Factory.Website.url site) /\
    field "github" FactoryExamples.answer = Factory.Website.github site /\
    Factory.Website.description site = FactoryExamples.description /\
    fst (Factory.agent_info "a1" FactoryExamples.online
           (snd (Factory.generate_website FactoryExamples.description (JStr "a1")
                   FactoryExamples.online FactoryExamples.one_agent)))
      = Normal (agent_answer FactoryExamples.online
                  (Factory.Agent.mk (Factory.Agent.id FactoryExamples.agent)
                     (Factory.Agent.created FactoryExamples.agent)
                     (Factory.Agent.conversation FactoryExamples.agent)
                     (Factory.Agent.websites FactoryExamples.agent ++ [site]))).
Proof.
  apply (generated_site_is_listed FactoryExamples.description "a1" FactoryExamples.online
           FactoryExamples.one_agent FactoryExamples.answer FactoryExamples.agent);
    reflexivity.
Defined.

(** ** The factory's generator *)

Lemma createFallbackHTML_total s :
  exists html,
    (forall env (w : World Factory.Agents),
       Factory.createFallbackHTML (JStr s) env w = (Normal html, w)) /\
    html <> "".
Proof.
  unfold Factory.createFallbackHTML. eexists. split; [reflexivity|]. by apply append_nonempty.
Qed.

(** X23: For a description that is a text the factory's generator never throws
    and always sends one completion request, with or without a key.  It
    returns what [JSON.parse] made of the content, whatever that is (no
    field is looked at), and the fallback object when the request is
    refused, the answer has no content, or the content is not JSON. *)
Theorem factory_generator_outcome s env (w : World Factory.Agents) :
  let request :=
    ChatCompletions (variable env "DEEPSEEK_API_KEY") (Some Factory.system_content)
      ("Create a website: " +:+ s) 4000 None in
  calls_of (Factory.generateWebsiteCode (JStr s)) env w = [request] /\
  exists code,
    fst (Factory.generateWebsiteCode (JStr s) env w) = Normal code /\
    match remote env (List.length (outbox w)) request with
    | Resolve response =>
        match and_then (Factory.completion_content response) (JSON_parse env) with
        | Normal parsed => code = parsed
        | Throw _ => fallback_code s code
        end
    | Reject _ => fallback_code s code
    end.
Proof.
  destruct (createFallbackHTML_total s) as (html & Hhtml & Hne).
  assert (fallback_code s (JObj [("html", JStr html); ("css", JStr Factory.createFallbackCSS);
                                 ("js", JStr Factory.createFallbackJS)])) as Hfallback.
  { by exists html. }
  cbn zeta. unfold calls_of, variable, Factory.generateWebsiteCode, Factory.DEEPSEEK_API_KEY.
  run.
  destruct (remote env _ _) as [response|e]; cbn.
  - destruct (Factory.completion_content response) as [content|e]; cbn.
    + destruct (JSON_parse env content) as [parsed|e]; cbn.
      * split; [by rewrite drop_app_length|]. by eexists.
      * rewrite Hhtml. cbn. split; [by rewrite drop_app_length|]. by eexists.
    + rewrite Hhtml. cbn. split; [by rewrite drop_app_length|]. by eexists.
  - rewrite Hhtml. cbn. split; [by rewrite drop_app_length|]. by eexists.
Qed.

(** ** The factory's publisher *)

(** One file creation of the factory: when it returns, one request has
    been sent, for that path, and it was answered. *)
Lemma add_file_returns auth repo path message code k env (w w' : World Factory.Agents) :
  Factory.add_file auth repo path message code k env w = (Normal tt, w') ->
  exists c answer,
    call_name c = "repos.createOrUpdateFileContents " +:+ path /\
    remote env (List.length (outbox w)) c = Resolve answer /\
    outbox w' = (outbox w ++ [c])%list.
Proof.
  unfold Factory.add_file, prop. run.
  destruct (member repo "data") as [data|e]; cbn; [|discriminate].
  destruct (member data "owner") as [owner|e]; cbn; [|discriminate].
  destruct (member owner "login") as [login|e]; cbn; [|discriminate].
  destruct (member data "name") as [name|e]; cbn; [|discriminate].
  destruct (member code k) as [text|e]; cbn; [|discriminate].
  destruct (base64 env text) as [content|e]; cbn; [|discriminate].
  destruct (remote env _ _) as [answer|e] eqn:Hanswer; cbn; [|discriminate].
  intros [= <-].
  exists (ReposCreateOrUpdateFileContents auth login name path message content), answer.
  split; [reflexivity|]. split; [exact Hanswer|]. reflexivity.
Qed.

Arguments Factory.add_file : simpl never.

(** X24: The factory's publisher returns a repository only if all four requests
    were answered: the creation of the repository and then the three files,
    in this order.  One refusal, of any of them, fails the publication. *)
Theorem factory_publisher_all_or_nothing code agentId env (w : World Factory.Agents) made :
  fst (Factory.createGitHubRepository code agentId env w) = Normal made ->
  map call_name (calls_of (Factory.createGitHubRepository code agentId) env w)
    = ["repos.createForAuthenticatedUser";
       "repos.createOrUpdateFileContents index.html";
       "repos.createOrUpdateFileContents style.css";
       "repos.createOrUpdateFileContents script.js"] /\
  forall i c,
    calls_of (Factory.createGitHubRepository code agentId) env w !! i = Some c ->
    exists answer, remote env (List.length (outbox w) + i) c = Resolve answer.
Proof.
  unfold calls_of.
  remember (Factory.createGitHubRepository code agentId env w) as X eqn:HX.
  unfold Factory.createGitHubRepository, Factory.GITHUB_TOKEN in HX.
  unfold bind, try_catch, ret, throw, lift, ask, Date_now, console_log, console_error,
    prop, getenv, await in HX.
  cbn in HX.
  match type of HX with
  | context [remote env (List.length (outbox w)) ?c] => set (c0 := c) in HX
  end.
  destruct (remote env (List.length (outbox w)) c0) as [repo|e] eqn:Hrepo; cbn in HX;
    [|subst X; discriminate].
  match type of HX with
  | context [Factory.add_file ?a ?r ?p ?m ?c ?k env ?w1] =>
      destruct (Factory.add_file a r p m c k env w1) as [[[]|e] w2] eqn:H1; cbn in HX;
        [apply add_file_returns in H1 as (c1 & a1 & Hn1 & Ha1 & Ho1)|subst X; discriminate]
  end.
  match type of HX with
  | context [Factory.add_file ?a ?r ?p ?m ?c ?k env ?w1] =>
      destruct (Factory.add_file a r p m c k env w1) as [[[]|e] w3] eqn:H2; cbn in HX;
        [apply add_file_returns in H2 as (c2 & a2 & Hn2 & Ha2 & Ho2)|subst X; discriminate]
  end.
  match type of HX with
  | context [Factory.add_file ?a ?r ?p ?m ?c ?k env ?w1] =>
      destruct (Factory.add_file a r p m c k env w1) as [[[]|e] w4] eqn:H3; cbn in HX;
        [apply add_file_returns in H3 as (c3 & a3 & Hn3 & Ha3 & Ho3)|subst X; discriminate]
  end.
  cbn in Ho1, Ha1. rewrite Ho1 in Ha2, Ho2. rewrite Ho2 in Ha3, Ho3.
  rewrite !length_app in Ha1, Ha2, Ha3. cbn in Ha1, Ha2, Ha3.
  assert (outbox (snd X) = (outbox w ++ [c0; c1; c2; c3])%list) as Hout.
  { subst X.
    destruct (member repo "data") as [data|e]; cbn; [|by rewrite Ho3, <- !app_assoc].
    destruct (member data "html_url") as [u|e]; cbn; [|by rewrite Ho3, <- !app_assoc].
    destruct (member data "full_name") as [f|e]; cbn; by rewrite Ho3, <- !app_assoc. }
  intros _. rewrite Hout, drop_app_length. split.
  - cbn. by rewrite Hn1, Hn2, Hn3.
  - intros [|[|[|[|i]]]] c; cbn; intros [= <-];
      [ exists repo; rewrite <- Hrepo | exists a1; rewrite <- Ha1
      | exists a2; rewrite <- Ha2 | exists a3; rewrite <- Ha3 ];
      f_equal; rewrite ?length_app; cbn [List.length]; lia.
Qed.

Lemma factory_publisher_all_or_nothing_witness :
  map call_name (calls_of (Factory.createGitHubRepository
                             (JObj [("html", JStr "<p>hi</p>"); ("css", JStr "");
                                    ("js", JStr "")]) (JStr "a1"))
                   FactoryExamples.online FactoryExamples.one_agent)
    = ["repos.createForAuthenticatedUser";
       "repos.createOrUpdateFileContents index.html";
       "repos.createOrUpdateFileContents style.css";
       "repos.createOrUpdateFileContents script.js"] /\
  forall i c,
    calls_of (Factory.createGitHubRepository
                (JObj [("html", JStr "<p>hi</p>"); ("css", JStr ""); ("js", JStr "")])
                (JStr "a1"))
      FactoryExamples.online FactoryExamples.one_agent !! i = Some c ->
    exists answer,
      remote FactoryExamples.online (List.length (outbox FactoryExamples.one_agent) + i) c
        = Resolve answer.
Proof.
  apply (factory_publisher_all_or_nothing
           (JObj [("html", JStr "<p>hi</p>"); ("css", JStr ""); ("js", JStr "")]) (JStr "a1")
           FactoryExamples.online FactoryExamples.one_agent
           (Factory.Repo.mk (JStr "https://github.com/octo/site") (JStr "octo/site"))).
  reflexivity.
Defined.

(** ** The agents of the factory *)

Lemma agents_push_website_keys agentId site (agents : Factory.Agents) :
  map fst (Factory.agents_push_website agentId site agents) = map fst agents.
Proof.
  induction agents as [|[k a] rest IH]; cbn; [done|].
  destruct (same_value k agentId); cbn; [done | by rewrite IH].
Qed.

Lemma health_run env (w : World Factory.Agents) :
  fst (Factory.health env w)
    = Normal (json (JObj [("status", JStr "OK");
                          ("agents", JNum (Z.of_nat (List.length (store w))));
                          ("timestamp", JStr (toISOString env (clock env (ticks w))))])).
Proof. reflexivity. Qed.

(** X25: The pipeline neither creates nor removes an agent: the keys of the
    store are the same after every request, in the same order, and
    [GET /health] counts as many agents after it as before. *)
Theorem generate_website_keeps_agents description agentId env (w : World Factory.Agents) :
  map fst (store (snd (Factory.generate_website description agentId env w)))
    = map fst (store w) /\
  exists before after,
    fst (Factory.health env w) = Normal before /\
    fst (Factory.health env (snd (Factory.generate_website description agentId env w)))
      = Normal after /\
    field "agents" after = field "agents" before.
Proof.
  assert (map fst (store (snd (Factory.generate_website description agentId env w)))
            = map fst (store w)) as Hkeys.
  { destruct (generate_website_recorded description agentId env w) as (r & _ & Hpush & Hsame).
    destruct (decide (status r = 200)) as [Hstatus|Hstatus]; [|by rewrite Hsame; [|left]].
    destruct (Factory.agents_has agentId (store w)) eqn:Hhas; [|by rewrite Hsame; [|right]].
    destruct (Hpush Hstatus eq_refl) as (site & -> & _). apply agents_push_website_keys. }
  split; [done|]. eexists _, _. rewrite !health_run. split; [done|]. split; [done|].
  apply (f_equal (@List.length _)) in Hkeys. rewrite !length_map in Hkeys.
  remember (snd (Factory.generate_website description agentId env w)) as w' eqn:Hw'.
  cbn. by rewrite Hkeys.
Qed.
